(** * Credit-card statement analyzer: a shallow embedding of [app.py]

    The development follows the layout of [app.py]:

    - the Python runtime pieces the script relies on ([str], [re.sub],
      [float], [repr], [str.strip], [json.loads], dict operations) are
      modelled first, each from the behaviour of CPython 3;
    - [parse_amount] and [extract_data_from_file] are transcribed from
      the script, then the top-level upload handling, the analytics and
      the export code;
    - the theorems about them come last.

    A Python [str] is a list of Unicode code points, a [float] is an
    IEEE-754 binary64 value ([spec_float] with 53 bits of precision and
    exponents below 1024), a raised exception is the [Raise] branch of
    [result]. *)

From Stdlib Require Import ZArith NArith List Bool Lia String Ascii.
From Stdlib Require Import Floats.SpecFloat.
From stdpp Require Import base option list gmap.

Local Open Scope Z_scope.

(** ** Text *)

Module Text.

(** A character is a Unicode code point; a Python [str] is a sequence of
    them. *)
Definition char := N.
Definition pystr := list char.

(** Decoding of the UTF-8 bytes of a source literal into code points, so
    that literals can be written as they stand in the script. *)
Fixpoint utf8_decode (bs : list N) : pystr :=
  match bs with
  | [] => []
  | b0 :: r0 =>
    if (b0 <? 0x80)%N then b0 :: utf8_decode r0
    else match r0 with
    | [] => [b0]
    | b1 :: r1 =>
      if (b0 <? 0xE0)%N
      then ((b0 - 0xC0) * 64 + (b1 - 0x80))%N :: utf8_decode r1
      else match r1 with
      | [] => [b0; b1]
      | b2 :: r2 =>
        if (b0 <? 0xF0)%N
        then ((b0 - 0xE0) * 4096 + (b1 - 0x80) * 64 + (b2 - 0x80))%N
               :: utf8_decode r2
        else match r2 with
        | [] => [b0; b1; b2]
        | b3 :: r3 =>
          ((b0 - 0xF0) * 262144 + (b1 - 0x80) * 4096
           + (b2 - 0x80) * 64 + (b3 - 0x80))%N :: utf8_decode r3
        end
      end
    end
  end.

Definition py (s : string) : pystr :=
  utf8_decode (List.map (fun a => N_of_ascii a) (list_ascii_of_string s)).

Definition ch (a : ascii) : char := N_of_ascii a.

(** The double quote, and literals written with ['] where the text has
    a double quote. *)
Definition dquote : char := 0x22%N.
Definition pyq (s : string) : pystr :=
  List.map (fun c => if (c =? 0x27)%N then dquote else c) (py s).

Arguments py : simpl never.
Arguments pyq : simpl never.
Arguments ch : simpl never.

Definition char_eqb (a b : char) : bool := (a =? b)%N.

Fixpoint str_eqb (a b : pystr) : bool :=
  match a, b with
  | [], [] => true
  | x :: a', y :: b' => char_eqb x y && str_eqb a' b'
  | _, _ => false
  end.

(** [s.startswith(p)] and [s.endswith(p)]. *)
Fixpoint startswith (s p : pystr) : bool :=
  match p, s with
  | [], _ => true
  | _ :: _, [] => false
  | x :: p', y :: s' => char_eqb x y && startswith s' p'
  end.

Definition endswith (s p : pystr) : bool := startswith (rev s) (rev p).

(** Slices [s[n:]] and [s[:-n]] for a literal [n > 0]. *)
Definition slice_from (n : nat) (s : pystr) : pystr := drop n s.
Definition slice_to_minus (n : nat) (s : pystr) : pystr :=
  take (length s - n)%nat s.

(** [Py_UNICODE_ISSPACE]: the characters [str.strip()] removes. *)
Definition isspace (c : char) : bool :=
  ((0x09 <=? c) && (c <=? 0x0D) || (0x1C <=? c) && (c <=? 0x20)
   || (c =? 0x85) || (c =? 0xA0) || (c =? 0x1680)
   || (0x2000 <=? c) && (c <=? 0x200A)
   || (c =? 0x2028) || (c =? 0x2029) || (c =? 0x202F)
   || (c =? 0x205F) || (c =? 0x3000))%N.

Fixpoint lstrip_by (sp : char -> bool) (s : pystr) : pystr :=
  match s with
  | [] => []
  | c :: r => if sp c then lstrip_by sp r else s
  end.

Definition rstrip_by (sp : char -> bool) (s : pystr) : pystr :=
  rev (lstrip_by sp (rev s)).

Definition strip_by (sp : char -> bool) (s : pystr) : pystr :=
  rstrip_by sp (lstrip_by sp s).

(** [s.strip()] *)
Definition strip (s : pystr) : pystr := strip_by isspace s.

(** First code point of each run of ten decimal digits (general category
    Nd, Unicode 15): the characters for which [Py_UNICODE_TODECIMAL] is
    defined. ['\d'] in a [str] pattern matches exactly these, and
    [float] reads each of them as the ASCII digit of the same value. *)
Definition decimal_runs : list N :=
  [0x0030; 0x0660; 0x06F0; 0x07C0; 0x0966; 0x09E6; 0x0A66; 0x0AE6;
   0x0B66; 0x0BE6; 0x0C66; 0x0CE6; 0x0D66; 0x0DE6; 0x0E50; 0x0ED0;
   0x0F20; 0x1040; 0x1090; 0x17E0; 0x1810; 0x1946; 0x19D0; 0x1A80;
   0x1A90; 0x1B50; 0x1BB0; 0x1C40; 0x1C50; 0xA620; 0xA8D0; 0xA900;
   0xA9D0; 0xA9F0; 0xAA50; 0xABF0; 0xFF10; 0x104A0; 0x10D30; 0x11066;
   0x110F0; 0x11136; 0x111D0; 0x112F0; 0x11450; 0x114D0; 0x11650;
   0x116C0; 0x11730; 0x118E0; 0x11950; 0x11C50; 0x11D50; 0x11DA0;
   0x11F50; 0x16A60; 0x16AC0; 0x16B50; 0x1D7CE; 0x1D7D8; 0x1D7E2;
   0x1D7EC; 0x1D7F6; 0x1E140; 0x1E2F0; 0x1E4F0; 0x1E950; 0x1FBF0]%N.

Fixpoint decimal_in (runs : list N) (c : char) : option N :=
  match runs with
  | [] => None
  | lo :: rest =>
    if ((lo <=? c) && (c <? lo + 10))%N then Some (c - lo)%N
    else decimal_in rest c
  end.

(** [Py_UNICODE_TODECIMAL] *)
Definition todecimal (c : char) : option N := decimal_in decimal_runs c.

Definition isdecimal (c : char) : bool :=
  match todecimal c with Some _ => true | None => false end.

(** ASCII digits, as [Py_ISDIGIT]. *)
Definition isdigit (c : char) : bool := ((0x30 <=? c) && (c <=? 0x39))%N.

(** [re.sub(pattern, repl, s)] for a pattern that is one character
    class: the string is scanned from the left, every character in the
    class is one match and is replaced, the others are copied. *)
Fixpoint re_sub_class (cls : char -> bool) (repl s : pystr) : pystr :=
  match s with
  | [] => []
  | c :: r =>
    if cls c then repl ++ re_sub_class cls repl r
    else c :: re_sub_class cls repl r
  end.

(** Decimal digits of a natural number, most significant first. *)
Fixpoint digits_of_pos_fuel (fuel : nat) (n : N) (acc : pystr) : pystr :=
  match fuel with
  | O => acc
  | S k =>
    let acc' := (0x30 + n mod 10)%N :: acc in
    if (n <? 10)%N then acc' else digits_of_pos_fuel k (n / 10)%N acc'
  end.

Definition str_of_N (n : N) : pystr :=
  digits_of_pos_fuel (S (N.to_nat (N.log2 n))) n [].

(** [str(i)] for an [int]. *)
Definition str_of_Z (z : Z) : pystr :=
  if z <? 0 then ch "-" :: str_of_N (Z.to_N (- z)) else str_of_N (Z.to_N z).

End Text.
Export Text.

(** ** Exceptions *)

(** What the script's [except] clauses tell apart: [json.JSONDecodeError]
    and every other subclass of [Exception]. [str(e)] is the carried
    message. *)
Inductive exn :=
| JSONDecodeError (msg : pystr)
| OtherException (cls : pystr) (msg : pystr).

Inductive result (A : Type) :=
| Ok (a : A)
| Raise (e : exn).
Arguments Ok {A} a.
Arguments Raise {A} e.

Definition bind {A B} (r : result A) (k : A -> result B) : result B :=
  match r with
  | Ok a => k a
  | Raise e => Raise e
  end.

#[export] Instance result_mbind : MBind result := fun A B k r => bind r k.

Definition exn_str (e : exn) : pystr :=
  match e with
  | JSONDecodeError m => m
  | OtherException _ m => m
  end.

Definition AttributeError (m : string) : exn := OtherException (py "AttributeError") (py m).
Definition ValueError (m : string) : exn := OtherException (py "ValueError") (py m).
Definition TypeError (m : string) : exn := OtherException (py "TypeError") (py m).

(** ** Floats *)

Module Float.

Definition float := spec_float.

Definition fzero : float := S754_zero false.
Definition finf (s : bool) : float := S754_infinity s.
Definition fnan : float := S754_nan.

(** Binary64 arithmetic and comparison, from the IEEE-754 operations of
    the standard library. *)
Definition fadd : float -> float -> float := SFadd 53 1024.
Definition fmul : float -> float -> float := SFmul 53 1024.
Definition fdiv : float -> float -> float := SFdiv 53 1024.
Definition flt : float -> float -> bool := SFltb.
Definition feq : float -> float -> bool := SFeqb.

Definition is_zero (x : float) : bool :=
  match x with S754_zero _ => true | _ => false end.

(** [a / b] on Python floats: [ZeroDivisionError] when [b] is a zero. *)
Definition truediv (a b : float) : result float :=
  if is_zero b
  then Raise (OtherException (py "ZeroDivisionError") (py "float division by zero"))
  else Ok (fdiv a b).

(** [floor(log2(p/q))] for positive [p] and [q]. *)
Definition ratio_log2 (p q : Z) : Z :=
  let l := Z.log2 p - Z.log2 q in
  if q * 2 ^ Z.max 0 l <=? p * 2 ^ Z.max 0 (- l) then l else l - 1.

(** The binary64 value nearest to [p/q] (ties to even), with sign [s],
    for a positive fraction. The quotient is scaled to an integer of 53
    bits (fewer in the subnormal range, where the exponent stays at
    -1074) and rounded on the remainder. *)
Definition round_fraction (s : bool) (p q : Z) : float :=
  let e := Z.max (ratio_log2 p q - 52) (-1074) in
  let num := p * 2 ^ Z.max 0 (- e) in
  let den := q * 2 ^ Z.max 0 e in
  let n := num / den in
  let r := num mod den in
  let n' :=
    if 2 * r <? den then n
    else if den <? 2 * r then n + 1
    else if Z.even n then n else n + 1 in
  let '(m, e') := if n' =? 2 ^ 53 then (2 ^ 52, e + 1) else (n', e) in
  match m with
  | Zpos mp => if e' <=? 971 then S754_finite s mp e' else S754_infinity s
  | _ => S754_zero s
  end.

(** Correctly rounded conversion of [p/q] with sign [s], as [float] and
    [strtod] perform it. The fraction is first brought to lowest terms:
    the result depends on the value [p/q] alone. *)
Definition round_ratio (s : bool) (p q : Z) : float :=
  if p <=? 0 then S754_zero s
  else let g := Z.gcd p q in round_fraction s (p / g) (q / g).

(** [D * 10^x], rounded. *)
Definition round_decimal (s : bool) (D x : Z) : float :=
  round_ratio s (D * 10 ^ Z.max 0 x) (10 ^ Z.max 0 (- x)).

(** *** [float(s)] for a [str] *)

(** [_PyUnicode_TransformDecimalAndSpaceToASCII]: characters below 127
    are copied; of the others a space becomes a blank and a decimal
    digit the ASCII digit of its value; at any other character the text
    is cut and ends in ['?']. *)
Fixpoint transform_decimal_and_space (s : pystr) : pystr :=
  match s with
  | [] => []
  | c :: r =>
    if (c <? 127)%N then c :: transform_decimal_and_space r
    else if isspace c then 0x20%N :: transform_decimal_and_space r
    else match todecimal c with
         | Some d => (0x30 + d)%N :: transform_decimal_and_space r
         | None => [ch "?"]
         end
  end.

(** [Py_ISSPACE] *)
Definition ascii_isspace (c : char) : bool :=
  ((0x09 <=? c) && (c <=? 0x0D) || (c =? 0x20))%N.

(** [_Py_string_to_number_with_underscores]: an underscore is allowed
    only between two digits; [None] when one is misplaced. *)
Fixpoint drop_underscores (prev : char) (s : pystr) : option pystr :=
  match s with
  | [] => if char_eqb prev (ch "_") then None else Some []
  | c :: r =>
    if char_eqb c (ch "_")
    then if isdigit prev then drop_underscores c r else None
    else if char_eqb prev (ch "_") && negb (isdigit c) then None
    else option_map (cons c) (drop_underscores c r)
  end.

Fixpoint span_digits (s : pystr) : pystr * pystr :=
  match s with
  | c :: r =>
    if isdigit c then let '(d, t) := span_digits r in (c :: d, t)
    else ([], s)
  | [] => ([], [])
  end.

(** Value of a run of ASCII digits. *)
Definition digits_value (d : pystr) : Z :=
  fold_left (fun acc c => 10 * acc + (Z.of_N c - 48)) d 0.

Definition read_sign (s : pystr) : bool * pystr :=
  match s with
  | c :: r =>
    if char_eqb c (ch "-") then (true, r)
    else if char_eqb c (ch "+") then (false, r)
    else (false, s)
  | [] => (false, [])
  end.

(** The exponent part of a decimal literal: [Some (x, rest)] when [s]
    starts with [e] or [E], an optional sign and at least one digit. *)
Definition read_exponent (s : pystr) : option (Z * pystr) :=
  match s with
  | c :: r =>
    if char_eqb c (ch "e") || char_eqb c (ch "E") then
      let '(neg, r1) := read_sign r in
      let '(d, r2) := span_digits r1 in
      match d with
      | [] => None
      | _ => Some (if neg then - digits_value d else digits_value d, r2)
      end
    else None
  | [] => None
  end.

(** The digits of a decimal literal: those before the point, those
    after it, and the unread rest. *)
Definition read_mantissa (s : pystr) : pystr * pystr * pystr :=
  let '(ip, r1) := span_digits s in
  let '(fp, r2) :=
    match r1 with
    | c :: r => if char_eqb c (ch ".") then span_digits r else ([], r1)
    | [] => ([], r1)
    end in
  (ip, fp, r2).

(** [_Py_dg_strtod]: sign, digits with an optional point (at least one
    digit in all), optional exponent. Returns the value and the unread
    rest; [None] when no number starts the text. *)
Definition strtod (s : pystr) : option (float * pystr) :=
  let '(neg, r0) := read_sign s in
  let '(ip, fp, r2) := read_mantissa r0 in
  match ip ++ fp with
  | [] => None
  | ds =>
    let '(x, r3) :=
      match read_exponent r2 with
      | Some (x, r) => (x, r)
      | None => (0, r2)
      end in
    Some (round_decimal neg (digits_value ds) (x - Z.of_nat (length fp)), r3)
  end.

Definition ascii_lower (c : char) : char :=
  if ((0x41 <=? c) && (c <=? 0x5A))%N then (c + 32)%N else c.

Definition istartswith (s : pystr) (p : string) : bool :=
  startswith (List.map ascii_lower s) (py p).

(** [_Py_parse_inf_or_nan] *)
Definition parse_inf_or_nan (s : pystr) : option (float * pystr) :=
  let '(neg, r) :=
    match s with
    | c :: r' =>
      if char_eqb c (ch "-") then (true, r')
      else if char_eqb c (ch "+") then (false, r')
      else (false, s)
    | [] => (false, [])
    end in
  if istartswith r "inf" then
    let r3 := drop 3 r in
    Some (finf neg, if istartswith r3 "inity" then drop 5 r3 else r3)
  else if istartswith r "nan" then Some (fnan, drop 3 r)
  else None.

Definition could_not_convert : exn :=
  ValueError "could not convert string to float".

(** [float(s)]: the text is normalised, stripped of blanks and of
    underscores, and must be one number from end to end. *)
Definition py_float (s : pystr) : result float :=
  let t := strip_by ascii_isspace (transform_decimal_and_space s) in
  let u := if existsb (char_eqb (ch "_")) t then drop_underscores 0%N t else Some t in
  match u with
  | None => Raise could_not_convert
  | Some u =>
    let parsed :=
      match strtod u with
      | Some r => Some r
      | None => parse_inf_or_nan u
      end in
    match parsed with
    | Some (x, []) => Ok x
    | _ => Raise could_not_convert
    end
  end.

End Float.
Export Float.

(** *** [repr(x)] and [str(x)] of a float *)

Module FloatRepr.

Definition float_same (a b : float) : bool :=
  match a, b with
  | S754_zero s, S754_zero t => Bool.eqb s t
  | S754_infinity s, S754_infinity t => Bool.eqb s t
  | S754_nan, S754_nan => true
  | S754_finite s m e, S754_finite t n f =>
    Bool.eqb s t && (m =? n)%positive && (e =? f)
  | _, _ => false
  end.

(** Number of decimal digits of [n >= 1]. *)
Fixpoint count_digits (fuel : nat) (n : Z) : Z :=
  match fuel with
  | O => 0
  | S f => if n <? 10 then 1 else 1 + count_digits f (n / 10)
  end.

(** For [0 < p < q], the number of zeros between the point and the
    first significant digit of [p/q]. *)
Fixpoint lead_zeros (fuel : nat) (p q : Z) : Z :=
  match fuel with
  | O => 0
  | S f => if q <=? p * 10 then 0 else 1 + lead_zeros f (p * 10) q
  end.

(** The decimal point position of [p/q > 0]: the [k] with
    [10^(k-1) <= p/q < 10^k]. *)
Definition decpt (p q : Z) : Z :=
  if q <=? p then count_digits (S (Z.to_nat (Z.log2 (p / q)))) (p / q)
  else - lead_zeros (Z.to_nat (Z.log2 q)) p q.

(** The search of [_Py_dg_dtoa] in mode 0: the shortest digit string
    that [float] reads back as the same value, and among two of the
    same length the one nearer to the value. At length [n] the two
    candidates are the [n]-digit decimals just below and just above
    [p/q]; the search stops at the latest when the digits are the exact
    decimal expansion. Returns the digits as an integer [D] and the
    exponent [x], standing for [D * 10^x]. *)
Fixpoint shortest_from (fuel : nat) (v : float) (p q k n : Z) : option (Z * Z) :=
  match fuel with
  | O => None
  | S f =>
    let num := p * 10 ^ Z.max 0 (n - k) in
    let den := q * 10 ^ Z.max 0 (k - n) in
    let lo := num / den in
    let r := num mod den in
    let x := k - n in
    let ok_lo := float_same (round_decimal false lo x) v in
    let ok_hi := negb (r =? 0) && float_same (round_decimal false (lo + 1) x) v in
    let up := (den <? 2 * r) || ((den =? 2 * r) && Z.odd lo) in
    if ok_lo && ok_hi then Some (if up then lo + 1 else lo, x)
    else if ok_lo then Some (lo, x)
    else if ok_hi then Some (lo + 1, x)
    else shortest_from f v p q k (n + 1)
  end.

Fixpoint strip_zeros_rev (ds : pystr) : pystr :=
  match ds with
  | c :: r => if char_eqb c (ch "0") then strip_zeros_rev r else ds
  | [] => []
  end.

(** The digit search for the positive finite value [m * 2^e]. *)
Definition float_search (m : positive) (e : Z) : option (Z * Z) :=
  let p := Zpos m * 2 ^ Z.max 0 e in
  let q := 2 ^ Z.max 0 (- e) in
  let k := decpt p q in
  shortest_from (Z.to_nat (Z.max 1 (k - Z.min e 0))) (S754_finite false m e) p q k 1.

(** The exact decimal expansion of [m * 2^e], which the search reaches
    at the latest. *)
Definition exact_digits (m : positive) (e : Z) : Z * Z :=
  let p := Zpos m * 2 ^ Z.max 0 e in
  let q := 2 ^ Z.max 0 (- e) in
  let k := decpt p q in
  let n := Z.max 1 (k - Z.min e 0) in
  (p * 10 ^ Z.max 0 (n - k) / (q * 10 ^ Z.max 0 (k - n)), k - n).

(** [D * 10^x] as digits without trailing zeros and the position of the
    point relative to their start. *)
Definition digits_and_point (D x : Z) : pystr * Z :=
  let ds := str_of_N (Z.to_N D) in
  (rev (strip_zeros_rev (rev ds)), x + Z.of_nat (length ds)).

Definition float_digits (m : positive) (e : Z) : pystr * Z :=
  match float_search m e with
  | Some (D, x) => digits_and_point D x
  | None => let '(D, x) := exact_digits m e in digits_and_point D x
  end.

Definition zeros (n : Z) : pystr := repeat (ch "0") (Z.to_nat n).

(** The exponent as [sprintf("%+.02d")] prints it. *)
Definition exponent_text (x : Z) : pystr :=
  let a := str_of_N (Z.to_N (Z.abs x)) in
  (if x <? 0 then ch "-" else ch "+")
    :: (if (length a <? 2)%nat then ch "0" :: a else a).

(** [format_float_short] with format code ['r'] and [Py_DTSF_ADD_DOT_0]:
    exponent notation when the point position is at most -4 or more
    than 16, positional notation (with [.0] after an integer)
    otherwise. *)
Definition format_repr (ds : pystr) (k : Z) : pystr :=
  let n := Z.of_nat (length ds) in
  if (k <=? -4) || (16 <? k) then
    take 1 ds ++ (match drop 1 ds with [] => [] | t => ch "." :: t end)
      ++ ch "e" :: exponent_text (k - 1)
  else if k <=? 0 then py "0." ++ zeros (- k) ++ ds
  else if k <? n then take (Z.to_nat k) ds ++ ch "." :: drop (Z.to_nat k) ds
  else ds ++ zeros (k - n) ++ py ".0".

(** [float.__repr__], which is also [str] of a float. *)
Definition float_repr (x : float) : pystr :=
  match x with
  | S754_nan => py "nan"
  | S754_infinity s => if s then py "-inf" else py "inf"
  | S754_zero s => if s then py "-0.0" else py "0.0"
  | S754_finite s m e =>
    let '(ds, k) := float_digits m e in
    (if s then [ch "-"] else []) ++ format_repr ds k
  end.

(** Whether [str(x)] is written without exponent: a zero, or a finite
    value for which the search finds digits with the point at a
    position from -3 to 16. *)
Definition positional (x : float) : bool :=
  match x with
  | S754_zero _ => true
  | S754_finite _ m e =>
    match float_search m e with
    | Some (D, x) => (-4 <? snd (digits_and_point D x)) && (snd (digits_and_point D x) <=? 16)
    | None => false
    end
  | _ => false
  end.

End FloatRepr.
Export FloatRepr.

Definition lit (s : string) : float :=
  match py_float (py s) with Ok x => x | Raise _ => fnan end.

(** ** Values *)

(** The values [json.loads] builds: [None], [bool], [int], [float],
    [str], [list], and [dict] with [str] keys. A dict keeps its keys in
    insertion order, each once. *)
#[local] Set Warnings "-register-all".

Inductive pyval :=
| PNone
| PBool (b : bool)
| PInt (z : Z)
| PFloat (x : float)
| PStr (s : pystr)
| PList (items : list pyval)
| PDict (items : list (pystr * pyval)).

Definition pydict := list (pystr * pyval).

(** [d.get(key, default)] *)
Fixpoint dict_get (d : pydict) (key : pystr) (default : pyval) : pyval :=
  match d with
  | [] => default
  | (k, v) :: r => if str_eqb k key then v else dict_get r key default
  end.

(** [key in d] *)
Fixpoint dict_has (d : pydict) (key : pystr) : bool :=
  match d with
  | [] => false
  | (k, _) :: r => str_eqb k key || dict_has r key
  end.

(** [d[key] = v]: the value of an existing key is replaced in place, a
    new key goes to the end. *)
Fixpoint dict_set (d : pydict) (key : pystr) (v : pyval) : pydict :=
  match d with
  | [] => [(key, v)]
  | (k, w) :: r =>
    if str_eqb k key then (k, v) :: r else (k, w) :: dict_set r key v
  end.

(** [dict(pairs)] *)
Definition dict_of_pairs (pairs : list (pystr * pyval)) : pydict :=
  fold_left (fun d kv => dict_set d (fst kv) (snd kv)) pairs [].

(** Truth value of a value, as [if v:] tests it. *)
Definition truthy (v : pyval) : bool :=
  match v with
  | PNone => false
  | PBool b => b
  | PInt z => negb (z =? 0)
  | PFloat x => negb (is_zero x)
  | PStr s => match s with [] => false | _ => true end
  | PList l => match l with [] => false | _ => true end
  | PDict d => match d with [] => false | _ => true end
  end.

(** ** [json.loads] *)

Module Json.

(** Outcome of a scanning function: the value and the unread rest, or
    the message of the [JSONDecodeError] with the number of characters
    left unread where it is raised. *)
Inductive scan (A : Type) :=
| Scanned (a : A) (rest : pystr)
| Failed (msg : pystr) (left : nat).
Arguments Scanned {A} a rest.
Arguments Failed {A} msg left.

(** [WHITESPACE = '[ \t\n\r]*'] *)
Definition json_ws (c : char) : bool :=
  ((c =? 0x20) || (c =? 0x09) || (c =? 0x0A) || (c =? 0x0D))%N.

Definition skip_ws (s : pystr) : pystr := lstrip_by json_ws s.

Definition hex_value (c : char) : option N :=
  if isdigit c then Some (c - 0x30)%N
  else if ((0x61 <=? c) && (c <=? 0x66))%N then Some (c - 0x61 + 10)%N
  else if ((0x41 <=? c) && (c <=? 0x46))%N then Some (c - 0x41 + 10)%N
  else None.

Definition hex4 (a b c d : char) : option N :=
  match hex_value a, hex_value b, hex_value c, hex_value d with
  | Some x, Some y, Some z, Some w => Some (((x * 16 + y) * 16 + z) * 16 + w)%N
  | _, _, _, _ => None
  end.

Definition is_high_surrogate (u : N) : bool := ((0xD800 <=? u) && (u <=? 0xDBFF))%N.
Definition is_low_surrogate (u : N) : bool := ((0xDC00 <=? u) && (u <=? 0xDFFF))%N.

Definition flush (hi : option N) (acc : pystr) : pystr :=
  match hi with Some h => h :: acc | None => acc end.

(** [scanstring] in strict mode, from just after the opening quote.
    [acc] holds the decoded characters in reverse; [hi] is a high
    surrogate read from a [\uXXXX] escape and waiting for its low half;
    [start] is the number of characters from the opening quote to the
    end of the text. *)
Fixpoint scanstring (start : nat) (hi : option N) (acc : pystr) (s : pystr)
  : scan pystr :=
  match s with
  | [] => Failed (py "Unterminated string starting at") start
  | c :: r =>
    if char_eqb c dquote then Scanned (rev (flush hi acc)) r
    else if (c <? 0x20)%N then Failed (py "Invalid control character at") (length s)
    else if negb (char_eqb c (ch "\")) then scanstring start None (c :: flush hi acc) r
    else match r with
    | [] => Failed (py "Unterminated string starting at") start
    | e :: r1 =>
      if char_eqb e (ch "u") then
        match r1 with
        | h1 :: h2 :: h3 :: h4 :: r2 =>
          match hex4 h1 h2 h3 h4 with
          | None => Failed (py "Invalid \uXXXX escape") (length r)
          | Some u =>
            match hi with
            | Some h =>
              if is_low_surrogate u
              then scanstring start None
                     ((0x10000 + (h - 0xD800) * 1024 + (u - 0xDC00))%N :: acc) r2
              else if is_high_surrogate u then scanstring start (Some u) (h :: acc) r2
              else scanstring start None (u :: h :: acc) r2
            | None =>
              if is_high_surrogate u then scanstring start (Some u) acc r2
              else scanstring start None (u :: acc) r2
            end
          end
        | _ => Failed (py "Invalid \uXXXX escape") (length r)
        end
      else
        let plain (x : N) := scanstring start None (x :: flush hi acc) r1 in
        if char_eqb e dquote then plain e
        else if char_eqb e (ch "\") then plain e
        else if char_eqb e (ch "/") then plain e
        else if char_eqb e (ch "b") then plain 0x08%N
        else if char_eqb e (ch "f") then plain 0x0C%N
        else if char_eqb e (ch "n") then plain 0x0A%N
        else if char_eqb e (ch "r") then plain 0x0D%N
        else if char_eqb e (ch "t") then plain 0x09%N
        else Failed (py "Invalid \escape") (length s)
    end
  end.

(** [NUMBER_RE] at the start of [s]: an optional minus sign and either
    a single zero or a digit run not starting with zero; then an
    optional point with at least one digit; then an optional exponent
    ([e] or [E], optional sign, at least one digit). Returns the three
    texts and the rest. *)
Definition match_number (s : pystr) : option (pystr * pystr * pystr * pystr) :=
  let '(neg, r0) :=
    match s with
    | c :: r => if char_eqb c (ch "-") then ([c], r) else ([], s)
    | [] => ([], s)
    end in
  let '(ip, r1) :=
    match r0 with
    | c :: r =>
      if char_eqb c (ch "0") then ([c], r)
      else if isdigit c then span_digits r0
      else ([], r0)
    | [] => ([], r0)
    end in
  match ip with
  | [] => None
  | _ =>
    let '(frac, r2) :=
      match r1 with
      | c :: r =>
        if char_eqb c (ch ".") then
          match span_digits r with
          | ([], _) => ([], r1)
          | (d, t) => (c :: d, t)
          end
        else ([], r1)
      | [] => ([], r1)
      end in
    let '(ex, r3) :=
      match r2 with
      | c :: r =>
        if char_eqb c (ch "e") || char_eqb c (ch "E") then
          let '(sg, t) :=
            match r with
            | c' :: r' =>
              if char_eqb c' (ch "-") || char_eqb c' (ch "+") then ([c'], r')
              else ([], r)
            | [] => ([], r)
            end in
          match span_digits t with
          | ([], _) => ([], r2)
          | (d, t') => (c :: sg ++ d, t')
          end
        else ([], r2)
      | [] => ([], r2)
      end in
    Some (neg ++ ip, frac, ex, r3)
  end.

(** [int(text)] for the integer part matched by [NUMBER_RE]. *)
Definition int_of_text (t : pystr) : Z :=
  match t with
  | c :: r => if char_eqb c (ch "-") then - digits_value r else digits_value t
  | [] => 0
  end.

Definition number_value (ip frac ex : pystr) : pyval :=
  match frac ++ ex with
  | [] => PInt (int_of_text ip)
  | _ =>
    match py_float (ip ++ frac ++ ex) with
    | Ok x => PFloat x
    | Raise _ => PFloat fnan
    end
  end.

Definition expecting_value : pystr := py "Expecting value".

(** The scanner of [json.scanner] with [JSONObject] and [JSONArray] of
    [json.decoder]. Every call takes one unit of [fuel]; a text of [n]
    characters needs fewer than [2 * n + 2]. *)
Fixpoint scan_once (fuel : nat) (s : pystr) : scan pyval :=
  match fuel with
  | O => Failed (py "maximum recursion depth exceeded") (length s)
  | S f =>
    match s with
    | [] => Failed expecting_value 0
    | c :: r =>
      if char_eqb c dquote then
        match scanstring (length s) None [] r with
        | Scanned t r' => Scanned (PStr t) r'
        | Failed m l => Failed m l
        end
      else if char_eqb c (ch "{") then
        match skip_ws r with
        | c' :: r' =>
          if char_eqb c' (ch "}") then Scanned (PDict []) r'
          else if char_eqb c' dquote then object_items f [] (c' :: r')
          else Failed (py "Expecting property name enclosed in double quotes")
                 (length (c' :: r'))
        | [] => Failed (py "Expecting property name enclosed in double quotes") 0
        end
      else if char_eqb c (ch "[") then
        match skip_ws r with
        | c' :: r' =>
          if char_eqb c' (ch "]") then Scanned (PList []) r'
          else array_items f [] (c' :: r')
        | [] => Failed expecting_value 0
        end
      else if startswith s (py "null") then Scanned PNone (drop 4 s)
      else if startswith s (py "true") then Scanned (PBool true) (drop 4 s)
      else if startswith s (py "false") then Scanned (PBool false) (drop 5 s)
      else match match_number s with
      | Some (ip, frac, ex, r') => Scanned (number_value ip frac ex) r'
      | None =>
        if startswith s (py "NaN") then Scanned (PFloat fnan) (drop 3 s)
        else if startswith s (py "Infinity") then Scanned (PFloat (finf false)) (drop 8 s)
        else if startswith s (py "-Infinity") then Scanned (PFloat (finf true)) (drop 9 s)
        else Failed expecting_value (length s)
      end
    end
  end

with array_items (fuel : nat) (acc : list pyval) (s : pystr) : scan pyval :=
  match fuel with
  | O => Failed (py "maximum recursion depth exceeded") (length s)
  | S f =>
    match scan_once f s with
    | Failed m l => Failed m l
    | Scanned v r =>
      match skip_ws r with
      | c :: r' =>
        if char_eqb c (ch "]") then Scanned (PList (rev (v :: acc))) r'
        else if char_eqb c (ch ",") then array_items f (v :: acc) (skip_ws r')
        else Failed (py "Expecting ',' delimiter") (length (c :: r'))
      | [] => Failed (py "Expecting ',' delimiter") 0
      end
    end
  end

with object_items (fuel : nat) (acc : list (pystr * pyval)) (s : pystr) : scan pyval :=
  match fuel with
  | O => Failed (py "maximum recursion depth exceeded") (length s)
  | S f =>
    match s with
    | q :: r0 =>
      if negb (char_eqb q dquote)
      then Failed (py "Expecting property name enclosed in double quotes") (length s)
      else match scanstring (length s) None [] r0 with
      | Failed m l => Failed m l
      | Scanned key r1 =>
        match skip_ws r1 with
        | c :: r2 =>
          if negb (char_eqb c (ch ":"))
          then Failed (py "Expecting ':' delimiter") (length (c :: r2))
          else match scan_once f (skip_ws r2) with
          | Failed m l => Failed m l
          | Scanned v r3 =>
            match skip_ws r3 with
            | c' :: r4 =>
              if char_eqb c' (ch "}")
              then Scanned (PDict (dict_of_pairs (rev ((key, v) :: acc)))) r4
              else if char_eqb c' (ch ",")
              then object_items f ((key, v) :: acc) (skip_ws r4)
              else Failed (py "Expecting ',' delimiter") (length (c' :: r4))
            | [] => Failed (py "Expecting ',' delimiter") 0
            end
          end
        | [] => Failed (py "Expecting ':' delimiter") 0
        end
      end
    | [] => Failed (py "Expecting property name enclosed in double quotes") 0
    end
  end.

Fixpoint last_line (line : pystr) (s : pystr) : pystr :=
  match s with
  | [] => line
  | c :: r => if char_eqb c 0x0A%N then last_line [] r else last_line (line ++ [c]) r
  end.

(** [str(e)] of [JSONDecodeError(msg, doc, pos)]. *)
Definition errmsg (msg doc : pystr) (pos : nat) : pystr :=
  let before := take pos doc in
  let lineno := S (length (List.filter (char_eqb 0x0A%N) before)) in
  let colno := S (length (last_line [] before)) in
  msg ++ py ": line " ++ str_of_N (N.of_nat lineno)
      ++ py " column " ++ str_of_N (N.of_nat colno)
      ++ py " (char " ++ str_of_N (N.of_nat pos) ++ py ")".

(** [json.loads(s)] for a [str]. *)
Definition json_loads (s : pystr) : result pyval :=
  if startswith s [0xFEFF%N]
  then Raise (JSONDecodeError (errmsg (py "Unexpected UTF-8 BOM (decode using utf-8-sig)") s 0))
  else
    match scan_once (2 * length s + 2) (skip_ws s) with
    | Failed m l => Raise (JSONDecodeError (errmsg m s (length s - l)))
    | Scanned v r =>
      match skip_ws r with
      | [] => Ok v
      | r' => Raise (JSONDecodeError (errmsg (py "Extra data") s (length s - length r')))
      end
    end.

End Json.
Export Json.

(** ** The script *)

(** A content part handed to the model: the prompt text, or a blob with
    its MIME type (empty when none was determined). *)
Inductive part :=
| TextPart (text : pystr)
| BlobPart (mime_type : pystr) (data : list N).

(** A file from [st.file_uploader]. *)
Record UploadedFile := {
  name : pystr;
  type : pystr;
  content : list N
}.

(** ** Numeric text *)

(** The characters [parse_amount] keeps: a digit, a point, a minus
    sign. *)
Definition amount_char (c : char) : bool :=
  isdecimal c || char_eqb c (ch ".") || char_eqb c (ch "-").

(** A decimal digit of any script as the ASCII digit of its value. *)
Definition ascii_digit (c : char) : char :=
  match todecimal c with Some d => (0x30 + d)%N | None => c end.

(** A decimal number: an optional minus sign, then digits with at most
    one point among them, at least one digit in all; its value is
    rounded to the nearest float. *)
Definition decimal_number (a : pystr) : option float :=
  let '(neg, r0) :=
    match a with
    | c :: r => if char_eqb c (ch "-") then (true, r) else (false, a)
    | [] => (false, [])
    end in
  let '(ip, fp, r2) := read_mantissa r0 in
  match r2, ip ++ fp with
  | [], _ :: _ =>
    Some (round_decimal neg (digits_value (ip ++ fp)) (- Z.of_nat (length fp)))
  | _, _ => None
  end.

(** Sign of a float that is not a NaN. *)
Definition sign_of (x : float) : option bool :=
  match x with
  | S754_zero s | S754_infinity s | S754_finite s _ _ => Some s
  | S754_nan => None
  end.

(** The ASCII characters left in a cleaned amount. *)
Definition plain (c : char) : bool :=
  isdigit c || char_eqb c (ch ".") || char_eqb c (ch "-").

(** A run of digits that lies beyond ASCII and holds no blank. *)
Definition far_from_spaces (lo : N) : bool :=
  ((0x660 <=? lo) && ((lo + 10 <=? 0x1680) || (0x1680 <? lo))
   && ((lo + 10 <=? 0x2000) || (0x205F <? lo))
   && ((lo + 10 <=? 0x3000) || (0x3000 <? lo)))%N.

(** ** Sample inputs *)

Module Sample.

(** [repr] of a [str] that holds no quote, backslash or unprintable
    character, and [str.lower] on ASCII text. *)
Definition repr_plain (s : pystr) : pystr := ch "'" :: s ++ [ch "'"].
Definition lower_ascii (s : pystr) : pystr := List.map ascii_lower s.

Definition pdf (nm : string) : UploadedFile :=
  {| name := py nm; type := py "application/pdf"; content := [] |}.

(** An oracle that answers every call with the same text. *)
Definition answers (text : pystr) : nat -> pystr -> list part -> result pystr :=
  fun _ _ _ => Ok text.

(** An oracle that fails on the second file of a batch. *)
Definition second_fails (text : pystr) : nat -> pystr -> list part -> result pystr :=
  fun i _ _ =>
    if (i =? 2)%nat
    then Raise (OtherException (py "ServiceUnavailable") (py "503 The model is overloaded"))
    else Ok text.

(** A batch of one record with one transaction. *)
Definition one_card : pyval :=
  PList [PDict [(py "issuer", PStr (py "HDFC"));
                (py "card_last_4", PStr (py "1234"));
                (py "transactions",
                 PList [PDict [(py "amount", PStr (py "₹500"));
                               (py "type", PStr (py "Debit"))]])]].

(** A record with three debits in two categories and one credit. *)
Definition card_with_debits : pydict :=
  [(py "issuer", PStr (py "HDFC"));
   (py "transactions",
    PList [PDict [(py "amount", PStr (py "₹500"));
                  (py "type", PStr (py "Debit"));
                  (py "category", PStr (py "Food"))];
           PDict [(py "amount", PStr (py "50"));
                  (py "type", PStr (py "DEBIT"))];
           PDict [(py "amount", PStr (py "300"));
                  (py "type", PStr (py "Credit"));
                  (py "category", PStr (py "Payment"))];
           PDict [(py "amount", PStr (py "1,200.50"));
                  (py "type", PStr (py "debit"));
                  (py "category", PStr (py "Food"))]])].

(** A record whose second transaction is a string. *)
Definition card_with_bad_transaction : pydict :=
  [(py "issuer", PStr (py "ICICI"));
   (py "transactions",
    PList [PDict [(py "amount", PStr (py "10")); (py "type", PStr (py "Debit"))];
           PStr (py "see next page")])].

End Sample.

Section Script.

#[local] Set Default Proof Using "Type".

(** Three library functions are parameters of the development.
    [repr_str] is [repr] of a [str] (its escapes depend on the Unicode
    database) and [lower] is [str.lower]. [generate_content] is the
    Gemini oracle: for the call made for the file at a given position
    of the batch, with the model name and the contents, it gives
    [response.text] or the exception raised on the way. *)
Variable repr_str : pystr -> pystr.
Variable lower : pystr -> pystr.
Variable generate_content : nat -> pystr -> list part -> result pystr.

Fixpoint join (sep : pystr) (l : list pystr) : pystr :=
  match l with
  | [] => []
  | [x] => x
  | x :: r => x ++ sep ++ join sep r
  end.

(** [repr(v)] *)
Fixpoint py_repr (v : pyval) : pystr :=
  match v with
  | PNone => py "None"
  | PBool b => if b then py "True" else py "False"
  | PInt z => str_of_Z z
  | PFloat x => float_repr x
  | PStr s => repr_str s
  | PList l => py "[" ++ join (py ", ") (List.map py_repr l) ++ py "]"
  | PDict d =>
    py "{"
      ++ join (py ", ")
           (List.map (fun kv => repr_str (fst kv) ++ py ": " ++ py_repr (snd kv)) d)
      ++ py "}"
  end.

(** [str(v)] *)
Definition py_str (v : pyval) : pystr :=
  match v with
  | PStr s => s
  | _ => py_repr v
  end.

(** The character class [[^\d.-]]. *)
Definition not_amount_char (c : char) : bool :=
  negb (isdecimal c || char_eqb c (ch ".") || char_eqb c (ch "-")).

(** [parse_amount], lines 39-45. *)
Definition parse_amount (amount_str : pyval) : float :=
  let numeric_str := re_sub_class not_amount_char [] (py_str amount_str) in
  match py_float numeric_str with
  | Ok x => x
  | Raise _ => fzero
  end.

(** The extraction prompt, lines 62-101 (the text is only passed on). *)
Definition prompt : pystr := pyq "
        Extract structured financial data from this credit card statement (PDF or Image).
        
        Return ONLY a valid JSON object with the following structure (no markdown, no code blocks):
        {
          'issuer': 'Bank Name',
          'customer_name': 'Customer Name',
          'card_type': 'Card Type',
          'card_last_4': 'last 4 digits',
          'statement_period': {
            'from': 'DD-MMM-YYYY',
            'to': 'DD-MMM-YYYY'
          },
          'payment_due_date': 'DD-MMM-YYYY',
          'credit_limit': 'Amount with currency',
          'available_credit_limit': 'Amount with currency',
          'total_amount_due': 'Amount with currency',
          'minimum_amount_due': 'Amount with currency',
          'transactions': [
            {
              'date': 'DD-MMM-YYYY',
              'description': 'Transaction description',
              'amount': 'Amount with currency',
              'type': 'Debit or Credit',
              'category': 'Category name'
            }
          ],
          'insights': [
            'Insight 1',
            'Insight 2',
            'Insight 3'
          ]
        }
        
        Important:
        - For transactions, categorize them into: Food & Dining, Shopping, Transport, Travel, Entertainment, Groceries, Bills & Utilities, Payment, Other
        - Extract ALL transactions from the statement
        - Provide at least 3-5 meaningful insights about spending patterns
        - Return ONLY the JSON, no additional text or markdown
        ".

Fixpoint until_dot (s : pystr) : pystr :=
  match s with
  | [] => []
  | c :: r => if char_eqb c (ch ".") then [] else c :: until_dot r
  end.

(** [s.split('.')[-1]] *)
Definition last_dot_segment (s : pystr) : pystr := rev (until_dot (rev s)).

(** [obj[key] = v] with a [str] key: only a dict takes it. *)
Definition setitem (obj : pyval) (key : pystr) (v : pyval) : result pyval :=
  match obj with
  | PDict d => Ok (PDict (dict_set d key v))
  | PList _ => Raise (TypeError "list indices must be integers or slices, not str")
  | PNone => Raise (TypeError "'NoneType' object does not support item assignment")
  | PBool _ => Raise (TypeError "'bool' object does not support item assignment")
  | PInt _ => Raise (TypeError "'int' object does not support item assignment")
  | PFloat _ => Raise (TypeError "'float' object does not support item assignment")
  | PStr _ => Raise (TypeError "'str' object does not support item assignment")
  end.

Definition fence : pystr := py "```".
Definition fence_json : pystr := py "```json".

(** Lines 111-118: the code fence is taken off the response text. *)
Definition strip_fences (response_text : pystr) : pystr :=
  let t := strip response_text in
  let t := if startswith t fence_json then slice_from 7 t else t in
  let t := if startswith t fence then slice_from 3 t else t in
  let t := if endswith t fence then slice_to_minus 3 t else t in
  strip t.

(** Lines 53-58. *)
Definition file_type_of (uploaded_file : UploadedFile) : pystr :=
  match type uploaded_file with
  | [] =>
    if endswith (lower (name uploaded_file)) (py ".pdf") then py "application/pdf"
    else if endswith (lower (name uploaded_file)) (py ".png")
            || endswith (lower (name uploaded_file)) (py ".jpg")
            || endswith (lower (name uploaded_file)) (py ".jpeg")
    then py "image/" ++ lower (last_dot_segment (name uploaded_file))
    else []
  | t => t
  end.

(** The [try] block of [extract_data_from_file], lines 50-122. *)
Definition extract_try (uploaded_file : UploadedFile) (file_index : nat)
  : result pyval :=
  let file_data := content uploaded_file in
  let file_type := file_type_of uploaded_file in
  let file_part := BlobPart file_type file_data in
  text ← generate_content file_index (py "gemini-2.5-flash")
           [TextPart prompt; file_part];
  let response_text := strip_fences text in
  data ← json_loads response_text;
  data ← setitem data (py "filename") (PStr (name uploaded_file));
  Ok data.

(** [extract_data_from_file], lines 47-127: the pair [(data, None)], or
    [(None, message)] from one of the two [except] clauses. *)
Definition extract_data_from_file (uploaded_file : UploadedFile)
    (file_index total_files : nat) : pyval * pyval :=
  match extract_try uploaded_file file_index with
  | Ok data => (data, PNone)
  | Raise (JSONDecodeError m) =>
    (PNone, PStr (py "JSON parsing error in " ++ name uploaded_file ++ py ": " ++ m))
  | Raise (OtherException _ m) =>
    (PNone, PStr (py "Error processing " ++ name uploaded_file ++ py ": " ++ m))
  end.

(** *** Upload handling, lines 276-304 *)

Record session_state := {
  all_statements : list pyval;
  processing_complete : bool;
  last_upload_count : nat
}.

(** Lines 31-37. *)
Definition initial_state : session_state :=
  {| all_statements := []; processing_complete := false; last_upload_count := 0 |}.

(** The loop of lines 290-299 from position [idx] on. The second
    component collects the texts shown with [st.error]. *)
Fixpoint process_files (total : nat) (idx : nat) (files : list UploadedFile)
    (statements : list pyval) (shown : list pystr) : list pyval * list pystr :=
  match files with
  | [] => (statements, shown)
  | uploaded_file :: rest =>
    let '(data, error) := extract_data_from_file uploaded_file (idx + 1) total in
    if truthy error
    then process_files total (S idx) rest statements
           (shown ++ [py "❌ " ++ py_str error])
    else process_files total (S idx) rest (statements ++ [data]) shown
  end.

(** Lines 276-304: one run of the script over the current uploads. *)
Definition handle_uploads (uploaded_files : list UploadedFile) (st : session_state)
  : session_state * list pystr :=
  match uploaded_files with
  | [] => (st, [])
  | _ =>
    let current_upload_count := length uploaded_files in
    let st :=
      if negb (current_upload_count =? last_upload_count st)%nat
      then {| last_upload_count := current_upload_count;
              all_statements := [];
              processing_complete := false |}
      else st in
    if negb (processing_complete st) then
      let '(statements, shown) :=
        process_files (length uploaded_files) 0 uploaded_files (all_statements st) [] in
      ({| all_statements := statements;
          processing_complete := true;
          last_upload_count := last_upload_count st |}, shown)
    else (st, [])
  end.

(** *** Analytics, lines 129-232 and 306-422 *)

(** Format specification [.1f]: one digit after the point, correctly
    rounded (ties to even) from the exact binary value. *)
Definition format_1f (x : float) : pystr :=
  match x with
  | S754_nan => py "nan"
  | S754_infinity s => if s then py "-inf" else py "inf"
  | S754_zero s => if s then py "-0.0" else py "0.0"
  | S754_finite s m e =>
    let num := 10 * Zpos m * 2 ^ Z.max 0 e in
    let den := 2 ^ Z.max 0 (- e) in
    let n := num / den in
    let r := num mod den in
    let n' :=
      if 2 * r <? den then n
      else if den <? 2 * r then n + 1
      else if Z.even n then n else n + 1 in
    (if s then [ch "-"] else [])
      ++ str_of_N (Z.to_N (n' / 10)) ++ ch "." :: str_of_N (Z.to_N (n' mod 10))
  end.

Definition hundred : float := S754_finite false 0x19000000000000 (-46).

Definition type_name (v : pyval) : string :=
  match v with
  | PNone => "NoneType"
  | PBool _ => "bool"
  | PInt _ => "int"
  | PFloat _ => "float"
  | PStr _ => "str"
  | PList _ => "list"
  | PDict _ => "dict"
  end.

(** [obj.get(key, default)]: a method of dicts only. *)
Definition py_get (obj : pyval) (key : string) (default : pyval) : result pyval :=
  match obj with
  | PDict d => Ok (dict_get d (py key) default)
  | _ => Raise (OtherException (py "AttributeError")
                  (py "'" ++ py (type_name obj) ++ py "' object has no attribute 'get'"))
  end.

(** [v.lower()]: a method of strings only. *)
Definition py_lower (v : pyval) : result pystr :=
  match v with
  | PStr s => Ok (lower s)
  | _ => Raise (OtherException (py "AttributeError")
                  (py "'" ++ py (type_name v) ++ py "' object has no attribute 'lower'"))
  end.

(** The items a [for] loop over [v] visits. *)
Definition py_iter (v : pyval) : result (list pyval) :=
  match v with
  | PList l => Ok l
  | PDict d => Ok (List.map (fun kv => PStr (fst kv)) d)
  | PStr s => Ok (List.map (fun c => PStr [c]) s)
  | _ => Raise (OtherException (py "TypeError")
                  (py "'" ++ py (type_name v) ++ py "' object is not iterable"))
  end.

(** Lines 134-139: the rows collected from one transaction list. *)
Fixpoint debit_rows (txns : list pyval) (acc : list (pyval * float))
  : result (list (pyval * float)) :=
  match txns with
  | [] => Ok acc
  | txn :: rest =>
    ty ← py_get txn "type" (PStr []);
    l ← py_lower ty;
    if str_eqb l (py "debit") then
      category ← py_get txn "category" (PStr (py "Other"));
      amount ← py_get txn "amount" (PStr (py "0"));
      debit_rows rest (acc ++ [(category, parse_amount amount)])
    else debit_rows rest acc
  end.

(** The loop of lines 132-139 over the statements. *)
Fixpoint aggregate_rows (all_statements : list pydict) (acc : list (pyval * float))
  : result (list (pyval * float)) :=
  match all_statements with
  | [] => Ok acc
  | stmt :: rest =>
    if dict_has stmt (py "transactions") then
      txns ← py_iter (dict_get stmt (py "transactions") PNone);
      acc' ← debit_rows txns acc;
      aggregate_rows rest acc'
    else aggregate_rows rest acc
  end.

(** [create_aggregate_category_chart], lines 129-160: [None] when no
    debit is found, else the figure, which pandas and plotly draw from
    the [(category, amount)] rows of [all_transactions]; the rows stand
    for it. *)
Definition create_aggregate_category_chart (all_statements : list pydict)
  : result (option (list (pyval * float))) :=
  all_transactions ← aggregate_rows all_statements [];
  match all_transactions with
  | [] => Ok None
  | _ => Ok (Some all_transactions)
  end.

Definition as_dict (v : pyval) : result pydict :=
  match v with
  | PDict d => Ok d
  | _ => Raise (OtherException (py "AttributeError")
                  (py "'" ++ py (type_name v) ++ py "' object has no attribute 'get'"))
  end.

Fixpoint map_result {A B} (f : A -> result B) (l : list A) : result (list B) :=
  match l with
  | [] => Ok []
  | x :: r => y ← f x; ys ← map_result f r; Ok (y :: ys)
  end.

(** A row of [card_data], lines 166-175. *)
Record card_row := {
  Card : pystr;
  Total_Due : float;
  Credit_Limit : float;
  Utilization_pct : pyval
}.

Definition card_label (unknown : string) (stmt : pydict) : pystr :=
  py_str (dict_get stmt (py "issuer") (PStr (py unknown)))
    ++ py " *" ++ py_str (dict_get stmt (py "card_last_4") (PStr (py "****"))).

(** The body of the loop of [create_card_comparison_chart], lines
    166-175. *)
Definition card_data_row (stmt : pydict) : result card_row :=
  let card_name := card_label "Unknown" stmt in
  let total_due := parse_amount (dict_get stmt (py "total_amount_due") (PStr (py "0"))) in
  let credit_limit := parse_amount (dict_get stmt (py "credit_limit") (PStr (py "0"))) in
  u ← (if flt fzero credit_limit
       then q ← truediv total_due credit_limit; Ok (PFloat (fmul q hundred))
       else Ok (PInt 0));
  Ok {| Card := card_name; Total_Due := total_due;
        Credit_Limit := credit_limit; Utilization_pct := u |}.

(** [create_card_comparison_chart], lines 162-201: the figure is drawn
    from the rows of [card_data], which stand for it. *)
Definition create_card_comparison_chart (all_statements : list pydict)
  : result (list card_row) :=
  map_result card_data_row all_statements.

(** The ['Utilization'] entry of a row of [comparison_data], line 364. *)
Definition comparison_utilization (stmt : pydict) : result pystr :=
  if flt fzero (parse_amount (dict_get stmt (py "credit_limit") (PStr (py "0"))))
  then
    q ← truediv
          (parse_amount (dict_get stmt (py "total_amount_due") (PStr (py "0"))))
          (parse_amount (dict_get stmt (py "credit_limit") (PStr (py "1"))));
    Ok (format_1f (fmul q hundred) ++ py "%")
  else Ok (py "N/A").

(** A row of [comparison_data], lines 357-365. *)
Record comparison_row := {
  Issuer : pyval;
  Card_Type : pyval;
  Last_4_Digits : pyval;
  Total_Due_text : pyval;
  Credit_Limit_text : pyval;
  Due_Date : pyval;
  Utilization : pystr
}.

Definition NA : pyval := PStr (py "N/A").

Definition comparison_data_row (stmt : pydict) : result comparison_row :=
  u ← comparison_utilization stmt;
  Ok {| Issuer := dict_get stmt (py "issuer") NA;
        Card_Type := dict_get stmt (py "card_type") NA;
        Last_4_Digits := dict_get stmt (py "card_last_4") NA;
        Total_Due_text := dict_get stmt (py "total_amount_due") NA;
        Credit_Limit_text := dict_get stmt (py "credit_limit") NA;
        Due_Date := dict_get stmt (py "payment_due_date") NA;
        Utilization := u |}.

(** The value shown by the "Credit Utilization" metric of a card tab,
    lines 415-422. *)
Definition credit_utilization_metric (stmt : pydict) : result pystr :=
  let credit_limit_val := parse_amount (dict_get stmt (py "credit_limit") (PStr (py "0"))) in
  let total_due_val := parse_amount (dict_get stmt (py "total_amount_due") (PStr (py "0"))) in
  if flt fzero credit_limit_val then
    q ← truediv total_due_val credit_limit_val;
    let utilization := fmul q hundred in
    Ok (format_1f utilization ++ py "%")
  else Ok (py "N/A").

(** [sum] of floats, from the integer 0. *)
Definition py_sum (l : list float) : float := fold_left fadd l fzero.

(** The aggregate metrics of lines 316-320. *)
Record portfolio := {
  total_cards : nat;
  total_due : float;
  total_credit : float;
  total_available : float;
  avg_utilization : pyval
}.

Definition amount_of (key : string) (stmt : pydict) : float :=
  parse_amount (dict_get stmt (py key) (PStr (py "0"))).

Definition portfolio_metrics (all_statements : list pydict) : result portfolio :=
  let due := py_sum (List.map (amount_of "total_amount_due") all_statements) in
  let credit := py_sum (List.map (amount_of "credit_limit") all_statements) in
  let available := py_sum (List.map (amount_of "available_credit_limit") all_statements) in
  u ← (if flt fzero credit
       then q ← truediv due credit; Ok (PFloat (fmul q hundred))
       else Ok (PInt 0));
  Ok {| total_cards := length all_statements; total_due := due;
        total_credit := credit; total_available := available;
        avg_utilization := u |}.

(** *** The records as shared objects, lines 306-515

    For the export code, which copies and updates dicts, the batch is
    kept in a store: a dict or a list is an object at a location, and a
    value that is not a scalar is a reference to one. *)

Definition loc := positive.

Inductive value :=
| VNone
| VBool (b : bool)
| VInt (z : Z)
| VFloat (x : float)
| VStr (s : pystr)
| VRef (l : loc).

Inductive object :=
| ODict (items : list (pystr * value))
| OList (items : list value).

Abbreviation store := (gmap loc object).

(** A computation reads and updates the store and returns a value or
    raises; the updates made before an exception stay. *)
Definition comp (A : Type) : Type := store -> result A * store.

Definition ret {A} (a : A) : comp A := fun h => (Ok a, h).
Definition throw {A} (e : exn) : comp A := fun h => (Raise e, h).
Definition lift {A} (r : result A) : comp A := fun h => (r, h).

Definition cbind {A B} (c : comp A) (k : A -> comp B) : comp B :=
  fun h =>
    match c h with
    | (Ok a, h') => k a h'
    | (Raise e, h') => (Raise e, h')
    end.

Notation "x <~ c ; k" := (cbind c (fun x => k))
  (at level 100, c at next level, right associativity, only parsing).

(** A new object, at a location not in use. *)
Definition alloc (o : object) : comp loc :=
  fun h => let l := fresh (dom h) in (Ok l, <[l := o]> h).

Definition vtype_name (h : store) (v : value) : string :=
  match v with
  | VNone => "NoneType"
  | VBool _ => "bool"
  | VInt _ => "int"
  | VFloat _ => "float"
  | VStr _ => "str"
  | VRef l => match h !! l with Some (OList _) => "list" | _ => "dict" end
  end.

Definition no_attribute (h : store) (v : value) (attr : string) : exn :=
  OtherException (py "AttributeError")
    (py "'" ++ py (vtype_name h v) ++ py "' object has no attribute '" ++ py attr ++ py "'").

Fixpoint items_get (d : list (pystr * value)) (key : pystr) (default : value) : value :=
  match d with
  | [] => default
  | (k, v) :: r => if str_eqb k key then v else items_get r key default
  end.

Fixpoint items_set (d : list (pystr * value)) (key : pystr) (v : value)
  : list (pystr * value) :=
  match d with
  | [] => [(key, v)]
  | (k, w) :: r =>
    if str_eqb k key then (k, v) :: r else (k, w) :: items_set r key v
  end.

(** [obj.get(key, default)] *)
Definition vget (obj : value) (key : string) (default : value) : comp value :=
  fun h =>
    match obj with
    | VRef l =>
      match h !! l with
      | Some (ODict d) => (Ok (items_get d (py key) default), h)
      | _ => (Raise (no_attribute h obj "get"), h)
      end
    | _ => (Raise (no_attribute h obj "get"), h)
    end.

(** [obj.copy()]: a new object with the same entries. *)
Definition vcopy (obj : value) : comp value :=
  fun h =>
    match obj with
    | VRef l =>
      match h !! l with
      | Some o => let (r, h') := alloc o h in
                  (match r with Ok l' => Ok (VRef l') | Raise e => Raise e end, h')
      | None => (Raise (no_attribute h obj "copy"), h)
      end
    | _ => (Raise (no_attribute h obj "copy"), h)
    end.

(** [obj[key] = v] with a [str] key: the dict at [obj] is updated in
    place. *)
Definition vsetitem (obj : value) (key : string) (v : value) : comp unit :=
  fun h =>
    match obj with
    | VRef l =>
      match h !! l with
      | Some (ODict d) => (Ok tt, <[l := ODict (items_set d (py key) v)]> h)
      | Some (OList _) =>
        (Raise (TypeError "list indices must be integers or slices, not str"), h)
      | None => (Raise (TypeError "object does not support item assignment"), h)
      end
    | _ => (Raise (TypeError "object does not support item assignment"), h)
    end.

(** [lst.append(v)] on the list at [l]. *)
Definition vappend (l : loc) (v : value) : comp unit :=
  fun h =>
    match h !! l with
    | Some (OList items) => (Ok tt, <[l := OList (items ++ [v])]> h)
    | _ => (Raise (no_attribute h (VRef l) "append"), h)
    end.

(** The items a [for] loop over [v] visits. No loop of the script
    updates the object it runs over, so they are read at once. *)
Definition viter (v : value) : comp (list value) :=
  fun h =>
    match v with
    | VRef l =>
      match h !! l with
      | Some (OList items) => (Ok items, h)
      | Some (ODict d) => (Ok (List.map (fun kv => VStr (fst kv)) d), h)
      | None => (Raise (TypeError "object is not iterable"), h)
      end
    | VStr s => (Ok (List.map (fun c => VStr [c]) s), h)
    | _ => (Raise (OtherException (py "TypeError")
                     (py "'" ++ py (vtype_name h v) ++ py "' object is not iterable")), h)
    end.

Fixpoint for_each {A} (items : list A) (body : A -> comp unit) : comp unit :=
  match items with
  | [] => ret tt
  | x :: rest => _ <~ body x; for_each rest body
  end.

Fixpoint all_some {A} (l : list (option A)) : option (list A) :=
  match l with
  | [] => Some []
  | Some a :: r => option_map (cons a) (all_some r)
  | None :: _ => None
  end.

(** The tree a value stands for in a store; [None] when the objects
    are nested deeper than [fuel]. *)
Fixpoint reify (fuel : nat) (h : store) (v : value) : option pyval :=
  match v with
  | VNone => Some PNone
  | VBool b => Some (PBool b)
  | VInt z => Some (PInt z)
  | VFloat x => Some (PFloat x)
  | VStr s => Some (PStr s)
  | VRef l =>
    match fuel with
    | O => None
    | S f =>
      match h !! l with
      | Some (OList items) =>
        option_map PList (all_some (List.map (reify f h) items))
      | Some (ODict d) =>
        option_map PDict
          (all_some (List.map (fun kv => option_map (pair (fst kv)) (reify f h (snd kv))) d))
      | None => None
      end
    end
  end.

(** Reading a value with everything below it. *)
Definition snapshot (v : value) : comp pyval :=
  fun h =>
    match reify (S (size h)) h v with
    | Some t => (Ok t, h)
    | None => (Raise (OtherException (py "RecursionError")
                        (py "maximum recursion depth exceeded")), h)
    end.

(** [str(v)] *)
Definition vstr (v : value) : comp pystr :=
  t <~ snapshot v; ret (py_str t).

(** A tree laid out in the store, as [json.loads] leaves it in memory. *)
Fixpoint store_tree (t : pyval) : comp value :=
  match t with
  | PNone => ret VNone
  | PBool b => ret (VBool b)
  | PInt z => ret (VInt z)
  | PFloat x => ret (VFloat x)
  | PStr s => ret (VStr s)
  | PList l =>
    vs <~ (fix go (l : list pyval) : comp (list value) :=
             match l with
             | [] => ret []
             | x :: r => v <~ store_tree x; vs <~ go r; ret (v :: vs)
             end) l;
    o <~ alloc (OList vs); ret (VRef o)
  | PDict d =>
    vs <~ (fix go (d : list (pystr * pyval)) : comp (list (pystr * value)) :=
             match d with
             | [] => ret []
             | (k, x) :: r => v <~ store_tree x; vs <~ go r; ret ((k, v) :: vs)
             end) d;
    o <~ alloc (ODict vs); ret (VRef o)
  end.

(** Lines 486-493: the rows of the transactions CSV. Returns the
    [all_transactions] list. *)
Definition export_transactions (all_statements : value) : comp value :=
  all_transactions <~ alloc (OList []);
  stmts <~ viter all_statements;
  _ <~ for_each stmts (fun stmt =>
    issuer <~ vget stmt "issuer" (VStr (py "Unknown"));
    issuer_text <~ vstr issuer;
    last4 <~ vget stmt "card_last_4" (VStr (py "****"));
    last4_text <~ vstr last4;
    let card_id := issuer_text ++ py " *" ++ last4_text in
    empty <~ alloc (OList []);
    txns <~ vget stmt "transactions" (VRef empty);
    txn_list <~ viter txns;
    for_each txn_list (fun txn =>
      txn_copy <~ vcopy txn;
      _ <~ vsetitem txn_copy "card" (VStr card_id);
      vappend all_transactions txn_copy));
  ret (VRef all_transactions).

(** What the result page computes from the batch, lines 307-515. *)
Record page := {
  overview : portfolio;
  category_chart : option (list (pyval * float));
  card_data : list card_row;
  comparison_data : list comparison_row;
  utilization_metrics : list pystr;
  all_data_json : pyval;
  all_transactions : value
}.

(** Lines 307-515: the aggregate metrics, the two aggregate charts, the
    comparison table, the per-card metrics and the three exports, in
    the order of the script. Rendering and text serialisation are left
    out. *)
Definition display_results (all_statements : value) : comp page :=
  batch <~ snapshot all_statements;
  items <~ lift (py_iter batch);
  stmts <~ lift (map_result as_dict items);
  metrics <~ lift (portfolio_metrics stmts);
  rows <~ lift (create_aggregate_category_chart stmts);
  cards <~ lift (create_card_comparison_chart stmts);
  comparison <~ lift (map_result comparison_data_row stmts);
  per_card <~ lift (map_result credit_utilization_metric stmts);
  dumped <~ snapshot all_statements;
  txns <~ export_transactions all_statements;
  ret {| overview := metrics; category_chart := rows; card_data := cards;
         comparison_data := comparison; utilization_metrics := per_card;
         all_data_json := dumped; all_transactions := txns |}.

(** *** Vocabulary of the statements *)

(** The message of the [except] clause that handles [e]. *)
Definition error_text (uploaded_file : UploadedFile) (e : exn) : pystr :=
  match e with
  | JSONDecodeError m =>
    py "JSON parsing error in " ++ name uploaded_file ++ py ": " ++ m
  | OtherException _ m =>
    py "Error processing " ++ name uploaded_file ++ py ": " ++ m
  end.

(** The records of the files of a batch whose extraction succeeds, and
    the error texts of the others, in upload order. *)
Fixpoint batch_records (idx : nat) (files : list UploadedFile) : list pyval :=
  match files with
  | [] => []
  | f :: rest =>
    match extract_try f (idx + 1) with
    | Ok data => data :: batch_records (S idx) rest
    | Raise _ => batch_records (S idx) rest
    end
  end.

Fixpoint batch_errors (idx : nat) (files : list UploadedFile) : list pystr :=
  match files with
  | [] => []
  | f :: rest =>
    match extract_try f (idx + 1) with
    | Ok _ => batch_errors (S idx) rest
    | Raise e => (py "❌ " ++ error_text f e) :: batch_errors (S idx) rest
    end
  end.

(** The call the script makes for a file. *)
Definition oracle_call (uploaded_file : UploadedFile) (file_index : nat) : result pystr :=
  generate_content file_index (py "gemini-2.5-flash")
    [TextPart prompt; BlobPart (file_type_of uploaded_file) (content uploaded_file)].

Definition is_dict (v : pyval) : bool :=
  match v with PDict _ => true | _ => false end.

Definition is_list (v : pyval) : bool :=
  match v with PList _ => true | _ => false end.

(** The StatementRecord shape of section 3 of the specification, as a
    check on a parsed value; the script has no such check. The required
    field names are present, [statement_period] is an object with
    [from] and [to], [transactions] and [insights] are arrays. *)
Definition statement_shape (v : pyval) : bool :=
  match v with
  | PDict d =>
    forallb (fun k => dict_has d (py k))
      ["issuer"; "card_type"; "card_last_4"; "statement_period";
       "payment_due_date"; "credit_limit"; "available_credit_limit";
       "total_amount_due"; "minimum_amount_due"; "transactions"; "insights"]%string
    && match dict_get d (py "statement_period") PNone with
       | PDict p => dict_has p (py "from") && dict_has p (py "to")
       | _ => false
       end
    && is_list (dict_get d (py "transactions") PNone)
    && is_list (dict_get d (py "insights") PNone)
  | _ => false
  end.

(** *** Vocabulary of the proofs *)

(** [keeps h0 inv c post]: started in a store that extends [h0] and
    satisfies [inv], the computation [c] ends, normally or by an
    exception, in a store that still extends [h0] and satisfies [inv];
    a returned value satisfies [post]. *)
Definition keeps {A} (h0 : store) (inv : store -> Prop) (c : comp A)
    (post : A -> Prop) : Prop :=
  forall h, h0 ⊆ h -> inv h ->
    h0 ⊆ snd (c h) /\ inv (snd (c h)) /\ (forall a, fst (c h) = Ok a -> post a).

(** A reference to an object made after [h0]. *)
Definition made_after (h0 : store) (v : value) : Prop :=
  exists l, v = VRef l /\ h0 !! l = None.

(** The list at [rows] holds only references made after [h0]. *)
Definition rows_are_copies (h0 : store) (rows : loc) (h : store) : Prop :=
  exists items, h !! rows = Some (OList items) /\ Forall (made_after h0) items.

(** A float with its sign replaced. *)
Definition with_sign (s : bool) (x : float) : float :=
  match x with
  | S754_zero _ => S754_zero s
  | S754_infinity _ => S754_infinity s
  | S754_finite _ m e => S754_finite s m e
  | S754_nan => S754_nan
  end.

(** The two sides of the point in the positional notation. *)
Definition positional_parts (ds : pystr) (k : Z) : pystr * pystr :=
  let n := Z.of_nat (length ds) in
  if k <=? 0 then ([ch "0"], zeros (- k) ++ ds)
  else if k <? n then (take (Z.to_nat k) ds, drop (Z.to_nat k) ds)
  else (ds ++ zeros (k - n), [ch "0"]).

(** *** The per-card tab, lines 203-232 and 442-449 *)

(** [len(v)] *)
Definition py_len (v : pyval) : result nat :=
  match v with
  | PList l => Ok (length l)
  | PDict d => Ok (length d)
  | PStr s => Ok (length s)
  | _ => Raise (OtherException (py "TypeError")
                  (py "object of type '" ++ py (type_name v) ++ py "' has no len()"))
  end.

(** [[t for t in txns if t.get('type', '').lower() == want]] *)
Fixpoint of_type (want : string) (txns : list pyval) : result (list pyval) :=
  match txns with
  | [] => Ok []
  | t :: rest =>
    ty ← py_get t "type" (PStr []);
    l ← py_lower ty;
    kept ← of_type want rest;
    Ok (if str_eqb l (py want) then t :: kept else kept)
  end.

(** The three counts of the transaction summary, lines 442-445:
    all transactions, debits, credits. *)
Definition transaction_summary (stmt : pydict) : result (nat * nat * nat) :=
  let transactions := dict_get stmt (py "transactions") (PList []) in
  total_txns ← py_len transactions;
  items ← py_iter transactions;
  debit_txns ← of_type "debit" items;
  credit_txns ← of_type "credit" items;
  Ok (total_txns, length debit_txns, length credit_txns).

(** Whether an integer and a float are the same number. *)
Definition int_eq_float (z : Z) (x : float) : bool :=
  match x with
  | S754_zero _ => z =? 0
  | S754_finite s m e =>
    if 0 <=? e then z =? (if s then - (Zpos m * 2 ^ e) else Zpos m * 2 ^ e)
    else ((Zpos m) mod 2 ^ (- e) =? 0)
         && (z =? (if s then - (Zpos m / 2 ^ (- e)) else Zpos m / 2 ^ (- e)))
  | _ => false
  end.

(** Whether two values are the same dict key. [None] for a value that
    cannot be a key (a list or a dict). Booleans, integers and floats
    are compared as numbers; the one NaN object that [json.loads]
    hands out is the same key as itself. *)
Definition key_eq (a b : pyval) : option bool :=
  let num (v : pyval) : option (Z + float) :=
    match v with
    | PBool t => Some (inl (if t then 1 else 0))
    | PInt z => Some (inl z)
    | PFloat x => Some (inr x)
    | _ => None
    end in
  match a, b with
  | PList _, _ | PDict _, _ | _, PList _ | _, PDict _ => None
  | PNone, PNone => Some true
  | PStr s, PStr t => Some (str_eqb s t)
  | _, _ =>
    match num a, num b with
    | Some (inl y), Some (inl z) => Some (y =? z)
    | Some (inl y), Some (inr x) => Some (int_eq_float y x)
    | Some (inr x), Some (inl z) => Some (int_eq_float z x)
    | Some (inr x), Some (inr y) =>
      Some (match x, y with S754_nan, S754_nan => true | _, _ => feq x y end)
    | _, _ => Some false
    end
  end.

Definition hashable (v : pyval) : bool :=
  match v with PList _ | PDict _ => false | _ => true end.

(** [category_data[category] = category_data.get(category, 0) + amount]
    on the entries of [category_data], whose keys can be any hashable
    value. *)
Fixpoint add_to_category (category_data : list (pyval * float))
    (category : pyval) (amount : float) : list (pyval * float) :=
  match category_data with
  | [] => [(category, fadd fzero amount)]
  | (k, total) :: rest =>
    match key_eq k category with
    | Some true => (k, fadd total amount) :: rest
    | _ => (k, total) :: add_to_category rest category amount
    end
  end.

(** The loop of lines 212-215. *)
Fixpoint category_totals (debit_txns : list pyval) (category_data : list (pyval * float))
  : result (list (pyval * float)) :=
  match debit_txns with
  | [] => Ok category_data
  | txn :: rest =>
    category ← py_get txn "category" (PStr (py "Other"));
    amount_text ← py_get txn "amount" (PStr (py "0"));
    let amount := parse_amount amount_text in
    if hashable category
    then category_totals rest (add_to_category category_data category amount)
    else Raise (OtherException (py "TypeError")
                  (py "unhashable type: '" ++ py (type_name category) ++ py "'"))
  end.

(** [create_individual_category_chart], lines 203-232: [None] when the
    card has no debit, else the figure, drawn from the entries of
    [category_data] (pandas orders them by amount); the entries stand
    for it. *)
Definition create_individual_category_chart (statement : pydict)
  : result (option (list (pyval * float))) :=
  let transactions := dict_get statement (py "transactions") (PList []) in
  items ← py_iter transactions;
  debit_txns ← of_type "debit" items;
  match debit_txns with
  | [] => Ok None
  | _ => category_data ← category_totals debit_txns []; Ok (Some category_data)
  end.

(** *** Vocabulary of the further statements *)

(** A record as the batch holds it: a dict with a ['filename'] entry. *)
Definition is_record (v : pyval) : Prop :=
  exists d, v = PDict d /\ dict_has d (py "filename") = true.

(** The file name carried by a record. *)
Definition filename_of (v : pyval) : pyval :=
  match v with
  | PDict d => dict_get d (py "filename") PNone
  | _ => PNone
  end.

(** What the upload handling keeps true of the session state: an
    unfinished state holds no record, and the batch is never longer
    than the recorded number of uploads. *)
Definition consistent (st : session_state) : Prop :=
  (processing_complete st = false -> all_statements st = [])
  /\ (length (all_statements st) <= last_upload_count st)%nat.

(** A transaction as the prompt asks for it: a dict whose ['type'], when
    present, is a string. *)
Definition typed_transaction (txn : pyval) : bool :=
  match txn with
  | PDict d =>
    match dict_get d (py "type") (PStr []) with
    | PStr _ => true
    | _ => false
    end
  | _ => false
  end.

(** Whether the type of a transaction reads [want] in lower case. *)
Definition has_type (want : string) (txn : pyval) : bool :=
  match txn with
  | PDict d =>
    match dict_get d (py "type") (PStr []) with
    | PStr ty => str_eqb (lower ty) (py want)
    | _ => false
    end
  | _ => false
  end.

(** The category and the amount of a transaction, as the charts read
    them. *)
Definition debit_row (txn : pyval) : pyval * float :=
  match txn with
  | PDict d =>
    (dict_get d (py "category") (PStr (py "Other")),
     parse_amount (dict_get d (py "amount") (PStr (py "0"))))
  | _ => (PNone, fzero)
  end.

(** The transactions of a statement when they are a list. *)
Definition listed_transactions (stmt : pydict) : list pyval :=
  match dict_get stmt (py "transactions") (PList []) with
  | PList txns => txns
  | _ => []
  end.


Definition same_key (a b : pyval) : bool :=
  match key_eq a b with Some true => true | _ => false end.

(** No two entries under the same key. *)
Fixpoint distinct_keys (entries : list (pyval * float)) : bool :=
  match entries with
  | [] => true
  | (k, _) :: rest =>
    forallb (fun kv => negb (same_key k (fst kv))) rest && distinct_keys rest
  end.

(** The amounts of the rows under a key, in their order. *)
Definition amounts_under (k : pyval) (rows : list (pyval * float)) : list float :=
  List.map snd (List.filter (fun r => same_key k (fst r)) rows).

Definition is_text (v : pyval) : bool :=
  match v with PStr _ => true | _ => false end.

Definition is_nan (x : float) : bool :=
  match x with S754_nan => true | _ => false end.

(** *** Vocabulary of the statement on the transactions export *)

(** The tree of a value that is not a reference. *)
Definition scalar (v : value) : option pyval :=
  match v with
  | VNone => Some PNone
  | VBool b => Some (PBool b)
  | VInt z => Some (PInt z)
  | VFloat x => Some (PFloat x)
  | VStr s => Some (PStr s)
  | VRef _ => None
  end.

Definition items_has (d : list (pystr * value)) (key : pystr) : bool :=
  existsb (fun kv => str_eqb (fst kv) key) d.

(** The entries of the dict, and the items of the list, a value refers
    to. *)
Definition dict_at (h : store) (v : value) : option (list (pystr * value)) :=
  match v with
  | VRef l => match h !! l with Some (ODict d) => Some d | _ => None end
  | _ => None
  end.

Definition list_at (h : store) (v : value) : option (list value) :=
  match v with
  | VRef l => match h !! l with Some (OList items) => Some items | _ => None end
  | _ => None
  end.

(** What the export reads of a statement of the expected form - a dict
    whose ['issuer'] and ['card_last_4'] are not containers and whose
    ['transactions'], when present, is a list of dicts: the card label
    and the entries of each transaction. *)
Definition export_source (h : store) (stmt : value)
  : option (pystr * list (list (pystr * value))) :=
  sd ← dict_at h stmt;
  issuer ← scalar (items_get sd (py "issuer") (VStr (py "Unknown")));
  last4 ← scalar (items_get sd (py "card_last_4") (VStr (py "****")));
  txns ← (if items_has sd (py "transactions")
          then list_at h (items_get sd (py "transactions") VNone)
          else Some []);
  dicts ← all_some (List.map (dict_at h) txns);
  Some (py_str issuer ++ py " *" ++ py_str last4, dicts).

(** Every object of [h] other than the one at [rows] is in [h'] as it
    is in [h]. *)
Definition kept_but (rows : loc) (h h' : store) : Prop :=
  forall l o, h !! l = Some o -> l <> rows -> h' !! l = Some o.

(** The references [refs] lead, in [h'], to dicts with the entries
    [dicts], one for one, at locations that are not in use in [h]. *)
Definition new_dicts (h h' : store) (refs : list value)
    (dicts : list (list (pystr * value))) : Prop :=
  Forall2 (fun r d => exists l, r = VRef l /\ h !! l = None /\ h' !! l = Some (ODict d))
          refs dicts.

(** ** Checks of the runtime model *)

Example py_rupee : py "₹1" = [8377; 49]%N.
Proof. reflexivity. Qed.

Example str_of_Z_ex : str_of_Z (-1205) = py "-1205" /\ str_of_Z 0 = py "0".
Proof. split; reflexivity. Qed.

Example round_tenth : round_ratio false 1 10 = S754_finite false 0x1999999999999A (-56).
Proof. vm_compute. reflexivity. Qed.

(** The rounding agrees with the standard library's IEEE-754 division
    of the two integers where both are binary64 values. *)
Example round_vs_division :
  round_ratio false 1 3 = fdiv (S754_finite false 1 0) (S754_finite false 3 0)
  /\ round_ratio true 1234567 100
     = fdiv (S754_finite true 1234567 0) (S754_finite false 100 0)
  /\ round_ratio false 7 (2 ^ 1080) = fdiv (S754_finite false 7 0) (S754_finite false (2 ^ 52) 1028)
  /\ round_ratio false (2 ^ 54 - 1) 1 = fdiv (S754_finite false (2 ^ 54 - 1) 0) (S754_finite false 1 0).
Proof. vm_compute. repeat split; reflexivity. Qed.

Example py_float_ex :
  py_float (py " 1_0.5e1 ") = Ok (S754_finite false 0x1A400000000000 (-46))
  /\ py_float (py "-Infinity") = Ok (finf true)
  /\ py_float (py "1e") = Raise could_not_convert
  /\ py_float (py "--5") = Raise could_not_convert
  /\ py_float (py ".") = Raise could_not_convert
  /\ py_float (py "5.") = Ok (S754_finite false 0x14000000000000 (-50))
  /\ py_float (py "1e400") = Ok (finf false)
  /\ py_float (py "-0") = Ok (S754_zero true).
Proof. vm_compute. repeat split; reflexivity. Qed.

Example float_repr_ex :
  float_repr (lit "12345.67") = py "12345.67"
  /\ float_repr (lit "0.1") = py "0.1"
  /\ float_repr (lit "1e16") = py "1e+16"
  /\ float_repr (lit "1000000000000000") = py "1000000000000000.0"
  /\ float_repr (lit "0.0001") = py "0.0001"
  /\ float_repr (lit "0.00001") = py "1e-05"
  /\ float_repr (lit "-123") = py "-123.0"
  /\ float_repr (lit "20000000000000008") = py "2.000000000000001e+16"
  /\ float_repr (lit "5e-324") = py "5e-324"
  /\ float_repr (lit "0.30000000000000004") = py "0.30000000000000004"
  /\ float_repr (lit "9.5") = py "9.5"
  /\ float_repr (lit "1.7976931348623157e308") = py "1.7976931348623157e+308"
  /\ float_repr (lit "1e22") = py "1e+22"
  /\ float_repr (fdiv (lit "1") (lit "3")) = py "0.3333333333333333"
  /\ float_repr (fdiv (lit "2") (lit "3")) = py "0.6666666666666666".
Proof. vm_compute. repeat split; reflexivity. Qed.

Example json_loads_ex :
  json_loads (pyq "{'a': [1, 2.5, 'x\n₹'], 'b': {'c': null}, 'a': true}")
  = Ok (PDict [(py "a", PBool true);
               (py "b", PDict [(py "c", PNone)])])
  /\ json_loads (pyq " [1, -0, 1e2, '😀'] ")
     = Ok (PList [PInt 1; PInt 0; PFloat (lit "100"); PStr [0x1F600%N]])
  /\ json_loads (pyq "{'a': 1,}")
     = Raise (JSONDecodeError
                (py "Expecting property name enclosed in double quotes: line 1 column 9 (char 8)"))
  /\ json_loads [] = Raise (JSONDecodeError (py "Expecting value: line 1 column 1 (char 0)"))
  /\ json_loads (py "{} x") = Raise (JSONDecodeError (py "Extra data: line 1 column 4 (char 3)"))
  /\ json_loads (py "01") = Raise (JSONDecodeError (py "Extra data: line 1 column 2 (char 1)")).
Proof. vm_compute. repeat split; reflexivity. Qed.

(** ** Facts about the text operations *)

Lemma char_eqb_eq (a b : char) : char_eqb a b = true <-> a = b.
Proof. unfold char_eqb. apply N.eqb_eq. Qed.

Lemma char_eqb_refl (a : char) : char_eqb a a = true.
Proof. apply char_eqb_eq. reflexivity. Qed.

Lemma str_eqb_eq (a b : pystr) : str_eqb a b = true <-> a = b.
Proof.
  revert b. induction a as [|x a IH]; intros [|y b]; simpl; try (split; congruence).
  rewrite andb_true_iff, char_eqb_eq, IH. split.
  - intros [-> ->]. reflexivity.
  - intros H. injection H as -> ->. split; reflexivity.
Qed.

Lemma str_eqb_refl (a : pystr) : str_eqb a a = true.
Proof. apply str_eqb_eq. reflexivity. Qed.

Lemma startswith_app (p s : pystr) : startswith (p ++ s) p = true.
Proof.
  induction p as [|x p IH]; simpl.
  - destruct s; reflexivity.
  - rewrite char_eqb_refl. exact IH.
Qed.

Lemma endswith_app (s p : pystr) : endswith (s ++ p) p = true.
Proof. unfold endswith. rewrite rev_app_distr. apply startswith_app. Qed.

Lemma slice_from_app (p s : pystr) : slice_from (length p) (p ++ s) = s.
Proof. unfold slice_from. apply drop_app_length. Qed.

Lemma slice_to_minus_app (s p : pystr) : slice_to_minus (length p) (s ++ p) = s.
Proof.
  unfold slice_to_minus. rewrite length_app.
  replace (length s + length p - length p)%nat with (length s) by lia.
  apply take_app_length.
Qed.

Lemma lstrip_by_blank (sp : char -> bool) (w s : pystr) :
  Forall (fun c => sp c = true) w -> lstrip_by sp (w ++ s) = lstrip_by sp s.
Proof.
  induction 1 as [|c w Hc _ IH]; simpl; [reflexivity|].
  rewrite Hc. exact IH.
Qed.

Lemma lstrip_by_solid (sp : char -> bool) (c : char) (s : pystr) :
  sp c = false -> lstrip_by sp (c :: s) = c :: s.
Proof. intros H. simpl. rewrite H. reflexivity. Qed.

Lemma rstrip_by_blank (sp : char -> bool) (s w : pystr) :
  Forall (fun c => sp c = true) w -> rstrip_by sp (s ++ w) = rstrip_by sp s.
Proof.
  intros H. unfold rstrip_by. rewrite rev_app_distr.
  rewrite lstrip_by_blank; [reflexivity|].
  apply List.Forall_rev. exact H.
Qed.

Lemma rstrip_by_solid (sp : char -> bool) (s : pystr) (c : char) :
  sp c = false -> rstrip_by sp (s ++ [c]) = s ++ [c].
Proof.
  intros H. unfold rstrip_by. rewrite rev_app_distr. simpl.
  rewrite H. simpl. rewrite rev_involutive. reflexivity.
Qed.

(** A text between blanks, itself starting and ending with a
    non-blank, is what [strip] leaves. *)
Lemma strip_by_core (sp : char -> bool) (w1 w2 mid : pystr) (a b : char) :
  Forall (fun c => sp c = true) w1 -> Forall (fun c => sp c = true) w2 ->
  sp a = false -> sp b = false ->
  strip_by sp (w1 ++ (a :: mid ++ [b]) ++ w2) = a :: mid ++ [b].
Proof.
  intros H1 H2 Ha Hb. unfold strip_by.
  rewrite lstrip_by_blank by exact H1.
  simpl. rewrite Ha.
  change (a :: (mid ++ [b]) ++ w2) with ((a :: mid ++ [b]) ++ w2).
  rewrite rstrip_by_blank by exact H2.
  change (a :: mid ++ [b]) with ((a :: mid) ++ [b]).
  apply rstrip_by_solid. exact Hb.
Qed.

Lemma re_sub_class_filter (cls : char -> bool) (s : pystr) :
  re_sub_class cls [] s = List.filter (fun c => negb (cls c)) s.
Proof.
  induction s as [|c s IH]; simpl; [reflexivity|].
  destruct (cls c); simpl; rewrite IH; reflexivity.
Qed.

(** ** Extraction *)

Lemma dict_get_set (d : pydict) (key : pystr) (v default : pyval) :
  dict_get (dict_set d key v) key default = v.
Proof.
  induction d as [|[k w] d IH]; simpl.
  - rewrite str_eqb_refl. reflexivity.
  - destruct (str_eqb k key) eqn:E; simpl; rewrite E; [reflexivity | exact IH].
Qed.

Lemma extract_try_unfold (f : UploadedFile) (i : nat) :
  extract_try f i =
  match oracle_call f i with
  | Raise e => Raise e
  | Ok text =>
    match json_loads (strip_fences text) with
    | Raise e => Raise e
    | Ok v => setitem v (py "filename") (PStr (name f))
    end
  end.
Proof.
  unfold extract_try, oracle_call, mbind, result_mbind, bind.
  destruct (generate_content _ _ _); [|reflexivity].
  destruct (json_loads _); [|reflexivity].
  destruct (setitem _ _ _); reflexivity.
Qed.

Lemma extract_data_from_file_unfold (f : UploadedFile) (i n : nat) :
  extract_data_from_file f i n =
  match extract_try f i with
  | Ok data => (data, PNone)
  | Raise e => (PNone, PStr (error_text f e))
  end.
Proof.
  unfold extract_data_from_file, error_text.
  destruct (extract_try f i) as [|[|]]; reflexivity.
Qed.

Lemma setitem_ok (v : pyval) (key : pystr) (x : pyval) (data : pyval) :
  setitem v key x = Ok data ->
  exists d, v = PDict d /\ data = PDict (dict_set d key x).
Proof.
  destruct v; simpl; intros H; try discriminate.
  injection H as <-. eauto.
Qed.

Lemma extract_try_ok_dict (f : UploadedFile) (i : nat) (data : pyval) :
  extract_try f i = Ok data ->
  exists d, data = PDict d.
Proof.
  rewrite extract_try_unfold.
  destruct (oracle_call f i); [|discriminate].
  destruct (json_loads _); [|discriminate].
  intros H. apply setitem_ok in H. destruct H as (d & _ & ->). eauto.
Qed.

Lemma truthy_error_text (f : UploadedFile) (e : exn) :
  truthy (PStr (error_text f e)) = true.
Proof. destruct e; reflexivity. Qed.

Lemma process_files_spec (total idx : nat) (files : list UploadedFile)
    (statements : list pyval) (shown : list pystr) :
  process_files total idx files statements shown =
  (statements ++ batch_records idx files, shown ++ batch_errors idx files).
Proof.
  revert idx statements shown.
  induction files as [|f files IH]; intros idx statements shown;
    cbn [process_files batch_records batch_errors].
  - rewrite !app_nil_r. reflexivity.
  - rewrite extract_data_from_file_unfold.
    destruct (extract_try f (idx + 1)) as [data|e] eqn:E.
    + change (truthy PNone) with false. cbv iota.
      rewrite IH. rewrite <- app_assoc. reflexivity.
    + rewrite truthy_error_text.
      rewrite IH. rewrite <- app_assoc. reflexivity.
Qed.






(** C10. [extract_data_from_file] returns either a record with [None]
    as error, the record being a dict whose ['filename'] entry is the
    name of the uploaded file, or [None] with an error message: never
    both, never neither. *)
Theorem extract_returns_record_or_error
    (uploaded_file : UploadedFile) (file_index total_files : nat) :
  (exists d : pydict,
      extract_data_from_file uploaded_file file_index total_files = (PDict d, PNone)
      /\ dict_get d (py "filename") PNone = PStr (name uploaded_file))
  \/ (exists msg : pystr,
      extract_data_from_file uploaded_file file_index total_files = (PNone, PStr msg)).
Proof.
  rewrite extract_data_from_file_unfold, extract_try_unfold.
  destruct (oracle_call uploaded_file file_index) as [text|e]; [|right; eauto].
  destruct (json_loads (strip_fences text)) as [v|e]; [|right; eauto].
  destruct (setitem v (py "filename") (PStr (name uploaded_file))) as [data|e] eqn:E;
    [|right; eauto].
  apply setitem_ok in E. destruct E as (d & -> & ->).
  left. eexists. split; [reflexivity|]. apply dict_get_set.
Qed.

(** C2. Whatever goes wrong in the [try] block - the oracle call, the
    JSON parsing of its output, or the step after it - the function
    returns [None] with a message that contains the name of the file;
    and the batch loop appends the record of every file that succeeds
    and shows the error of every file that fails, one after the other,
    to the end of the batch. *)
Theorem extraction_failure_is_contained
    (f : UploadedFile) (i n : nat)
    (total idx : nat) (files : list UploadedFile)
    (statements : list pyval) (shown : list pystr) :
  extract_data_from_file f i n =
    match oracle_call f i with
    | Raise e => (PNone, PStr (error_text f e))
    | Ok text =>
      match json_loads (strip_fences text) with
      | Raise e => (PNone, PStr (error_text f e))
      | Ok v =>
        match setitem v (py "filename") (PStr (name f)) with
        | Raise e => (PNone, PStr (error_text f e))
        | Ok data => (data, PNone)
        end
      end
    end
  /\ (forall e, exists pre post, error_text f e = pre ++ name f ++ post)
  /\ process_files total idx files statements shown
     = (statements ++ batch_records idx files, shown ++ batch_errors idx files).
Proof.
  split; [|split].
  - rewrite extract_data_from_file_unfold, extract_try_unfold.
    destruct (oracle_call f i); [|reflexivity].
    destruct (json_loads _); [|reflexivity].
    destruct (setitem _ _ _); reflexivity.
  - intros [m|c m]; unfold error_text.
    + exists (py "JSON parsing error in "), (py ": " ++ m). reflexivity.
    + exists (py "Error processing "), (py ": " ++ m). reflexivity.
  - apply process_files_spec.
Qed.


(** C4, as amended. The parsed value is not checked against any shape:
    when the response parses to a JSON object, whatever its fields, the
    object is returned as the record with the file name added; only a
    parsed value that is not an object yields an error, which names the
    file. *)
Theorem parsed_object_is_returned_unchecked
    (f : UploadedFile) (i n : nat) (text : pystr) (v : pyval) :
  oracle_call f i = Ok text ->
  json_loads (strip_fences text) = Ok v ->
  (forall d, v = PDict d ->
     extract_data_from_file f i n
       = (PDict (dict_set d (py "filename") (PStr (name f))), PNone))
  /\ (is_dict v = false ->
      exists m, extract_data_from_file f i n
                = (PNone, PStr (py "Error processing " ++ name f ++ py ": " ++ m))).
Proof.
  intros Ho Hj.
  rewrite extract_data_from_file_unfold, extract_try_unfold, Ho, Hj.
  split.
  - intros d ->. reflexivity.
  - destruct v; simpl; intros Hd; try discriminate; eauto.
Qed.

(** C5, as amended. When at least one document is uploaded and their
    number differs from the recorded upload count, the run starts from
    an empty batch: the statements afterwards are the records of this
    run's files alone, and the count is updated. *)
Theorem count_change_resets_batch
    (uploaded_files : list UploadedFile) (st : session_state) :
  uploaded_files <> [] ->
  length uploaded_files <> last_upload_count st ->
  handle_uploads uploaded_files st
    = ({| all_statements := batch_records 0 uploaded_files;
          processing_complete := true;
          last_upload_count := length uploaded_files |},
       batch_errors 0 uploaded_files).
Proof.
  intros Hne Hcount. unfold handle_uploads.
  destruct uploaded_files as [|f files]; [contradiction|].
  destruct (Nat.eqb_spec (length (f :: files)) (last_upload_count st)) as [E|E];
    [contradiction|].
  cbn [negb processing_complete all_statements last_upload_count].
  rewrite process_files_spec. reflexivity.
Qed.

(** ** Amounts *)

Lemma decimal_in_spec (runs : list N) (c : char) (d : N) :
  decimal_in runs c = Some d ->
  exists lo, In lo runs /\ (lo <= c < lo + 10)%N /\ d = (c - lo)%N.
Proof.
  induction runs as [|lo runs IH]; simpl; [discriminate|].
  destruct ((lo <=? c)%N && (c <? lo + 10)%N) eqn:E.
  - intros H. injection H as <-. exists lo.
    apply andb_true_iff in E. destruct E as [E1 E2].
    apply N.leb_le in E1. apply N.ltb_lt in E2. auto.
  - intros H. destruct (IH H) as (lo' & Hin & Hr & Hd). exists lo'. auto.
Qed.

Lemma runs_far_from_spaces :
  forallb far_from_spaces (List.tl decimal_runs) = true.
Proof. vm_compute. reflexivity. Qed.

Lemma far_not_space (lo c : N) :
  far_from_spaces lo = true -> (lo <= c < lo + 10)%N ->
  isspace c = false /\ (127 < c)%N.
Proof.
  unfold far_from_spaces, isspace. intros H Hc.
  repeat (apply andb_true_iff in H; destruct H as [H ?]).
  apply N.leb_le in H.
  assert (A : (c < 5760 \/ 5760 < c)%N).
  { apply orb_true_iff in H2. destruct H2 as [G|G];
      [apply N.leb_le in G | apply N.ltb_lt in G]; lia. }
  assert (B : (c < 8192 \/ 8287 < c)%N).
  { apply orb_true_iff in H1. destruct H1 as [G|G];
      [apply N.leb_le in G | apply N.ltb_lt in G]; lia. }
  assert (C : (c < 12288 \/ 12288 < c)%N).
  { apply orb_true_iff in H0. destruct H0 as [G|G];
      [apply N.leb_le in G | apply N.ltb_lt in G]; lia. }
  split; [|lia].
  assert (E1 : (c <=? 13)%N = false) by (apply N.leb_gt; lia).
  assert (E2 : (c <=? 32)%N = false) by (apply N.leb_gt; lia).
  assert (E3 : (c =? 133)%N = false) by (apply N.eqb_neq; lia).
  assert (E4 : (c =? 160)%N = false) by (apply N.eqb_neq; lia).
  assert (E5 : (c =? 5760)%N = false) by (apply N.eqb_neq; lia).
  assert (E6 : ((8192 <=? c) && (c <=? 8202))%N = false).
  { destruct B; [replace (8192 <=? c)%N with false by (symmetry; apply N.leb_gt; lia)
                |replace (c <=? 8202)%N with false by (symmetry; apply N.leb_gt; lia)];
      [reflexivity | apply andb_false_r]. }
  assert (E7 : (c =? 8232)%N = false) by (apply N.eqb_neq; lia).
  assert (E8 : (c =? 8233)%N = false) by (apply N.eqb_neq; lia).
  assert (E9 : (c =? 8239)%N = false) by (apply N.eqb_neq; lia).
  assert (E10 : (c =? 8287)%N = false) by (apply N.eqb_neq; lia).
  assert (E11 : (c =? 12288)%N = false) by (apply N.eqb_neq; lia).
  rewrite E1, E2, E3, E4, E5, E6, E7, E8, E9, E10, E11.
  rewrite !andb_false_r. reflexivity.
Qed.

Lemma todecimal_cases (c : char) (d : N) :
  todecimal c = Some d ->
  (isdigit c = true /\ (0x30 + d)%N = c)
  \/ (isspace c = false /\ (127 < c)%N /\ (d < 10)%N).
Proof.
  unfold todecimal. change decimal_runs with (0x30%N :: List.tl decimal_runs).
  cbn [decimal_in].
  destruct ((48 <=? c)%N && (c <? 48 + 10)%N) eqn:E.
  - intros H. injection H as <-. left.
    apply andb_true_iff in E. destruct E as [E1 E2].
    apply N.leb_le in E1. apply N.ltb_lt in E2.
    unfold isdigit. split; [|lia].
    apply andb_true_iff. split; [apply N.leb_le | apply N.leb_le]; lia.
  - intros H. right. apply decimal_in_spec in H.
    destruct H as (lo & Hin & Hr & ->).
    pose proof runs_far_from_spaces as F.
    rewrite forallb_forall in F. specialize (F lo Hin).
    destruct (far_not_space lo c F Hr). repeat split; try assumption. lia.
Qed.

Lemma ascii_digit_plain (c : char) :
  amount_char c = true -> plain (ascii_digit c) = true.
Proof.
  unfold amount_char, plain, ascii_digit, isdecimal.
  destruct (todecimal c) as [d|] eqn:E.
  - intros _. destruct (todecimal_cases c d E) as [[Hd He]|(_ & _ & Hlt)].
    + rewrite He, Hd. reflexivity.
    + assert (D : isdigit (48 + d)%N = true).
      { unfold isdigit. apply andb_true_iff.
        split; apply N.leb_le; lia. }
      rewrite D. reflexivity.
  - cbn [orb]. intros H. apply orb_true_iff in H.
    destruct H as [H|H]; rewrite H; [rewrite orb_true_r|]; auto using orb_true_r.
Qed.

Lemma ascii_digit_of (c : char) :
  ascii_digit c = match todecimal c with Some d => (48 + d)%N | None => c end.
Proof. reflexivity. Qed.

Lemma transform_clean (t : pystr) :
  Forall (fun c => amount_char c = true) t ->
  transform_decimal_and_space t = List.map ascii_digit t.
Proof.
  induction 1 as [|c t Hc _ IH]; cbn [transform_decimal_and_space List.map];
    [reflexivity|].
  rewrite IH, (ascii_digit_of c).
  destruct (todecimal c) as [d|] eqn:E.
  - destruct (todecimal_cases c d E) as [[Hd He]|(Hs & Hn & _)].
    + assert (L : (c <? 127)%N = true).
      { apply N.ltb_lt. unfold isdigit in Hd. apply andb_true_iff in Hd.
        destruct Hd as [_ Hd]. apply N.leb_le in Hd. lia. }
      rewrite L, He. reflexivity.
    + assert (L : (c <? 127)%N = false) by (apply N.ltb_ge; lia).
      rewrite L, Hs. reflexivity.
  - assert (L : (c <? 127)%N = true).
    { unfold amount_char, isdecimal in Hc. rewrite E in Hc. cbn [orb] in Hc.
      apply orb_true_iff in Hc. destruct Hc as [Hc|Hc];
        apply char_eqb_eq in Hc; subst c; reflexivity. }
    rewrite L. reflexivity.
Qed.

Lemma lstrip_by_none (sp : char -> bool) (s : pystr) :
  Forall (fun c => sp c = false) s -> lstrip_by sp s = s.
Proof. destruct 1 as [|c s Hc _]; simpl; [reflexivity|]. rewrite Hc. reflexivity. Qed.

Lemma strip_by_none (sp : char -> bool) (s : pystr) :
  Forall (fun c => sp c = false) s -> strip_by sp s = s.
Proof.
  intros H. unfold strip_by, rstrip_by. rewrite (lstrip_by_none sp s H).
  rewrite lstrip_by_none by (apply List.Forall_rev; exact H).
  apply rev_involutive.
Qed.

Lemma plain_facts (c : char) :
  plain c = true ->
  ascii_isspace c = false /\ char_eqb (ch "_") c = false
  /\ char_eqb c (ch "+") = false
  /\ char_eqb c (ch "e") = false /\ char_eqb c (ch "E") = false
  /\ ascii_lower c = c
  /\ char_eqb c (ch "i") = false /\ char_eqb c (ch "n") = false.
Proof.
  unfold plain, isdigit, ascii_isspace, ascii_lower, char_eqb. intros H.
  apply orb_true_iff in H. destruct H as [H|H];
    [apply orb_true_iff in H; destruct H as [H|H]|].
  - apply andb_true_iff in H. destruct H as [H1 H2].
    apply N.leb_le in H1. apply N.leb_le in H2.
    change (ch "_") with 95%N. change (ch "+") with 43%N.
    change (ch "e") with 101%N. change (ch "E") with 69%N.
    change (ch "i") with 105%N. change (ch "n") with 110%N.
    assert (A1 : (c <=? 13)%N = false) by (apply N.leb_gt; lia).
    assert (A2 : (c =? 32)%N = false) by (apply N.eqb_neq; lia).
    assert (A3 : (65 <=? c)%N = false) by (apply N.leb_gt; lia).
    rewrite A1, A2, A3, andb_false_r.
    repeat split; try reflexivity; apply N.eqb_neq; lia.
  - apply N.eqb_eq in H. subst c. vm_compute. repeat split; reflexivity.
  - apply N.eqb_eq in H. subst c. vm_compute. repeat split; reflexivity.
Qed.

Lemma span_digits_app (s : pystr) :
  s = fst (span_digits s) ++ snd (span_digits s).
Proof.
  induction s as [|c s IH]; simpl; [reflexivity|].
  destruct (isdigit c); [|reflexivity].
  destruct (span_digits s) as [d t]. cbn [fst snd app] in IH |- *.
  rewrite <- IH. reflexivity.
Qed.

Lemma span_digits_plain (s : pystr) :
  Forall (fun c => plain c = true) s ->
  Forall (fun c => plain c = true) (snd (span_digits s)).
Proof.
  intros H. rewrite (span_digits_app s) in H.
  apply Forall_app in H. destruct H as [_ H]. exact H.
Qed.

Lemma read_exponent_plain (s : pystr) :
  Forall (fun c => plain c = true) s -> read_exponent s = None.
Proof.
  destruct 1 as [|c s Hc _]; [reflexivity|].
  unfold read_exponent.
  destruct (plain_facts c Hc) as (_ & _ & _ & He & HE & _).
  rewrite He, HE. reflexivity.
Qed.

Lemma parse_inf_or_nan_plain (s : pystr) :
  Forall (fun c => plain c = true) s -> parse_inf_or_nan s = None.
Proof.
  assert (K : forall r, Forall (fun c => plain c = true) r ->
              istartswith r "inf" = false /\ istartswith r "nan" = false).
  { destruct 1 as [|c r Hc _]; [split; reflexivity|].
    destruct (plain_facts c Hc) as (_ & _ & _ & _ & _ & Hl & Hi & Hn).
    unfold istartswith. cbn [List.map]. rewrite Hl.
    change (py "inf") with (ch "i" :: py "nf").
    change (py "nan") with (ch "n" :: py "an").
    cbn [startswith]. unfold char_eqb in *.
    rewrite (N.eqb_sym (ch "i") c), (N.eqb_sym (ch "n") c), Hi, Hn.
    split; reflexivity. }
  intros H. unfold parse_inf_or_nan.
  destruct H as [|c s Hc Hs]; [reflexivity|].
  destruct (plain_facts c Hc) as (_ & _ & Hp & _).
  rewrite Hp.
  destruct (char_eqb c (ch "-")).
  - destruct (K s Hs) as [-> ->]. reflexivity.
  - destruct (K (c :: s) (List.Forall_cons _ _ _ Hc Hs)) as [-> ->]. reflexivity.
Qed.

Lemma read_mantissa_plain (s : pystr) :
  Forall (fun c => plain c = true) s ->
  Forall (fun c => plain c = true) (snd (read_mantissa s)).
Proof.
  intros H. unfold read_mantissa.
  pose proof (span_digits_plain s H) as P1.
  destruct (span_digits s) as [ip r1]. cbn [snd] in P1.
  destruct P1 as [|c r Hc Hr]; [constructor|].
  destruct (char_eqb c (ch ".")).
  - pose proof (span_digits_plain r Hr) as P2.
    destruct (span_digits r) as [fp r2]. exact P2.
  - constructor; assumption.
Qed.

Lemma transform_plain (a : pystr) :
  Forall (fun c => plain c = true) a -> transform_decimal_and_space a = a.
Proof.
  induction 1 as [|c a Hc _ IH]; cbn [transform_decimal_and_space]; [reflexivity|].
  assert (L : (c <? 127)%N = true).
  { apply N.ltb_lt. unfold plain, isdigit, char_eqb in Hc.
    apply orb_true_iff in Hc. destruct Hc as [Hc|Hc];
      [apply orb_true_iff in Hc; destruct Hc as [Hc|Hc]|].
    - apply andb_true_iff in Hc. destruct Hc as [_ Hc]. apply N.leb_le in Hc. lia.
    - apply N.eqb_eq in Hc. subst c. reflexivity.
    - apply N.eqb_eq in Hc. subst c. reflexivity. }
  rewrite L, IH. reflexivity.
Qed.

(** Sign, mantissa digits and nothing else: what [strtod] and
    [decimal_number] both read from a cleaned text. *)
Lemma strtod_plain (neg : bool) (r0 : pystr) :
  Forall (fun c => plain c = true) r0 ->
  (let '(ip, fp, r2) := read_mantissa r0 in
   match ip ++ fp with
   | [] => None
   | ds =>
     let '(x, r3) :=
       match read_exponent r2 with
       | Some (x, r) => (x, r)
       | None => (0, r2)
       end in
     Some (round_decimal neg (digits_value ds) (x - Z.of_nat (length fp)), r3)
   end)
  = (let '(ip, fp, r2) := read_mantissa r0 in
     match ip ++ fp with
     | [] => None
     | ds => Some (round_decimal neg (digits_value ds) (- Z.of_nat (length fp)), r2)
     end).
Proof.
  intros H. pose proof (read_mantissa_plain r0 H) as P.
  destruct (read_mantissa r0) as [[ip fp] r2]. cbn [snd] in P.
  rewrite (read_exponent_plain r2 P).
  destruct (ip ++ fp); reflexivity.
Qed.

Lemma py_float_plain (a : pystr) :
  Forall (fun c => plain c = true) a ->
  py_float a =
  match decimal_number a with
  | Some x => Ok x
  | None => Raise could_not_convert
  end.
Proof.
  intros H. unfold py_float.
  rewrite (transform_plain a H).
  rewrite strip_by_none.
  2: { eapply Forall_impl; [exact H|]. intros c Hc. apply plain_facts. exact Hc. }
  assert (U : existsb (char_eqb (ch "_")) a = false).
  { clear -H. induction H as [|c a Hc _ IH]; cbn [existsb]; [reflexivity|].
    destruct (plain_facts c Hc) as (_ & -> & _). exact IH. }
  rewrite U.
  rewrite (parse_inf_or_nan_plain a H).
  unfold strtod, decimal_number.
  destruct H as [|c a Hc Ha].
  - reflexivity.
  - unfold read_sign. destruct (plain_facts c Hc) as (_ & _ & -> & _).
    destruct (char_eqb c (ch "-")).
    + rewrite (strtod_plain true a Ha).
      destruct (read_mantissa a) as [[ip fp] r2].
      destruct (ip ++ fp); [destruct r2; reflexivity|].
      destruct r2; reflexivity.
    + rewrite (strtod_plain false (c :: a) (List.Forall_cons _ _ _ Hc Ha)).
      destruct (read_mantissa (c :: a)) as [[ip fp] r2].
      destruct (ip ++ fp); [destruct r2; reflexivity|].
      destruct r2; reflexivity.
Qed.

Lemma round_fraction_sign (s : bool) (p q : Z) :
  sign_of (round_fraction s p q) = Some s.
Proof.
  unfold round_fraction. cbv zeta.
  match goal with |- context [if ?c then (2 ^ 52, _) else _] => destruct c end;
  match goal with |- context [match ?m with Z0 => _ | Zpos _ => _ | Zneg _ => _ end] =>
    destruct m end;
  try reflexivity;
  match goal with |- context [if ?c then _ else _] => destruct c end; reflexivity.
Qed.

Lemma round_ratio_sign (s : bool) (p q : Z) : sign_of (round_ratio s p q) = Some s.
Proof.
  unfold round_ratio. destruct (p <=? 0); [reflexivity|].
  apply round_fraction_sign.
Qed.

Lemma decimal_number_sign (a : pystr) (x : float) :
  decimal_number a = Some x ->
  sign_of x = Some (match a with
                    | c :: _ => char_eqb c (ch "-")
                    | [] => false
                    end).
Proof.
  unfold decimal_number.
  destruct a as [|c r].
  - destruct (read_mantissa []) as [[ip fp] r2].
    destruct r2; [|discriminate]. destruct (ip ++ fp); [discriminate|].
    intros H. injection H as <-. apply round_ratio_sign.
  - destruct (char_eqb c (ch "-")).
    + destruct (read_mantissa r) as [[ip fp] r2].
      destruct r2; [|discriminate]. destruct (ip ++ fp); [discriminate|].
      intros H. injection H as <-. apply round_ratio_sign.
    + destruct (read_mantissa (c :: r)) as [[ip fp] r2].
      destruct r2; [|discriminate]. destruct (ip ++ fp); [discriminate|].
      intros H. injection H as <-. apply round_ratio_sign.
Qed.

Lemma flt_zero_sign (x : float) (s : bool) :
  sign_of x = Some s ->
  (flt x fzero = true -> s = true)
  /\ (flt fzero x = true -> s = false /\ is_zero x = false)
  /\ (flt fzero x = false <-> is_zero x = true \/ flt x fzero = true).
Proof.
  destruct x as [t|t| |t m e]; cbn; intros H; try discriminate;
    injection H as <-; destruct t; cbn; intuition congruence.
Qed.

Lemma filter_amount_chars (s : pystr) :
  re_sub_class not_amount_char [] s = List.filter amount_char s.
Proof.
  rewrite re_sub_class_filter. apply List.filter_ext.
  intros c. unfold not_amount_char, amount_char. apply negb_involutive.
Qed.

Lemma filter_amount_chars_all (s : pystr) :
  Forall (fun c => amount_char c = true) (List.filter amount_char s).
Proof.
  induction s as [|c s IH]; simpl; [constructor|].
  destruct (amount_char c) eqn:E; [constructor; assumption | exact IH].
Qed.

Lemma parse_amount_clean (x : pyval) :
  parse_amount x =
  match decimal_number (List.map ascii_digit (List.filter amount_char (py_str x))) with
  | Some v => v
  | None => fzero
  end.
Proof.
  unfold parse_amount. rewrite filter_amount_chars.
  pose proof (filter_amount_chars_all (py_str x)) as F.
  set (t := List.filter amount_char (py_str x)) in *.
  assert (P : Forall (fun c => plain c = true) (List.map ascii_digit t)).
  { clear -F. induction F as [|c t Hc _ IH]; simpl; constructor; [|exact IH].
    apply ascii_digit_plain. exact Hc. }
  assert (E : py_float t = py_float (List.map ascii_digit t)).
  { unfold py_float. rewrite (transform_clean t F).
    pose proof (transform_plain _ P) as T.
    rewrite T. reflexivity. }
  rewrite E, (py_float_plain _ P).
  destruct (decimal_number _); reflexivity.
Qed.

(** [parse_amount] never returns a NaN, and its sign is that of the
    cleaned text. *)
Lemma parse_amount_sign (x : pyval) :
  exists s, sign_of (parse_amount x) = Some s
    /\ (s = true ->
        exists r, List.filter amount_char (py_str x) = ch "-" :: r).
Proof.
  rewrite parse_amount_clean.
  set (t := List.filter amount_char (py_str x)).
  destruct (decimal_number (List.map ascii_digit t)) as [v|] eqn:E.
  - apply decimal_number_sign in E. eexists. split; [exact E|].
    destruct t as [|c r] eqn:Et; [discriminate|]. cbn [List.map].
    intros H. apply char_eqb_eq in H. exists r. f_equal.
    unfold ascii_digit in H. destruct (todecimal c) as [d|] eqn:D; [|exact H].
    exfalso. destruct (todecimal_cases c d D) as [[_ He]|(_ & _ & Hd)].
    + rewrite He in H. subst c. vm_compute in D. discriminate.
    + change (ch "-") with 45%N in H. lia.
  - exists false. split; [reflexivity | discriminate].
Qed.


(** ** Utilization *)

Lemma dict_get_present (d : pydict) (key : pystr) (a b : pyval) :
  dict_has d key = true -> dict_get d key a = dict_get d key b.
Proof.
  induction d as [|[k v] d IH]; simpl; [discriminate|].
  destruct (str_eqb k key); [reflexivity | exact IH].
Qed.

Lemma dict_get_absent (d : pydict) (key : pystr) (a : pyval) :
  dict_has d key = false -> dict_get d key a = a.
Proof.
  induction d as [|[k v] d IH]; simpl; [reflexivity|].
  destruct (str_eqb k key); [discriminate | exact IH].
Qed.

Lemma truediv_positive (a b : float) :
  flt fzero b = true -> truediv a b = Ok (fdiv a b).
Proof.
  intros H. unfold truediv.
  destruct b; try reflexivity. discriminate.
Qed.

(** Where the guard of line 364 passes, the limit it divides by is the
    one it tested: the two defaults only differ when the key is
    missing, and then the guard fails. *)
Lemma guarded_limit (stmt : pydict) :
  flt fzero (parse_amount (dict_get stmt (py "credit_limit") (PStr (py "0")))) = true ->
  dict_get stmt (py "credit_limit") (PStr (py "1"))
  = dict_get stmt (py "credit_limit") (PStr (py "0")).
Proof.
  intros H. destruct (dict_has stmt (py "credit_limit")) eqn:E.
  - apply dict_get_present. exact E.
  - rewrite (dict_get_absent _ _ _ E) in H. vm_compute in H. discriminate.
Qed.

(** C7. The utilization is the total due divided by the credit limit,
    times 100, exactly when the parsed credit limit is above zero; when
    it is zero or negative the comparison table and the per-card metric
    show 'N/A' and the chart row holds 0. None of the three raises: the
    division is never by zero. *)
Theorem utilization_division_is_guarded (stmt : pydict) :
  let credit_limit :=
    parse_amount (dict_get stmt (py "credit_limit") (PStr (py "0"))) in
  let total_due :=
    parse_amount (dict_get stmt (py "total_amount_due") (PStr (py "0"))) in
  let pct := fmul (fdiv total_due credit_limit) hundred in
  (flt fzero credit_limit = false
   <-> is_zero credit_limit = true \/ flt credit_limit fzero = true)
  /\ comparison_utilization stmt
     = Ok (if flt fzero credit_limit then format_1f pct ++ py "%" else py "N/A")
  /\ credit_utilization_metric stmt
     = Ok (if flt fzero credit_limit then format_1f pct ++ py "%" else py "N/A")
  /\ card_data_row stmt
     = Ok {| Card := card_label "Unknown" stmt;
             Total_Due := total_due;
             Credit_Limit := credit_limit;
             Utilization_pct :=
               if flt fzero credit_limit then PFloat pct else PInt 0 |}.
Proof.
  intros credit_limit total_due pct.
  split; [|split; [|split]].
  - destruct (parse_amount_sign (dict_get stmt (py "credit_limit") (PStr (py "0"))))
      as (s & Hs & _).
    apply (flt_zero_sign _ s Hs).
  - unfold comparison_utilization. fold credit_limit.
    destruct (flt fzero credit_limit) eqn:G; [|reflexivity].
    rewrite (guarded_limit stmt G). fold credit_limit total_due.
    rewrite (truediv_positive _ _ G). reflexivity.
  - unfold credit_utilization_metric. fold credit_limit total_due.
    destruct (flt fzero credit_limit) eqn:G; [|reflexivity].
    rewrite (truediv_positive _ _ G). reflexivity.
  - unfold card_data_row. fold credit_limit total_due.
    destruct (flt fzero credit_limit) eqn:G; [|reflexivity].
    rewrite (truediv_positive _ _ G). reflexivity.
Qed.

(** C8, as amended. The numeric amount of a transaction is what
    [parse_amount] reads from its amount field, and that keeps a minus
    sign: the amount is negative only when the first character kept
    from the text is a minus sign, whatever the type field says. An
    amount text without a minus sign gives a non-negative amount. *)
Theorem amount_sign_comes_from_text (amount : pyval) :
  (flt (parse_amount amount) fzero = true ->
   exists r, List.filter amount_char (py_str amount) = ch "-" :: r)
  /\ (existsb (char_eqb (ch "-")) (py_str amount) = false ->
      flt (parse_amount amount) fzero = false).
Proof.
  destruct (parse_amount_sign amount) as (s & Hs & Hneg).
  destruct (flt_zero_sign _ s Hs) as (Hlt & _).
  split.
  - intros H. apply Hneg, Hlt, H.
  - intros Hno. destruct (flt (parse_amount amount) fzero) eqn:E; [|reflexivity].
    exfalso. destruct (Hneg (Hlt eq_refl)) as [r Hr].
    assert (I : In (ch "-") (List.filter amount_char (py_str amount))).
    { rewrite Hr. left. reflexivity. }
    apply List.filter_In in I. destruct I as [I _].
    assert (X : existsb (char_eqb (ch "-")) (py_str amount) = true).
    { apply existsb_exists. exists (ch "-"). split; [exact I | apply char_eqb_refl]. }
    congruence.
Qed.

(** ** The store: what the result page leaves untouched *)

Lemma keeps_ret {A} h0 inv (a : A) (post : A -> Prop) :
  post a -> keeps h0 inv (ret a) post.
Proof. intros Hp h Hh Hi. cbn. repeat split; try assumption. congruence. Qed.

Lemma keeps_lift {A} h0 inv (r : result A) :
  keeps h0 inv (lift r) (fun _ => True).
Proof. intros h Hh Hi. cbn. auto. Qed.

Lemma keeps_bind {A B} h0 inv (c : comp A) (k : A -> comp B)
    (mid : A -> Prop) (post : B -> Prop) :
  keeps h0 inv c mid ->
  (forall a, mid a -> keeps h0 inv (k a) post) ->
  keeps h0 inv (cbind c k) post.
Proof.
  intros Hc Hk h Hh Hi. unfold cbind.
  destruct (Hc h Hh Hi) as (H1 & H2 & H3).
  destruct (c h) as [[a|e] h1]; cbn in *.
  - apply (Hk a (H3 a eq_refl) h1 H1 H2).
  - repeat split; try assumption. discriminate.
Qed.

Lemma keeps_weaken {A} h0 inv (c : comp A) (p q : A -> Prop) :
  keeps h0 inv c p -> (forall a, p a -> q a) -> keeps h0 inv c q.
Proof.
  intros Hc Hpq h Hh Hi. destruct (Hc h Hh Hi) as (H1 & H2 & H3). auto.
Qed.

(** A computation that leaves the store as it is. *)
Lemma keeps_read {A} h0 inv (c : comp A) :
  (forall h, snd (c h) = h) -> keeps h0 inv c (fun _ => True).
Proof. intros Hr h Hh Hi. rewrite Hr. auto. Qed.

Lemma vget_reads obj key default h : snd (vget obj key default h) = h.
Proof. unfold vget. destruct obj; try reflexivity. destruct (h !! l) as [[]|]; reflexivity. Qed.

Lemma viter_reads v h : snd (viter v h) = h.
Proof. unfold viter. destruct v; try reflexivity. destruct (h !! l) as [[]|]; reflexivity. Qed.

Lemma snapshot_reads v h : snd (snapshot v h) = h.
Proof. unfold snapshot. destruct (reify _ _ _); reflexivity. Qed.

Lemma vstr_reads v h : snd (vstr v h) = h.
Proof.
  unfold vstr, cbind. pose proof (snapshot_reads v h) as S.
  destruct (snapshot v h) as [[t|e] h1]; cbn in *; exact S.
Qed.

Lemma fresh_outside (h0 h : store) :
  h0 ⊆ h -> h0 !! fresh (dom h) = None /\ h !! fresh (dom h) = None.
Proof.
  intros Hh. assert (F : h !! fresh (dom h) = None).
  { apply not_elem_of_dom. apply is_fresh. }
  split; [|exact F].
  destruct (h0 !! fresh (dom h)) eqn:E; [|reflexivity].
  eapply lookup_weaken in E; [|exact Hh]. congruence.
Qed.

Lemma rows_survive_insert h0 rows h l o :
  rows_are_copies h0 rows h -> l <> rows -> rows_are_copies h0 rows (<[l := o]> h).
Proof.
  intros (items & Hl & Hf) Hne. exists items. split; [|exact Hf].
  rewrite lookup_insert_ne by exact Hne. exact Hl.
Qed.

Lemma keeps_alloc h0 rows (o : object) :
  keeps h0 (rows_are_copies h0 rows) (alloc o) (fun l => h0 !! l = None).
Proof.
  intros h Hh Hi. unfold alloc. cbn.
  destruct (fresh_outside h0 h Hh) as [F0 F].
  repeat split.
  - apply insert_subseteq_r; assumption.
  - apply rows_survive_insert; [exact Hi|].
    destruct Hi as (items & Hl & _). congruence.
  - intros a Ha. injection Ha as <-. exact F0.
Qed.

Lemma keeps_vcopy h0 rows (obj : value) :
  keeps h0 (rows_are_copies h0 rows) (vcopy obj) (made_after h0).
Proof.
  intros h Hh Hi. unfold vcopy.
  destruct obj; try (cbn; repeat split; try assumption; discriminate).
  destruct (h !! l) as [o|] eqn:E;
    [|cbn; repeat split; try assumption; discriminate].
  destruct (keeps_alloc h0 rows o h Hh Hi) as (H1 & H2 & H3).
  unfold alloc in *. cbn in *. repeat split; try assumption.
  intros a Ha. injection Ha as <-. eexists. split; [reflexivity|].
  apply H3. reflexivity.
Qed.

Lemma keeps_vsetitem h0 rows (obj : value) key v :
  made_after h0 obj ->
  keeps h0 (rows_are_copies h0 rows) (vsetitem obj key v) (fun _ => True).
Proof.
  intros (l & -> & Hl) h Hh Hi. unfold vsetitem.
  destruct (h !! l) as [[d|items]|] eqn:E; cbn; repeat split; try assumption.
  - apply insert_subseteq_r; assumption.
  - apply rows_survive_insert; [exact Hi|].
    destruct Hi as (items & Hr & _). congruence.
Qed.

Lemma keeps_vappend h0 rows (v : value) :
  h0 !! rows = None -> made_after h0 v ->
  keeps h0 (rows_are_copies h0 rows) (vappend rows v) (fun _ => True).
Proof.
  intros Hr Hv h Hh Hi. unfold vappend.
  destruct Hi as (items & Hl & Hf). rewrite Hl. cbn. repeat split.
  - apply insert_subseteq_r; assumption.
  - exists (items ++ [v]). split; [apply lookup_insert_eq|].
    apply Forall_app. split; [exact Hf | constructor; [exact Hv | constructor]].
Qed.

Lemma keeps_for_each {A} h0 inv (items : list A) (body : A -> comp unit) :
  (forall x, keeps h0 inv (body x) (fun _ => True)) ->
  keeps h0 inv (for_each items body) (fun _ => True).
Proof.
  intros Hb. induction items as [|x items IH]; cbn [for_each].
  - apply keeps_ret. exact I.
  - eapply keeps_bind; [apply Hb|]. intros _ _. exact IH.
Qed.

Lemma keeps_export_loop h0 rows (stmts : list value) :
  h0 !! rows = None ->
  keeps h0 (rows_are_copies h0 rows)
    (for_each stmts (fun stmt =>
       issuer <~ vget stmt "issuer" (VStr (py "Unknown"));
       issuer_text <~ vstr issuer;
       last4 <~ vget stmt "card_last_4" (VStr (py "****"));
       last4_text <~ vstr last4;
       let card_id := issuer_text ++ py " *" ++ last4_text in
       empty <~ alloc (OList []);
       txns <~ vget stmt "transactions" (VRef empty);
       txn_list <~ viter txns;
       for_each txn_list (fun txn =>
         txn_copy <~ vcopy txn;
         _ <~ vsetitem txn_copy "card" (VStr card_id);
         vappend rows txn_copy)))
    (fun _ => True).
Proof.
  intros Hrows. apply keeps_for_each. intros stmt.
  eapply keeps_bind; [apply keeps_read, vget_reads|]. intros issuer _.
  eapply keeps_bind; [apply keeps_read, vstr_reads|]. intros issuer_text _.
  eapply keeps_bind; [apply keeps_read, vget_reads|]. intros last4 _.
  eapply keeps_bind; [apply keeps_read, vstr_reads|]. intros last4_text _.
  cbv zeta.
  eapply keeps_bind; [apply keeps_alloc|]. intros empty _.
  eapply keeps_bind; [apply keeps_read, vget_reads|]. intros txns _.
  eapply keeps_bind; [apply keeps_read, viter_reads|]. intros txn_list _.
  apply keeps_for_each. intros txn.
  eapply keeps_bind; [apply keeps_vcopy|]. intros txn_copy Hcopy.
  eapply keeps_bind; [apply keeps_vsetitem; exact Hcopy|]. intros _ _.
  apply keeps_vappend; assumption.
Qed.

(** Lines 486-493 leave every object of the store as it was, and the
    rows they return are objects made by the loop. *)
Lemma export_transactions_frame (all_statements : value) (h : store) :
  h ⊆ snd (export_transactions all_statements h)
  /\ forall r, fst (export_transactions all_statements h) = Ok r ->
       exists rows items,
         r = VRef rows /\ h !! rows = None
         /\ snd (export_transactions all_statements h) !! rows = Some (OList items)
         /\ Forall (made_after h) items.
Proof.
  unfold export_transactions. unfold cbind at 1. unfold alloc at 1.
  set (rows := fresh (dom h)).
  assert (F : h !! rows = None).
  { apply not_elem_of_dom. apply is_fresh. }
  set (h1 := <[rows := OList []]> h).
  match goal with
  | |- context [snd (?c h1)] =>
    assert (K : keeps h (rows_are_copies h rows) c (fun r => r = VRef rows))
  end.
  { eapply keeps_bind; [apply keeps_read, viter_reads|]. intros stmts _.
    eapply keeps_bind; [apply keeps_export_loop; exact F|]. intros _ _.
    apply keeps_ret. reflexivity. }
  destruct (K h1) as (K1 & K2 & K3).
  - apply insert_subseteq. exact F.
  - exists []. split; [apply lookup_insert_eq | constructor].
  - split; [exact K1|]. intros r Hr. specialize (K3 r Hr). subst r.
    destruct K2 as (items & Hl & Hf). exists rows, items. auto.
Qed.

Lemma all_some_map_weaken {A B} (f g : A -> option B) (l : list A) (r : list B) :
  (forall a b, f a = Some b -> g a = Some b) ->
  all_some (List.map f l) = Some r -> all_some (List.map g l) = Some r.
Proof.
  intros Hfg. revert r. induction l as [|a l IH]; intros r; cbn; [auto|].
  destruct (f a) as [b|] eqn:E; [|discriminate].
  rewrite (Hfg a b E).
  destruct (all_some (List.map f l)) as [bs|]; [|discriminate].
  rewrite (IH bs eq_refl). auto.
Qed.

(** A tree read from a store is read unchanged from any store that
    extends it. *)
Lemma reify_weaken (fuel : nat) (h h' : store) (v : value) (t : pyval) :
  h ⊆ h' -> reify fuel h v = Some t -> reify fuel h' v = Some t.
Proof.
  intros Hh. revert v t. induction fuel as [|f IH]; intros v t;
    destruct v; cbn; try congruence.
  destruct (h !! l) as [o|] eqn:E; [|discriminate].
  rewrite (lookup_weaken _ _ _ _ E Hh).
  destruct o as [d|items].
  - destruct (all_some (List.map _ d)) as [r|] eqn:R; [|discriminate].
    erewrite all_some_map_weaken; [exact (fun H => H) | | exact R].
    intros [k x] b. cbn. destruct (reify f h x) as [tx|] eqn:X; [|discriminate].
    rewrite (IH _ _ X). auto.
  - destruct (all_some (List.map _ items)) as [r|] eqn:R; [|discriminate].
    erewrite all_some_map_weaken; [exact (fun H => H) | exact IH | exact R].
Qed.

Lemma display_results_unfold (all_statements : value) (h : store) :
  snd (display_results all_statements h) = h
  \/ snd (display_results all_statements h)
     = snd (export_transactions all_statements h)
     /\ forall p, fst (display_results all_statements h) = Ok p ->
          fst (export_transactions all_statements h) = Ok (all_transactions p).
Proof.
  unfold display_results, cbind, lift.
  pose proof (snapshot_reads all_statements h) as S.
  destruct (snapshot all_statements h) as [[batch|e] h1]; cbn in S; subst h1;
    [|left; reflexivity].
  destruct (py_iter batch); [|left; reflexivity].
  destruct (map_result as_dict a); [|left; reflexivity].
  destruct (portfolio_metrics a0); [|left; reflexivity].
  destruct (create_aggregate_category_chart a0); [|left; reflexivity].
  destruct (create_card_comparison_chart a0); [|left; reflexivity].
  destruct (map_result comparison_data_row a0); [|left; reflexivity].
  destruct (map_result credit_utilization_metric a0); [|left; reflexivity].
  pose proof (snapshot_reads all_statements h) as S.
  destruct (snapshot all_statements h) as [[dumped|e] h1]; cbn in S; subst h1;
    [|left; reflexivity].
  right. destruct (export_transactions all_statements h) as [[txns|e] h2]; cbn.
  - split; [reflexivity|]. intros p Hp. injection Hp as <-. reflexivity.
  - split; [reflexivity|]. discriminate.
Qed.

(** C9. Computing the portfolio totals, the chart rows, the comparison
    table, the per-card metrics and the three exports changes no object
    of the batch: every dict and list that was in the store before is
    there afterwards with the same entries, so every record and every
    transaction reads as the same tree. The rows of the transactions
    CSV, which get the 'card' entry, are objects made by the export
    loop, not objects of the batch. *)
Theorem display_and_export_leave_records_unchanged
    (all_statements : value) (h : store) :
  (forall l o, h !! l = Some o ->
     snd (display_results all_statements h) !! l = Some o)
  /\ (forall fuel v t, reify fuel h v = Some t ->
        reify fuel (snd (display_results all_statements h)) v = Some t)
  /\ (forall p, fst (display_results all_statements h) = Ok p ->
        exists rows items,
          all_transactions p = VRef rows /\ h !! rows = None
          /\ snd (display_results all_statements h) !! rows = Some (OList items)
          /\ Forall (made_after h) items).
Proof.
  assert (Sub : h ⊆ snd (display_results all_statements h)).
  { destruct (display_results_unfold all_statements h) as [->|[-> _]];
      [reflexivity | apply export_transactions_frame]. }
  split; [|split].
  - intros l o Hl. exact (lookup_weaken _ _ _ _ Hl Sub).
  - intros fuel v t Ht. exact (reify_weaken fuel _ _ v t Sub Ht).
  - intros p Hp.
    destruct (display_results_unfold all_statements h) as [E|[E Hx]].
    + exfalso. revert Hp E. unfold display_results, cbind, lift.
      pose proof (snapshot_reads all_statements h) as S.
      destruct (snapshot all_statements h) as [[batch|e] h1]; cbn in S; subst h1;
        [|discriminate].
      destruct (py_iter batch); [|discriminate].
      destruct (map_result as_dict a); [|discriminate].
      destruct (portfolio_metrics a0); [|discriminate].
      destruct (create_aggregate_category_chart a0); [|discriminate].
      destruct (create_card_comparison_chart a0); [|discriminate].
      destruct (map_result comparison_data_row a0); [|discriminate].
      destruct (map_result credit_utilization_metric a0); [|discriminate].
      pose proof (snapshot_reads all_statements h) as S.
      destruct (snapshot all_statements h) as [[dumped|e] h1]; cbn in S; subst h1;
        [|discriminate].
      pose proof (export_transactions_frame all_statements h) as [_ X].
      destruct (export_transactions all_statements h) as [[txns|e] h2]; cbn;
        [|discriminate].
      intros _ E. cbn in X. destruct (X txns eq_refl) as (rows & items & _ & N & L & _).
      rewrite E in L. congruence.
    + rewrite E. destruct (export_transactions_frame all_statements h) as [_ X].
      apply X. apply Hx. exact Hp.
Qed.

(** ** Reading back what [repr] prints *)

(** Two fractions of the same value have the same lowest terms. *)
Lemma lowest_terms_unique (p q p' q' : Z) :
  0 < p -> 0 < q -> 0 < p' -> 0 < q' -> p * q' = p' * q ->
  p / Z.gcd p q = p' / Z.gcd p' q' /\ q / Z.gcd p q = q' / Z.gcd p' q'.
Proof.
  intros Hp Hq Hp' Hq' E.
  set (g := Z.gcd p q). set (g' := Z.gcd p' q').
  assert (Hg : 0 < g).
  { pose proof (Z.gcd_nonneg p q). destruct (Z.eq_dec g 0) as [Z|Z]; [|unfold g in *; lia].
    apply Z.gcd_eq_0_l in Z. lia. }
  assert (Hg' : 0 < g').
  { pose proof (Z.gcd_nonneg p' q'). destruct (Z.eq_dec g' 0) as [Z|Z]; [|unfold g' in *; lia].
    apply Z.gcd_eq_0_l in Z. lia. }
  assert (Ca : Z.gcd (p / g) (q / g) = 1) by (apply Z.gcd_div_gcd; [lia | reflexivity]).
  assert (Ca' : Z.gcd (p' / g') (q' / g') = 1) by (apply Z.gcd_div_gcd; [lia | reflexivity]).
  assert (Ep : p = g * (p / g)).
  { apply Z_div_exact_full_2; [lia|]. apply Z.mod_divide; [lia | apply Z.gcd_divide_l]. }
  assert (Eq : q = g * (q / g)).
  { apply Z_div_exact_full_2; [lia|]. apply Z.mod_divide; [lia | apply Z.gcd_divide_r]. }
  assert (Ep' : p' = g' * (p' / g')).
  { apply Z_div_exact_full_2; [lia|]. apply Z.mod_divide; [lia | apply Z.gcd_divide_l]. }
  assert (Eq' : q' = g' * (q' / g')).
  { apply Z_div_exact_full_2; [lia|]. apply Z.mod_divide; [lia | apply Z.gcd_divide_r]. }
  set (a := p / g) in *. set (b := q / g) in *.
  set (a' := p' / g') in *. set (b' := q' / g') in *.
  assert (Ha : 0 < a) by nia. assert (Hb : 0 < b) by nia.
  assert (Ha' : 0 < a') by nia. assert (Hb' : 0 < b') by nia.
  assert (X : a * b' = a' * b).
  { apply (Z.mul_cancel_l _ _ (g * g')); [nia|].
    rewrite Ep, Eq, Ep', Eq' in E. nia. }
  assert (D1 : (a | a')).
  { apply (Z.gauss a b a'); [|exact Ca]. exists b'. lia. }
  assert (D2 : (a' | a)).
  { apply (Z.gauss a' b' a); [|exact Ca']. exists b. lia. }
  assert (Ea : a = a') by (apply Z.divide_antisym_nonneg; (assumption || lia)).
  split; [exact Ea|]. subst a'. nia.
Qed.

(** The rounding of a fraction depends on its value only. *)
Lemma round_ratio_value (s : bool) (p q p' q' : Z) :
  0 < q -> 0 < q' -> p * q' = p' * q ->
  round_ratio s p q = round_ratio s p' q'.
Proof.
  intros Hq Hq' E. unfold round_ratio.
  destruct (Z.leb_spec p 0) as [Hp|Hp]; destruct (Z.leb_spec p' 0) as [Hp'|Hp'];
    try reflexivity; try nia.
  cbv zeta.
  destruct (lowest_terms_unique p q p' q' Hp Hq Hp' Hq' E) as [-> ->].
  reflexivity.
Qed.

Lemma pow10_pos (n : Z) : 0 < 10 ^ n \/ n < 0.
Proof. destruct (Z.lt_ge_cases n 0); [right; assumption | left; apply Z.pow_pos_nonneg; lia]. Qed.

(** Moving powers of ten between the digits and the exponent does not
    change the value read. *)
Lemma round_decimal_shift (s : bool) (D x j : Z) :
  0 <= j -> round_decimal s (D * 10 ^ j) x = round_decimal s D (x + j).
Proof.
  intros Hj. unfold round_decimal.
  apply round_ratio_value.
  - apply Z.pow_pos_nonneg; lia.
  - apply Z.pow_pos_nonneg; lia.
  - rewrite <- !Z.mul_assoc. f_equal.
    rewrite <- !Z.pow_add_r by lia. f_equal. lia.
Qed.

Lemma round_decimal_with_sign (s : bool) (D x : Z) :
  round_decimal s D x = with_sign s (round_decimal false D x).
Proof.
  unfold round_decimal, round_ratio.
  destruct (_ <=? 0); [reflexivity|]. cbv zeta.
  unfold round_fraction. cbv zeta.
  match goal with |- context [if ?c then (2 ^ 52, _) else _] => destruct c end;
  match goal with |- context [match ?m with Z0 => _ | Zpos _ => _ | Zneg _ => _ end] =>
    destruct m end;
  try reflexivity;
  match goal with |- context [if ?c then _ else _] => destruct c end; reflexivity.
Qed.

Lemma float_same_eq (a b : float) : float_same a b = true -> a = b.
Proof.
  destruct a as [s|s| |s m e], b as [t|t| |t n f]; cbn; try discriminate;
    try reflexivity.
  - intros H. apply Bool.eqb_prop in H. subst. reflexivity.
  - intros H. apply Bool.eqb_prop in H. subst. reflexivity.
  - intros H. apply andb_true_iff in H. destruct H as [H H3].
    apply andb_true_iff in H. destruct H as [H1 H2].
    apply Bool.eqb_prop in H1. apply Pos.eqb_eq in H2. apply Z.eqb_eq in H3.
    subst. reflexivity.
Qed.

(** What the digit search returns is read back as the value. *)
Lemma shortest_from_sound (fuel : nat) (v : float) (p q k n D x : Z) :
  shortest_from fuel v p q k n = Some (D, x) -> round_decimal false D x = v.
Proof.
  revert n. induction fuel as [|f IH]; intros n; cbn [shortest_from];
    [discriminate|].
  cbv zeta.
  set (lo := p * 10 ^ Z.max 0 (n - k) / (q * 10 ^ Z.max 0 (k - n))).
  set (r := (p * 10 ^ Z.max 0 (n - k)) mod (q * 10 ^ Z.max 0 (k - n))).
  destruct (float_same (round_decimal false lo (k - n)) v) eqn:Elo;
    destruct (negb (r =? 0) && float_same (round_decimal false (lo + 1) (k - n)) v) eqn:Ehi;
    cbn [andb].
  - apply andb_true_iff in Ehi. destruct Ehi as [_ Ehi].
    destruct (_ || _); intros H; injection H as <- <-; apply float_same_eq; assumption.
  - intros H. injection H as <- <-. apply float_same_eq. assumption.
  - apply andb_true_iff in Ehi. destruct Ehi as [_ Ehi].
    intros H. injection H as <- <-. apply float_same_eq. assumption.
  - apply IH.
Qed.

Lemma digits_fold_from (d : pystr) (acc : Z) :
  fold_left (fun a c => 10 * a + (Z.of_N c - 48)) d acc
  = acc * 10 ^ Z.of_nat (length d) + digits_value d.
Proof.
  unfold digits_value. revert acc.
  induction d as [|c d IH]; intros acc; cbn [fold_left length].
  - rewrite Z.pow_0_r. lia.
  - rewrite IH. rewrite (IH (10 * 0 + (Z.of_N c - 48))).
    rewrite Nat2Z.inj_succ, Z.pow_succ_r by lia. ring.
Qed.

Lemma digits_value_app (a b : pystr) :
  digits_value (a ++ b) = digits_value a * 10 ^ Z.of_nat (length b) + digits_value b.
Proof.
  unfold digits_value at 1. rewrite fold_left_app.
  fold (digits_value a). apply digits_fold_from.
Qed.

Lemma digits_value_cons (c : char) (d : pystr) :
  digits_value (c :: d) = (Z.of_N c - 48) * 10 ^ Z.of_nat (length d) + digits_value d.
Proof.
  change (c :: d) with ([c] ++ d). rewrite digits_value_app.
  unfold digits_value at 1. cbn [fold_left]. lia.
Qed.

Lemma digits_value_zeros (n : Z) : digits_value (zeros n) = 0.
Proof.
  unfold zeros. induction (Z.to_nat n) as [|k IH]; [reflexivity|].
  cbn [repeat]. rewrite digits_value_cons, IH. change (Z.of_N (ch "0")) with 48. lia.
Qed.

Lemma zeros_length (n : Z) : 0 <= n -> Z.of_nat (length (zeros n)) = n.
Proof. intros H. unfold zeros. rewrite repeat_length. lia. Qed.

Lemma zeros_digits (n : Z) : Forall (fun c => isdigit c = true) (zeros n).
Proof.
  unfold zeros. induction (Z.to_nat n) as [|k IH]; [constructor|].
  constructor; [reflexivity | exact IH].
Qed.

Lemma digits_of_pos_fuel_spec (fuel : nat) (n : N) (acc : pystr) :
  (n < 2 ^ N.of_nat fuel)%N ->
  digits_value (digits_of_pos_fuel fuel n acc)
  = Z.of_N n * 10 ^ Z.of_nat (length acc) + digits_value acc
  /\ (Forall (fun c => isdigit c = true) acc ->
      Forall (fun c => isdigit c = true) (digits_of_pos_fuel fuel n acc)).
Proof.
  revert n acc. induction fuel as [|f IH]; intros n acc Hn.
  - cbn [digits_of_pos_fuel]. change (2 ^ N.of_nat 0)%N with 1%N in Hn.
    assert (n = 0%N) by lia. subst n. split; [lia | auto].
  - cbn [digits_of_pos_fuel]. cbv zeta.
    assert (Hm : (n mod 10 < 10)%N) by (apply N.mod_lt; discriminate).
    pose proof (N.Div0.div_mod n 10) as DM.
    assert (Hd : (n / 10 < 2 ^ N.of_nat f)%N).
    { rewrite Nat2N.inj_succ, N.pow_succ_r' in Hn.
      apply N.Div0.div_lt_upper_bound. lia. }
    assert (Hs : (n < 10)%N -> (n mod 10)%N = n) by (apply N.mod_small).
    generalize dependent (n mod 10)%N. intros d Hm DM Hs.
    generalize dependent (n / 10)%N. intros qd DM Hd.
    assert (Dg : isdigit (48 + d)%N = true).
    { unfold isdigit. apply andb_true_iff. split; apply N.leb_le; lia. }
    destruct (N.ltb_spec n 10) as [L|L].
    + split.
      * rewrite digits_value_cons. rewrite (Hs L). lia.
      * intros Ha. constructor; assumption.
    + destruct (IH qd ((48 + d)%N :: acc) DM) as [V F].
      split.
      * rewrite V. rewrite digits_value_cons. cbn [length].
        rewrite Nat2Z.inj_succ, Z.pow_succ_r by lia.
        replace (Z.of_N (48 + d) - 48) with (Z.of_N d) by lia.
        assert (Z.of_N n = 10 * Z.of_N qd + Z.of_N d) by lia.
        nia.
      * intros Ha. apply F. constructor; assumption.
Qed.

Lemma str_of_N_spec (n : N) :
  digits_value (str_of_N n) = Z.of_N n
  /\ Forall (fun c => isdigit c = true) (str_of_N n).
Proof.
  unfold str_of_N.
  destruct (digits_of_pos_fuel_spec (S (N.to_nat (N.log2 n))) n []) as [V F].
  - rewrite Nat2N.inj_succ, N2Nat.id.
    destruct n as [|p]; [reflexivity|].
    apply N.log2_spec. reflexivity.
  - split; [|apply F; constructor].
    rewrite V. cbn [length]. change (digits_value []) with 0. lia.
Qed.

Lemma strip_zeros_rev_spec (ds : pystr) :
  exists j, ds = repeat (ch "0") j ++ strip_zeros_rev ds.
Proof.
  induction ds as [|c ds [j IH]]; [exists 0%nat; reflexivity|].
  cbn [strip_zeros_rev]. destruct (char_eqb c (ch "0")) eqn:E.
  - apply char_eqb_eq in E. subst c. exists (S j). cbn [repeat app].
    rewrite <- IH. reflexivity.
  - exists 0%nat. reflexivity.
Qed.

(** The digits printed for [D * 10^x], their number [n] and the point
    position [k]: they spell a number [D'] with [D' * 10^(k-n)] the
    same value. *)
Lemma digits_and_point_spec (D x : Z) :
  0 < D ->
  let '(ds, k) := digits_and_point D x in
  Forall (fun c => isdigit c = true) ds
  /\ ds <> []
  /\ exists j, 0 <= j /\ D = digits_value ds * 10 ^ j
              /\ k = x + Z.of_nat (length ds) + j.
Proof.
  intros HD. unfold digits_and_point.
  destruct (str_of_N_spec (Z.to_N D)) as [V F].
  rewrite Z2N.id in V by lia.
  destruct (strip_zeros_rev_spec (rev (str_of_N (Z.to_N D)))) as [j Hj].
  set (ds0 := str_of_N (Z.to_N D)) in *.
  set (ds := rev (strip_zeros_rev (rev ds0))).
  assert (E : ds0 = ds ++ zeros (Z.of_nat j)).
  { rewrite <- (rev_involutive ds0), Hj, rev_app_distr.
    unfold ds, zeros. rewrite Nat2Z.id. f_equal.
    clear. induction j as [|j IH]; [reflexivity|].
    cbn [repeat rev]. rewrite IH. clear IH.
    induction j as [|j IH]; [reflexivity|]. cbn [repeat app]. rewrite <- IH. reflexivity. }
  assert (Vd : D = digits_value ds * 10 ^ Z.of_nat j).
  { rewrite <- V, E, digits_value_app, digits_value_zeros, zeros_length by lia. lia. }
  split; [|split].
  - rewrite E in F. apply Forall_app in F. destruct F as [F _]. exact F.
  - intros N. rewrite N in Vd. change (digits_value []) with 0 in Vd. lia.
  - exists (Z.of_nat j). split; [lia|]. split; [exact Vd|].
    rewrite E, length_app. rewrite Nat2Z.inj_add, zeros_length by lia. lia.
Qed.

Lemma span_digits_stop (a r : pystr) :
  Forall (fun c => isdigit c = true) a ->
  match r with c :: _ => isdigit c = false | [] => True end ->
  span_digits (a ++ r) = (a, r).
Proof.
  intros Ha Hr. induction Ha as [|c a Hc _ IH]; cbn [app span_digits].
  - destruct r as [|c r]; [reflexivity|]. cbn [span_digits]. rewrite Hr. reflexivity.
  - rewrite Hc, IH. reflexivity.
Qed.

Lemma read_mantissa_point (a b : pystr) :
  Forall (fun c => isdigit c = true) a ->
  Forall (fun c => isdigit c = true) b ->
  read_mantissa (a ++ ch "." :: b) = (a, b, []).
Proof.
  intros Ha Hb. unfold read_mantissa.
  rewrite (span_digits_stop a (ch "." :: b) Ha) by reflexivity.
  rewrite char_eqb_refl.
  rewrite <- (app_nil_r b) at 1. rewrite (span_digits_stop b [] Hb) by exact I.
  reflexivity.
Qed.

Lemma digit_not_minus (c : char) : isdigit c = true -> char_eqb c (ch "-") = false.
Proof.
  unfold isdigit, char_eqb. intros H. apply andb_true_iff in H. destruct H as [H _].
  apply N.leb_le in H. apply N.eqb_neq. change (ch "-") with 45%N. lia.
Qed.

(** What [decimal_number] reads in a text with digits on both sides of
    a point, after an optional minus sign. *)
Lemma decimal_number_point (s : bool) (a b : pystr) :
  Forall (fun c => isdigit c = true) a ->
  Forall (fun c => isdigit c = true) b ->
  a <> [] ->
  decimal_number ((if s then [ch "-"] else []) ++ a ++ ch "." :: b)
  = Some (round_decimal s (digits_value (a ++ b)) (- Z.of_nat (length b))).
Proof.
  intros Ha Hb Hne. unfold decimal_number.
  destruct a as [|c a]; [contradiction|].
  assert (Hc : isdigit c = true) by (inversion Ha; assumption).
  destruct s; cbn [app].
  - rewrite char_eqb_refl.
    change (c :: a ++ ch "." :: b) with ((c :: a) ++ ch "." :: b).
    rewrite (read_mantissa_point (c :: a) b Ha Hb). reflexivity.
  - rewrite (digit_not_minus c Hc).
    change (c :: a ++ ch "." :: b) with ((c :: a) ++ ch "." :: b).
    rewrite (read_mantissa_point (c :: a) b Ha Hb). reflexivity.
Qed.

Lemma format_repr_positional (ds : pystr) (k : Z) :
  -4 < k <= 16 ->
  format_repr ds k
  = fst (positional_parts ds k) ++ ch "." :: snd (positional_parts ds k).
Proof.
  intros Hk. unfold format_repr, positional_parts. cbv zeta.
  destruct (Z.leb_spec k (-4)); [lia|]. destruct (Z.ltb_spec 16 k); [lia|].
  cbn [orb].
  destruct (k <=? 0); [reflexivity|].
  destruct (k <? Z.of_nat (length ds)); [reflexivity|].
  cbn [fst snd]. rewrite <- app_assoc. reflexivity.
Qed.

Lemma positional_parts_spec (ds : pystr) (k : Z) :
  Forall (fun c => isdigit c = true) ds ->
  let a := fst (positional_parts ds k) in
  let b := snd (positional_parts ds k) in
  Forall (fun c => isdigit c = true) a
  /\ Forall (fun c => isdigit c = true) b
  /\ a <> []
  /\ exists j, 0 <= j
       /\ digits_value (a ++ b) = digits_value ds * 10 ^ j
       /\ - Z.of_nat (length b) + j = k - Z.of_nat (length ds).
Proof.
  intros Hds. unfold positional_parts. cbv zeta.
  destruct (Z.leb_spec k 0) as [K0|K0]; cbn [fst snd].
  - split; [constructor; [reflexivity | constructor]|].
    split; [apply Forall_app; split; [apply zeros_digits | exact Hds]|].
    split; [discriminate|].
    exists 0. split; [lia|]. split.
    + rewrite !digits_value_app, digits_value_zeros.
      change (digits_value [ch "0"]) with 0. rewrite Z.pow_0_r. lia.
    + rewrite length_app, Nat2Z.inj_add, zeros_length by lia. lia.
  - destruct (Z.ltb_spec k (Z.of_nat (length ds))) as [Kn|Kn]; cbn [fst snd].
    + split; [apply Forall_take; exact Hds|].
      split; [apply Forall_drop; exact Hds|].
      split.
      * intros E. apply (f_equal (@length _)) in E.
        rewrite length_take in E. cbn [length] in E. lia.
      * exists 0. split; [lia|]. split.
        -- rewrite take_drop, Z.pow_0_r. lia.
        -- rewrite length_drop. lia.
    + split; [apply Forall_app; split; [exact Hds | apply zeros_digits]|].
      split; [constructor; [reflexivity | constructor]|].
      split.
      * intros E. apply (f_equal (@length _)) in E.
        rewrite length_app in E. cbn [length] in E.
        pose proof (zeros_length (k - Z.of_nat (length ds))). lia.
      * exists (k - Z.of_nat (length ds) + 1). split; [lia|]. split.
        -- rewrite <- app_assoc, !digits_value_app, digits_value_zeros.
           rewrite length_app, Nat2Z.inj_add, zeros_length by lia.
           change (digits_value [ch "0"]) with 0.
           change (Z.of_nat (length [ch "0"])) with 1. lia.
        -- cbn [length]. lia.
Qed.

Lemma todecimal_digit (c : char) :
  isdigit c = true -> todecimal c = Some (c - 48)%N.
Proof.
  intros H. unfold todecimal.
  change decimal_runs with (48%N :: List.tl decimal_runs). cbn [decimal_in].
  unfold isdigit in H. apply andb_true_iff in H. destruct H as [H1 H2].
  apply N.leb_le in H2.
  assert (E : (c <? 48 + 10)%N = true) by (apply N.ltb_lt; lia).
  rewrite H1, E. reflexivity.
Qed.

(** Cleaning leaves a text of ASCII digits, points and minus signs as
    it is. *)
Lemma plain_text_is_clean (t : pystr) :
  Forall (fun c => plain c = true) t ->
  List.map ascii_digit (List.filter amount_char t) = t.
Proof.
  induction 1 as [|c t Hc _ IH]; [reflexivity|].
  assert (K : amount_char c = true /\ ascii_digit c = c).
  { unfold plain in Hc. unfold amount_char, ascii_digit, isdecimal.
    apply orb_true_iff in Hc. destruct Hc as [Hc|Hc];
      [apply orb_true_iff in Hc; destruct Hc as [Hc|Hc]|].
    - rewrite (todecimal_digit c Hc). split; [reflexivity|].
      unfold isdigit in Hc. apply andb_true_iff in Hc. destruct Hc as [Hc _].
      apply N.leb_le in Hc. lia.
    - apply char_eqb_eq in Hc. subst c. split; reflexivity.
    - apply char_eqb_eq in Hc. subst c. split; reflexivity. }
  destruct K as [K1 K2]. cbn [List.filter]. rewrite K1. cbn [List.map].
  rewrite K2, IH. reflexivity.
Qed.

Lemma digits_are_plain (d : pystr) :
  Forall (fun c => isdigit c = true) d -> Forall (fun c => plain c = true) d.
Proof.
  intros H. eapply Forall_impl; [exact H|]. intros c Hc. unfold plain.
  rewrite Hc. reflexivity.
Qed.

Lemma point_text_is_plain (s : bool) (a b : pystr) :
  Forall (fun c => isdigit c = true) a ->
  Forall (fun c => isdigit c = true) b ->
  Forall (fun c => plain c = true) ((if s then [ch "-"] else []) ++ a ++ ch "." :: b).
Proof.
  intros Ha Hb. apply Forall_app. split.
  - destruct s; [constructor; [reflexivity | constructor] | constructor].
  - apply Forall_app. split; [apply digits_are_plain; exact Ha|].
    constructor; [reflexivity | apply digits_are_plain; exact Hb].
Qed.

Lemma round_decimal_positive (D x : Z) (m : positive) (e : Z) :
  round_decimal false D x = S754_finite false m e -> 0 < D.
Proof.
  intros H. destruct (Z.lt_ge_cases 0 D) as [|Hn]; [assumption|exfalso].
  unfold round_decimal, round_ratio in H.
  assert (P : 0 < 10 ^ Z.max 0 x) by (apply Z.pow_pos_nonneg; lia).
  destruct (Z.leb_spec (D * 10 ^ Z.max 0 x) 0); [discriminate | nia].
Qed.

(** A finite value printed in positional notation is spelt with digits
    around one point, and reads back as itself. *)
Lemma positional_repr_reads_back (s : bool) (m : positive) (e D x : Z) :
  float_search m e = Some (D, x) ->
  -4 < snd (digits_and_point D x) <= 16 ->
  Forall (fun c => plain c = true) (float_repr (S754_finite s m e))
  /\ decimal_number (float_repr (S754_finite s m e)) = Some (S754_finite s m e).
Proof.
  intros Hs Hk.
  assert (R : round_decimal false D x = S754_finite false m e).
  { unfold float_search in Hs. exact (shortest_from_sound _ _ _ _ _ _ _ _ Hs). }
  pose proof (round_decimal_positive D x m e R) as HD.
  pose proof (digits_and_point_spec D x HD) as Sp.
  unfold float_repr, float_digits. rewrite Hs.
  destruct (digits_and_point D x) as [ds k]. cbn [snd] in Hk.
  destruct Sp as (Fds & Nds & j & Hj & ED & Ek).
  rewrite (format_repr_positional ds k Hk).
  destruct (positional_parts_spec ds k Fds) as (Fa & Fb & Na & j' & Hj' & EV & EX).
  set (a := fst (positional_parts ds k)) in *.
  set (b := snd (positional_parts ds k)) in *.
  split.
  - destruct s; [exact (point_text_is_plain true a b Fa Fb)
                |exact (point_text_is_plain false a b Fa Fb)].
  - rewrite (decimal_number_point s a b Fa Fb Na).
    f_equal. rewrite EV.
    rewrite (round_decimal_shift s (digits_value ds) (- Z.of_nat (length b)) j' Hj').
    replace (- Z.of_nat (length b) + j') with (x + j) by lia.
    rewrite <- (round_decimal_shift s (digits_value ds) x j Hj).
    rewrite <- ED. rewrite round_decimal_with_sign, R. reflexivity.
Qed.

(** [str] of a positional float, cleaned and read again, is the float. *)
Lemma parse_amount_of_positional (v : float) :
  positional v = true -> parse_amount (PStr (py_str (PFloat v))) = v.
Proof.
  intros Hp. destruct v as [s|s| |s m e]; try discriminate.
  - destruct s; vm_compute; reflexivity.
  - rewrite parse_amount_clean.
    change (py_str (PStr (py_str (PFloat (S754_finite s m e)))))
      with (float_repr (S754_finite s m e)).
    cbn [positional] in Hp.
    destruct (float_search m e) as [[D x]|] eqn:Hs; [|discriminate].
    apply andb_true_iff in Hp. destruct Hp as [H1 H2].
    apply Z.ltb_lt in H1. apply Z.leb_le in H2.
    destruct (positional_repr_reads_back s m e D x Hs (conj H1 H2)) as [Pl Rd].
    rewrite (plain_text_is_clean _ Pl), Rd. reflexivity.
Qed.

(** C6, as amended. Where [str(parse_amount(x))] is written in
    positional notation - the value is zero, or its shortest digits put
    the point at a position from -3 to 16, which is the case from 0.0001
    up to, not including, 1e16 - cleaning and parsing that text gives
    [parse_amount(x)] back. *)
Theorem parse_amount_idempotent_on_positional (x : pyval) :
  positional (parse_amount x) = true ->
  parse_amount (PStr (py_str (PFloat (parse_amount x)))) = parse_amount x.
Proof. apply parse_amount_of_positional. Qed.

(** ** Further properties of the extraction *)

Lemma dict_get_set_other (d : pydict) (key k : pystr) (v default : pyval) :
  k <> key -> dict_get (dict_set d key v) k default = dict_get d k default.
Proof.
  intros Hk.
  assert (N : str_eqb key k = false).
  { destruct (str_eqb key k) eqn:E; [|reflexivity].
    apply str_eqb_eq in E. subst. contradiction. }
  induction d as [|[k' w] d IH]; simpl.
  - rewrite N. reflexivity.
  - destruct (str_eqb k' key) eqn:E; simpl.
    + apply str_eqb_eq in E. subst k'. rewrite N. reflexivity.
    + destruct (str_eqb k' k); [reflexivity | exact IH].
Qed.

Lemma dict_has_set_other (d : pydict) (key k : pystr) (v : pyval) :
  k <> key -> dict_has (dict_set d key v) k = dict_has d k.
Proof.
  intros Hk.
  assert (N : str_eqb key k = false).
  { destruct (str_eqb key k) eqn:E; [|reflexivity].
    apply str_eqb_eq in E. subst. contradiction. }
  induction d as [|[k' w] d IH]; simpl.
  - rewrite N. reflexivity.
  - destruct (str_eqb k' key) eqn:E; simpl.
    + apply str_eqb_eq in E. subst k'. rewrite N. reflexivity.
    + rewrite IH. reflexivity.
Qed.

Lemma dict_has_set (d : pydict) (key : pystr) (v : pyval) :
  dict_has (dict_set d key v) key = true.
Proof.
  induction d as [|[k w] d IH]; simpl.
  - rewrite str_eqb_refl. reflexivity.
  - destruct (str_eqb k key) eqn:E; simpl; rewrite E; [reflexivity | exact IH].
Qed.

Lemma dict_set_length (d : pydict) (key : pystr) (v : pyval) :
  length (dict_set d key v) = (if dict_has d key then length d else S (length d)).
Proof.
  induction d as [|[k w] d IH]; simpl; [reflexivity|].
  destruct (str_eqb k key); simpl; [reflexivity|].
  rewrite IH. destruct (dict_has d key); reflexivity.
Qed.

(** X1. Lines 119-122. The record is the parsed object with one entry
    changed: ['filename'] holds the name of the upload, also when the
    object had a ['filename'] of its own (which is lost); every other
    key is present or absent, and holds the same value, as in the
    object, and no entry is added beyond ['filename']. *)
Theorem record_is_object_with_filename
    (f : UploadedFile) (i n : nat) (text : pystr) (d : pydict) :
  oracle_call f i = Ok text ->
  json_loads (strip_fences text) = Ok (PDict d) ->
  exists r : pydict,
    extract_data_from_file f i n = (PDict r, PNone)
    /\ dict_get r (py "filename") PNone = PStr (name f)
    /\ (forall key default, key <> py "filename" ->
          dict_has r key = dict_has d key
          /\ dict_get r key default = dict_get d key default)
    /\ length r = (if dict_has d (py "filename") then length d else S (length d)).
Proof.
  intros Ho Hj.
  exists (dict_set d (py "filename") (PStr (name f))).
  split; [|split; [|split]].
  - rewrite extract_data_from_file_unfold, extract_try_unfold, Ho, Hj. reflexivity.
  - apply dict_get_set.
  - intros key default Hk. split.
    + apply dict_has_set_other. exact Hk.
    + apply dict_get_set_other. exact Hk.
  - apply dict_set_length.
Qed.



Lemma lstrip_by_all (sp : char -> bool) (w : pystr) :
  Forall (fun c => sp c = true) w -> lstrip_by sp w = [].
Proof.
  intros H. rewrite <- (app_nil_r w). rewrite lstrip_by_blank by exact H.
  reflexivity.
Qed.

Lemma strip_blank (w : pystr) :
  Forall (fun c => isspace c = true) w -> strip w = [].
Proof.
  intros H. unfold strip, strip_by. rewrite lstrip_by_all by exact H. reflexivity.
Qed.

(** X3. Lines 108-125. A response made of blanks only, or of blanks around
    one code fence (with or without the [json] tag) that holds nothing
    but blanks, leaves the empty text, and the function returns the
    JSON error of the empty document with the name of the file. *)
Theorem blank_response_is_json_error
    (f : UploadedFile) (i n : nat) (w1 w2 w3 : pystr) (fenced tagged : bool) :
  Forall (fun c => isspace c = true) w1 ->
  Forall (fun c => isspace c = true) w2 ->
  Forall (fun c => isspace c = true) w3 ->
  oracle_call f i
    = Ok (if fenced
          then w1 ++ fence ++ (if tagged then py "json" else []) ++ w2 ++ fence ++ w3
          else w1) ->
  extract_data_from_file f i n
    = (PNone,
       PStr (py "JSON parsing error in " ++ name f
               ++ py ": Expecting value: line 1 column 1 (char 0)")).
Proof.
  intros H1 H2 H3 Ho.
  rewrite extract_data_from_file_unfold, extract_try_unfold, Ho.
  assert (E : forall t, t = (if fenced
          then w1 ++ fence ++ (if tagged then py "json" else []) ++ w2 ++ fence ++ w3
          else w1) -> strip_fences t = []).
  { intros t ->. destruct fenced.
    - unfold strip_fences.
      assert (S1 : strip (w1 ++ fence ++ (if tagged then py "json" else [])
                            ++ w2 ++ fence ++ w3)
                   = fence ++ (if tagged then py "json" else []) ++ w2 ++ fence).
      { unfold strip.
        replace (w1 ++ fence ++ (if tagged then py "json" else []) ++ w2 ++ fence ++ w3)
          with (w1 ++ (ch "`" :: (ch "`" :: ch "`" :: (if tagged then py "json" else [])
                                    ++ w2 ++ [ch "`"; ch "`"]) ++ [ch "`"]) ++ w3).
        - rewrite strip_by_core by (assumption || reflexivity).
          unfold fence. change (py "```") with [ch "`"; ch "`"; ch "`"].
          cbn [app]. rewrite <- !app_assoc. reflexivity.
        - unfold fence. change (py "```") with [ch "`"; ch "`"; ch "`"].
          cbn [app]. rewrite <- !app_assoc. reflexivity. }
      rewrite S1. clear S1.
      assert (S2 : forall w, Forall (fun c => isspace c = true) w ->
                 startswith (w ++ fence) fence = false \/ w = []).
      { intros w Hw. destruct Hw as [|c w Hc Hw]; [right; reflexivity|left].
        unfold fence. change (py "```") with [ch "`"; ch "`"; ch "`"].
        cbn [app startswith].
        destruct (char_eqb (ch "`") c) eqn:E; [|reflexivity].
        apply char_eqb_eq in E. subst c. vm_compute in Hc. discriminate. }
      assert (S3 : forall w, Forall (fun c => isspace c = true) w ->
                 strip (let t := w ++ fence in
                        let t := if startswith t fence then slice_from 3 t else t in
                        if endswith t fence then slice_to_minus 3 t else t) = []).
      { intros w Hw. cbv zeta. destruct (S2 w Hw) as [E| ->].
        - rewrite E. rewrite endswith_app.
          change 3%nat with (length fence). rewrite slice_to_minus_app.
          apply strip_blank. exact Hw.
        - reflexivity. }
      destruct tagged.
      + change (fence ++ py "json" ++ w2 ++ fence) with (fence_json ++ w2 ++ fence).
        rewrite startswith_app.
        change 7%nat with (length fence_json). rewrite slice_from_app.
        apply (S3 w2 H2).
      + cbn [app].
        assert (T : startswith (fence ++ w2 ++ fence) fence_json = false).
        { unfold fence, fence_json.
          change (py "```") with [ch "`"; ch "`"; ch "`"].
          change (py "```json") with ([ch "`"; ch "`"; ch "`"] ++ py "json").
          destruct H2 as [|c w Hc Hw]; [reflexivity|].
          cbn [app startswith]. rewrite !char_eqb_refl. cbn [andb].
          change (py "json") with (ch "j" :: py "son"). cbn [startswith].
          destruct (char_eqb (ch "j") c) eqn:E; [|reflexivity].
          apply char_eqb_eq in E. subst c. vm_compute in Hc. discriminate. }
        rewrite T. rewrite startswith_app.
        change 3%nat with (length fence). rewrite !slice_from_app.
        rewrite endswith_app, slice_to_minus_app.
        apply strip_blank. exact H2.
    - unfold strip_fences. rewrite (strip_blank w1 H1). reflexivity. }
  rewrite (E _ eq_refl). reflexivity.
Qed.

(** ** Further properties of the upload handling *)

Lemma batch_lengths (idx : nat) (files : list UploadedFile) :
  (length (batch_records idx files) + length (batch_errors idx files)
   = length files)%nat.
Proof.
  revert idx. induction files as [|f files IH]; intros idx;
    cbn [batch_records batch_errors length]; [reflexivity|].
  specialize (IH (S idx)).
  destruct (extract_try f (idx + 1)); cbn [length]; lia.
Qed.

(** X4. Lines 290-299. The loop accounts for every file: it adds one record
    or shows one error for each, so records added and errors shown
    count up to the number of uploads. *)
Theorem every_file_is_accounted_for
    (total idx : nat) (files : list UploadedFile)
    (statements : list pyval) (shown : list pystr) :
  (length (fst (process_files total idx files statements shown))
   + length (snd (process_files total idx files statements shown))
   = length statements + length shown + length files)%nat.
Proof.
  rewrite process_files_spec. cbn [fst snd]. rewrite !length_app.
  pose proof (batch_lengths idx files). lia.
Qed.

Lemma extract_try_record (f : UploadedFile) (i : nat) (data : pyval) :
  extract_try f i = Ok data ->
  is_record data /\ filename_of data = PStr (name f).
Proof.
  rewrite extract_try_unfold.
  destruct (oracle_call f i); [|discriminate].
  destruct (json_loads _); [|discriminate].
  intros H. apply setitem_ok in H. destruct H as (d & _ & ->).
  split.
  - eexists. split; [reflexivity|]. apply dict_has_set.
  - cbn [filename_of]. apply dict_get_set.
Qed.


Lemma batch_records_are_records (idx : nat) (files : list UploadedFile) :
  Forall is_record (batch_records idx files).
Proof.
  revert idx. induction files as [|f files IH]; intros idx;
    cbn [batch_records]; [constructor|].
  destruct (extract_try f (idx + 1)) as [data|e] eqn:E; [|apply IH].
  constructor; [|apply IH]. apply extract_try_record in E. destruct E as [E _]. exact E.
Qed.


Lemma handle_uploads_done (files : list UploadedFile) (st : session_state) :
  files <> [] ->
  processing_complete (fst (handle_uploads files st)) = true
  /\ last_upload_count (fst (handle_uploads files st)) = length files.
Proof.
  intros Hne. unfold handle_uploads.
  destruct files as [|f files]; [contradiction|].
  destruct (Nat.eqb_spec (length (f :: files)) (last_upload_count st)) as [E|E];
    cbn [negb processing_complete all_statements last_upload_count].
  - destruct (processing_complete st) eqn:P; cbn [negb].
    + cbn [fst]. split; [exact P | symmetry; exact E].
    + destruct (process_files _ _ _ _ _) as [s sh]. cbn [fst processing_complete last_upload_count].
      split; [reflexivity | symmetry; exact E].
  - destruct (process_files _ _ _ _ _) as [s sh]. cbn [fst processing_complete last_upload_count].
    split; reflexivity.
Qed.

(** X6. Lines 276-304. After a run over a non-empty batch the state is
    marked complete with the number of uploads recorded, and the next
    run over any batch of that many files - the same files or others -
    extracts nothing: it returns the state as it is and shows no
    error. The script tells batches apart by their size only. *)
Theorem same_size_batch_is_not_reprocessed
    (files files' : list UploadedFile) (st : session_state) :
  files <> [] ->
  length files' = length files ->
  processing_complete (fst (handle_uploads files st)) = true
  /\ last_upload_count (fst (handle_uploads files st)) = length files
  /\ handle_uploads files' (fst (handle_uploads files st))
     = (fst (handle_uploads files st), []).
Proof.
  intros Hne Hlen.
  destruct (handle_uploads_done files st Hne) as [P C].
  split; [exact P|]. split; [exact C|].
  set (st1 := fst (handle_uploads files st)) in *.
  unfold handle_uploads.
  destruct files' as [|f' files']; [reflexivity|].
  rewrite C, Hlen, Nat.eqb_refl. cbn [negb]. rewrite P. reflexivity.
Qed.

Lemma records_are_dicts (l : list pyval) :
  Forall is_record l ->
  exists stmts, map_result as_dict l = Ok stmts /\ l = List.map PDict stmts.
Proof.
  induction 1 as [|v l Hv _ IH]; cbn [map_result].
  - exists []. split; reflexivity.
  - destruct Hv as (d & -> & _). destruct IH as (stmts & -> & ->).
    exists (d :: stmts). split; reflexivity.
Qed.

(** X7. Lines 276-304 with lines 119-122. A run keeps the batch a list of
    dicts that carry a ['filename']: whatever the oracle answers, what
    reaches [all_statements] is such a record, so the [stmt.get] calls
    of the result page find a dict in every position. *)
Theorem batch_holds_records
    (files : list UploadedFile) (st : session_state) :
  Forall is_record (all_statements st) ->
  Forall is_record (all_statements (fst (handle_uploads files st)))
  /\ exists stmts,
       map_result as_dict (all_statements (fst (handle_uploads files st))) = Ok stmts.
Proof.
  intros H.
  assert (K : Forall is_record (all_statements (fst (handle_uploads files st)))).
  { unfold handle_uploads. destruct files as [|f files]; [exact H|].
    destruct (negb (length (f :: files) =? last_upload_count st)%nat);
      cbn [negb processing_complete all_statements last_upload_count].
    - rewrite process_files_spec. cbn [fst all_statements app].
      apply batch_records_are_records.
    - destruct (processing_complete st); cbn [negb]; [exact H|].
      rewrite process_files_spec. cbn [fst all_statements].
      apply Forall_app. split; [exact H | apply batch_records_are_records]. }
  split; [exact K|].
  destruct (records_are_dicts _ K) as (stmts & E & _). exists stmts. exact E.
Qed.

(** ** Further properties of the analytics *)

(** X8. Lines 316-320. The portfolio metrics never raise: the division
    is made only when the summed credit limit is above zero, and the
    average utilization is the integer 0 otherwise - in particular for
    a batch whose records carry no credit limit. *)
Theorem portfolio_metrics_never_raise (stmts : list pydict) :
  exists p,
    portfolio_metrics stmts = Ok p
    /\ total_cards p = length stmts
    /\ total_credit p = py_sum (List.map (amount_of "credit_limit") stmts)
    /\ avg_utilization p
       = (if flt fzero (total_credit p)
          then PFloat (fmul (fdiv (total_due p) (total_credit p)) hundred)
          else PInt 0).
Proof.
  unfold portfolio_metrics. cbv zeta.
  destruct (flt fzero (py_sum (List.map (amount_of "credit_limit") stmts))) eqn:G.
  - rewrite (truediv_positive _ _ G). cbn.
    eexists. split; [reflexivity|]. cbn [total_cards total_credit avg_utilization total_due].
    rewrite G. repeat split; reflexivity.
  - cbn. eexists. split; [reflexivity|].
    cbn [total_cards total_credit avg_utilization total_due].
    rewrite G. repeat split; reflexivity.
Qed.

(** X9. Lines 276-304. A run keeps the session state consistent: a state
    that is not marked complete holds no record, and the batch never
    holds more records than the recorded number of uploads. So the
    loop, which appends to the batch it finds, only ever appends to an
    empty one. The initial state is consistent. *)
Theorem upload_handling_keeps_state_consistent
    (files : list UploadedFile) (st : session_state) :
  consistent st ->
  consistent (fst (handle_uploads files st)).
Proof.
  intros [H1 H2]. unfold handle_uploads.
  destruct files as [|f files]; [split; assumption|].
  destruct (Nat.eqb_spec (length (f :: files)) (last_upload_count st)) as [E|E];
    cbn [negb processing_complete all_statements last_upload_count].
  - destruct (processing_complete st) eqn:P; cbn [negb].
    + split; cbn [fst]; [rewrite P; discriminate | exact H2].
    + rewrite process_files_spec. rewrite (H1 eq_refl).
      split; cbn [fst all_statements last_upload_count processing_complete app];
        [discriminate|].
      pose proof (batch_lengths 0 (f :: files)) as L. lia.
  - rewrite process_files_spec.
    split; cbn [fst all_statements last_upload_count processing_complete app];
      [discriminate|].
    pose proof (batch_lengths 0 (f :: files)) as L. lia.
Qed.

(** ** Further properties of [parse_amount] *)

(** X10. Lines 39-45. [parse_amount] never returns a NaN: the letters of
    ['nan'] and ['inf'] are removed before the text is read. *)
Theorem parse_amount_is_never_nan (x : pyval) :
  is_nan (parse_amount x) = false.
Proof.
  destruct (parse_amount_sign x) as (s & Hs & _).
  destruct (parse_amount x); try reflexivity. discriminate.
Qed.

Lemma span_digits_digits (s : pystr) :
  Forall (fun c => isdigit c = true) (fst (span_digits s)).
Proof.
  induction s as [|c s IH]; simpl; [constructor|].
  destruct (isdigit c) eqn:E; [|constructor].
  destruct (span_digits s) as [d t]. cbn [fst] in *. constructor; assumption.
Qed.

Lemma read_mantissa_shape (s : pystr) (ip fp : pystr) :
  read_mantissa s = (ip, fp, []) ->
  (s = ip ++ fp /\ fp = [] \/ s = ip ++ ch "." :: fp)
  /\ Forall (fun c => isdigit c = true) ip
  /\ Forall (fun c => isdigit c = true) fp.
Proof.
  unfold read_mantissa.
  pose proof (span_digits_app s) as A. pose proof (span_digits_digits s) as D.
  destruct (span_digits s) as [i r1]. cbn [fst snd] in A, D.
  destruct r1 as [|c r].
  - intros H. injection H as <- <-. rewrite app_nil_r in A |- *.
    split; [left; split; [exact A | reflexivity]|]. split; [exact D | constructor].
  - destruct (char_eqb c (ch ".")) eqn:E.
    + apply char_eqb_eq in E. subst c.
      pose proof (span_digits_app r) as A'. pose proof (span_digits_digits r) as D'.
      destruct (span_digits r) as [f r2]. cbn [fst snd] in A', D'.
      intros H. injection H as <- <- ->. rewrite app_nil_r in A'. subst r.
      split; [right; exact A|]. split; assumption.
    + intros H. discriminate.
Qed.

Lemma decimal_number_shape (a : pystr) (x : float) :
  decimal_number a = Some x ->
  exists (neg point : bool) (ip fp : pystr),
    a = (if neg then [ch "-"] else []) ++ ip ++ (if point then [ch "."] else []) ++ fp
    /\ Forall (fun c => isdigit c = true) ip
    /\ Forall (fun c => isdigit c = true) fp
    /\ ip ++ fp <> [].
Proof.
  unfold decimal_number.
  assert (K : forall neg r0,
    (let '(ip, fp, r2) := read_mantissa r0 in
     match r2, ip ++ fp with
     | [], _ :: _ =>
       Some (round_decimal neg (digits_value (ip ++ fp)) (- Z.of_nat (length fp)))
     | _, _ => None
     end) = Some x ->
    exists (point : bool) (ip fp : pystr),
      r0 = ip ++ (if point then [ch "."] else []) ++ fp
      /\ Forall (fun c => isdigit c = true) ip
      /\ Forall (fun c => isdigit c = true) fp
      /\ ip ++ fp <> []).
  { intros neg r0. destruct (read_mantissa r0) as [[ip fp] r2] eqn:M.
    destruct r2; [|discriminate].
    destruct (ip ++ fp) eqn:N; [discriminate|]. intros _.
    destruct (read_mantissa_shape _ _ _ M) as ([[-> ->]| ->] & Di & Df).
    - exists false, ip, []. repeat split; try assumption.
      rewrite N. discriminate.
    - exists true, ip, fp. repeat split; try assumption.
      rewrite N. discriminate. }
  destruct a as [|c r].
  - intros H. destruct (K false [] H) as (point & ip & fp & E & Di & Df & N).
    exists false, point, ip, fp. repeat split; assumption.
  - destruct (char_eqb c (ch "-")) eqn:E.
    + apply char_eqb_eq in E. subst c. intros H.
      destruct (K true r H) as (point & ip & fp & -> & Di & Df & N).
      exists true, point, ip, fp. repeat split; assumption.
    + intros H. destruct (K false (c :: r) H) as (point & ip & fp & E' & Di & Df & N).
      exists false, point, ip, fp. repeat split; assumption.
Qed.

(** X11. Lines 39-45. An amount other than zero is only read from a text
    whose kept characters form one number: an optional minus sign in
    front, digits, at most one point among them. A text with a minus
    sign after the first kept character (a date, a range) or with two
    points gives 0.0, like a text without a digit. *)
Theorem nonzero_amount_has_number_shape (x : pyval) :
  is_zero (parse_amount x) = false ->
  exists (neg point : bool) (ip fp : pystr),
    List.map ascii_digit (List.filter amount_char (py_str x))
    = (if neg then [ch "-"] else []) ++ ip ++ (if point then [ch "."] else []) ++ fp
    /\ Forall (fun c => isdigit c = true) ip
    /\ Forall (fun c => isdigit c = true) fp
    /\ ip ++ fp <> [].
Proof.
  rewrite parse_amount_clean.
  destruct (decimal_number _) as [v|] eqn:E; [|discriminate].
  intros _. exact (decimal_number_shape _ _ E).
Qed.

Lemma decimal_number_integer (s : bool) (a : pystr) :
  Forall (fun c => isdigit c = true) a -> a <> [] ->
  decimal_number ((if s then [ch "-"] else []) ++ a)
  = Some (round_decimal s (digits_value a) 0).
Proof.
  intros Ha Hne. unfold decimal_number.
  assert (M : read_mantissa a = (a, [], [])).
  { unfold read_mantissa. rewrite <- (app_nil_r a) at 1.
    rewrite (span_digits_stop a [] Ha) by exact I. reflexivity. }
  destruct a as [|c a]; [contradiction|].
  assert (Hc : isdigit c = true) by (inversion Ha; assumption).
  destruct s; cbn [app].
  - rewrite char_eqb_refl, M. cbn [app length]. rewrite app_nil_r. reflexivity.
  - rewrite (digit_not_minus c Hc), M. cbn [app length]. rewrite app_nil_r. reflexivity.
Qed.

Lemma round_fraction_integer (s : bool) (p : Z) :
  0 < p < 2 ^ 53 ->
  round_fraction s p 1
  = S754_finite s (Z.to_pos (p * 2 ^ (52 - Z.log2 p))) (Z.log2 p - 52).
Proof.
  intros Hp.
  pose proof (Z.log2_spec p (proj1 Hp)) as [L1 L2].
  pose proof (Z.log2_nonneg p) as L0.
  assert (L53 : Z.log2 p < 53) by (apply Z.log2_lt_pow2; lia).
  set (l := Z.log2 p) in *.
  assert (P52 : 0 < 2 ^ (52 - l)) by (apply Z.pow_pos_nonneg; lia).
  assert (N53 : p * 2 ^ (52 - l) < 2 ^ 53).
  { replace (2 ^ 53) with (2 ^ (Z.succ l) * 2 ^ (52 - l)).
    - apply Z.mul_lt_mono_pos_r; assumption.
    - rewrite <- Z.pow_add_r by lia. replace (Z.succ l + (52 - l)) with 53 by lia.
      reflexivity. }
  assert (N0 : 0 < p * 2 ^ (52 - l)) by (apply Z.mul_pos_pos; lia).
  unfold round_fraction, ratio_log2. cbv zeta.
  change (Z.log2 1) with 0. fold l. rewrite Z.sub_0_r.
  rewrite (Z.max_r 0 l) by lia. rewrite (Z.max_l 0 (- l)) by lia.
  change (2 ^ 0) with 1. rewrite Z.mul_1_r, Z.mul_1_l.
  destruct (Z.leb_spec (2 ^ l) p) as [_|C]; [|lia].
  rewrite (Z.max_l (l - 52) (-1074)) by lia.
  rewrite (Z.max_r 0 (- (l - 52))) by lia. rewrite (Z.max_l 0 (l - 52)) by lia.
  replace (- (l - 52)) with (52 - l) by lia.
  change (2 ^ 0) with 1. change (1 * 1) with 1.
  rewrite Z.div_1_r, Z.mod_1_r. change (2 * 0 <? 1) with true. cbv iota.
  destruct (Z.eqb_spec (p * 2 ^ (52 - l)) (2 ^ 53)) as [C|_]; [lia|].
  destruct (p * 2 ^ (52 - l)) as [|m|m] eqn:E; [lia| |lia].
  destruct (Z.leb_spec (l - 52) 971) as [_|C]; [|lia].
  reflexivity.
Qed.

(** X12. Lines 39-45. An amount given as a JSON integer is read exactly
    when it is below 2^53 in absolute value: the result is the float
    [m * 2^e] with [m * 2^e = |z|] and the sign of [z]. *)
Theorem parse_amount_exact_on_integers (z : Z) :
  0 < Z.abs z < 2 ^ 53 ->
  exists (m : positive) (e : Z),
    parse_amount (PInt z) = S754_finite (z <? 0) m e
    /\ e <= 0 /\ Zpos m = Z.abs z * 2 ^ (- e).
Proof.
  intros Hz.
  exists (Z.to_pos (Z.abs z * 2 ^ (52 - Z.log2 (Z.abs z)))), (Z.log2 (Z.abs z) - 52).
  assert (L53 : Z.log2 (Z.abs z) < 53) by (apply Z.log2_lt_pow2; lia).
  pose proof (Z.log2_nonneg (Z.abs z)) as L0.
  assert (P52 : 0 < 2 ^ (52 - Z.log2 (Z.abs z))) by (apply Z.pow_pos_nonneg; lia).
  split; [|split; [lia|]].
  - rewrite parse_amount_clean.
    change (py_str (PInt z)) with (str_of_Z z).
    assert (T : str_of_Z z
                = (if z <? 0 then [ch "-"] else []) ++ str_of_N (Z.to_N (Z.abs z))).
    { unfold str_of_Z. destruct (Z.ltb_spec z 0).
      - rewrite Z.abs_neq by lia. reflexivity.
      - rewrite Z.abs_eq by lia. reflexivity. }
    destruct (str_of_N_spec (Z.to_N (Z.abs z))) as [V D].
    rewrite Z2N.id in V by lia.
    assert (Hne : str_of_N (Z.to_N (Z.abs z)) <> []).
    { intros E. rewrite E in V. cbn in V. lia. }
    assert (P : Forall (fun c => plain c = true) (str_of_Z z)).
    { rewrite T. apply Forall_app. split.
      - destruct (z <? 0); repeat constructor.
      - apply digits_are_plain. exact D. }
    rewrite (plain_text_is_clean _ P), T.
    rewrite (decimal_number_integer _ _ D Hne), V.
    unfold round_decimal, round_ratio.
    change (Z.max 0 0) with 0. change (Z.max 0 (- 0)) with 0.
    change (10 ^ 0) with 1. rewrite Z.mul_1_r.
    destruct (Z.leb_spec (Z.abs z) 0) as [C|_]; [lia|].
    rewrite Z.gcd_1_r, !Z.div_1_r.
    apply round_fraction_integer. exact Hz.
  - replace (- (Z.log2 (Z.abs z) - 52)) with (52 - Z.log2 (Z.abs z)) by lia.
    rewrite Z2Pos.id; [reflexivity|]. apply Z.mul_pos_pos; lia.
Qed.

(** ** The transactions of a card *)

Lemma typed_transaction_dict (txn : pyval) :
  typed_transaction txn = true ->
  exists d ty, txn = PDict d /\ dict_get d (py "type") (PStr []) = PStr ty.
Proof.
  destruct txn as [| | | | | |d]; try discriminate. cbn [typed_transaction].
  destruct (dict_get d (py "type") (PStr [])) as [| | | |ty| |] eqn:E; try discriminate.
  intros _. exists d, ty. split; [reflexivity | exact E].
Qed.

Lemma untyped_transaction_raises (txn : pyval) :
  typed_transaction txn = false ->
  exists e, (ty ← py_get txn "type" (PStr []); py_lower ty) = Raise e.
Proof.
  destruct txn as [| | | | | |d]; cbn; try (intros _; eexists; reflexivity).
  destruct (dict_get d (py "type") (PStr [])); cbn;
    try discriminate; intros _; eexists; reflexivity.
Qed.

Lemma of_type_typed (want : string) (txns : list pyval) :
  forallb typed_transaction txns = true ->
  of_type want txns = Ok (List.filter (has_type want) txns).
Proof.
  induction txns as [|t txns IH]; cbn [forallb of_type List.filter]; [reflexivity|].
  intros H. apply andb_true_iff in H. destruct H as [Ht Hr].
  destruct (typed_transaction_dict t Ht) as (d & ty & -> & E).
  rewrite (IH Hr). cbn. rewrite E. cbn.
  destruct (str_eqb (lower ty) (py want)); reflexivity.
Qed.

Lemma of_type_untyped (want : string) (txns : list pyval) :
  forallb typed_transaction txns = false ->
  exists e, of_type want txns = Raise e.
Proof.
  induction txns as [|t txns IH]; cbn [forallb of_type]; [discriminate|].
  destruct (typed_transaction t) eqn:Ht; cbn [andb].
  - intros Hr. destruct (IH Hr) as [e E].
    destruct (typed_transaction_dict t Ht) as (d & ty & -> & Ety).
    rewrite E. cbn. rewrite Ety. cbn. exists e. reflexivity.
  - intros _. destruct (untyped_transaction_raises t Ht) as [e E]. revert E.
    destruct (py_get t "type" (PStr [])) as [ty|e1]; cbn.
    + destruct (py_lower ty); cbn; [discriminate|].
      intros E. injection E as ->. exists e. reflexivity.
    + intros E. injection E as ->. exists e. reflexivity.
Qed.


Lemma debit_rows_untyped (txns : list pyval) (acc : list (pyval * float)) :
  forallb typed_transaction txns = false ->
  exists e, debit_rows txns acc = Raise e.
Proof.
  revert acc. induction txns as [|t txns IH]; intros acc;
    cbn [forallb debit_rows]; [discriminate|].
  destruct (typed_transaction t) eqn:Ht; cbn [andb].
  - intros Hr.
    destruct (typed_transaction_dict t Ht) as (d & ty & -> & Ety).
    cbn. rewrite Ety. cbn.
    destruct (str_eqb (lower ty) (py "debit")); apply IH; exact Hr.
  - intros _. destruct (untyped_transaction_raises t Ht) as [e E]. revert E.
    destruct (py_get t "type" (PStr [])) as [ty|e1]; cbn.
    + destruct (py_lower ty); cbn; [discriminate|].
      intros E. injection E as ->. exists e. reflexivity.
    + intros E. injection E as ->. exists e. reflexivity.
Qed.

Lemma listed_transactions_present (stmt : pydict) :
  listed_transactions stmt <> [] ->
  dict_has stmt (py "transactions") = true
  /\ dict_get stmt (py "transactions") PNone = PList (listed_transactions stmt)
  /\ dict_get stmt (py "transactions") (PList []) = PList (listed_transactions stmt).
Proof.
  unfold listed_transactions. intros H.
  destruct (dict_has stmt (py "transactions")) eqn:E.
  - rewrite (dict_get_present _ _ PNone (PList []) E).
    destruct (dict_get stmt (py "transactions") (PList [])); try contradiction.
    repeat split; reflexivity.
  - rewrite (dict_get_absent _ _ _ E) in H. contradiction.
Qed.


Lemma aggregate_rows_untyped (stmts : list pydict) (stmt : pydict)
    (acc : list (pyval * float)) :
  In stmt stmts ->
  forallb typed_transaction (listed_transactions stmt) = false ->
  exists e, aggregate_rows stmts acc = Raise e.
Proof.
  intros Hin Hu. revert acc.
  induction stmts as [|s stmts IH]; intros acc; [destruct Hin|].
  cbn [aggregate_rows].
  destruct Hin as [->|Hin].
  - assert (Hne : listed_transactions stmt <> []).
    { intros E. rewrite E in Hu. discriminate. }
    destruct (listed_transactions_present stmt Hne) as (-> & -> & _).
    cbn [py_iter]. cbn [mbind result_mbind bind].
    destruct (debit_rows_untyped _ acc Hu) as [e ->]. exists e. reflexivity.
  - destruct (dict_has s (py "transactions")); [|apply IH; exact Hin].
    destruct (py_iter _) as [txns|e]; cbn [mbind result_mbind bind];
      [|exists e; reflexivity].
    destruct (debit_rows txns acc) as [acc'|e]; [|exists e; reflexivity].
    apply IH. exact Hin.
Qed.


(** X14. Lines 134-139, 205 and 444-445. Nothing checks the transactions
    before they are used: one transaction that is not a dict, or whose
    ['type'] is not a string, makes the aggregate chart of the whole
    batch raise, and the category chart and the transaction summary of
    its card as well. *)
Theorem untyped_transaction_stops_the_charts
    (stmts : list pydict) (stmt : pydict) :
  In stmt stmts ->
  forallb typed_transaction (listed_transactions stmt) = false ->
  (exists e, create_aggregate_category_chart stmts = Raise e)
  /\ (exists e, create_individual_category_chart stmt = Raise e)
  /\ (exists e, transaction_summary stmt = Raise e).
Proof.
  intros Hin Hu.
  assert (Hne : listed_transactions stmt <> []).
  { intros E. rewrite E in Hu. discriminate. }
  destruct (listed_transactions_present stmt Hne) as (_ & _ & G).
  split; [|split].
  - unfold create_aggregate_category_chart.
    destruct (aggregate_rows_untyped stmts stmt [] Hin Hu) as [e ->].
    exists e. reflexivity.
  - unfold create_individual_category_chart. rewrite G. cbn [py_iter].
    cbn [mbind result_mbind bind].
    destruct (of_type_untyped "debit" _ Hu) as [e ->]. exists e. reflexivity.
  - unfold transaction_summary. rewrite G. cbn [py_iter py_len].
    cbn [mbind result_mbind bind].
    destruct (of_type_untyped "debit" _ Hu) as [e ->]. exists e. reflexivity.
Qed.

Lemma of_type_ok (want : string) (txns kept : list pyval) :
  of_type want txns = Ok kept ->
  forallb typed_transaction txns = true
  /\ kept = List.filter (has_type want) txns.
Proof.
  intros H. destruct (forallb typed_transaction txns) eqn:E.
  - rewrite (of_type_typed want txns E) in H. injection H as <-.
    split; reflexivity.
  - destruct (of_type_untyped want txns E) as [e E']. rewrite E' in H. discriminate.
Qed.

Lemma py_len_iter (v : pyval) (n : nat) (items : list pyval) :
  py_len v = Ok n -> py_iter v = Ok items -> n = length items.
Proof.
  destruct v; cbn; try discriminate; intros H1 H2;
    injection H1 as <-; injection H2 as <-;
    [rewrite length_map| |rewrite length_map]; reflexivity.
Qed.

Lemma debit_is_not_credit (txns : list pyval) :
  (length (List.filter (has_type "debit") txns)
   + length (List.filter (has_type "credit") txns) <= length txns)%nat.
Proof.
  induction txns as [|t txns IH]; cbn [List.filter length]; [lia|].
  assert (X : has_type "debit" t && has_type "credit" t = false).
  { unfold has_type. destruct t; try reflexivity.
    destruct (dict_get _ _ _); try reflexivity.
    destruct (str_eqb (lower s) (py "debit")) eqn:E; [|reflexivity].
    apply str_eqb_eq in E. rewrite E. reflexivity. }
  destruct (has_type "debit" t), (has_type "credit" t); cbn [length];
    try discriminate; lia.
Qed.

(** X15. Lines 442-445 with lines 203-208. When the transaction summary is
    computed, its debit and credit counts never add up to more than
    the total (a transaction of another type counts in the total
    only), and the card has a category chart, or the chart raises,
    exactly when the debit count is not zero. *)
Theorem summary_counts_are_bounded
    (stmt : pydict) (total_txns debit_txns credit_txns : nat) :
  transaction_summary stmt = Ok (total_txns, debit_txns, credit_txns) ->
  (debit_txns + credit_txns <= total_txns)%nat
  /\ (debit_txns = 0%nat <-> create_individual_category_chart stmt = Ok None).
Proof.
  unfold transaction_summary, create_individual_category_chart.
  destruct (py_len _) as [n|] eqn:L; cbn [mbind result_mbind bind]; [|discriminate].
  destruct (py_iter _) as [items|] eqn:I; cbn [mbind result_mbind bind]; [|discriminate].
  destruct (of_type "debit" items) as [ds|] eqn:D; [|discriminate].
  destruct (of_type "credit" items) as [cs|] eqn:C; [|discriminate].
  cbn [mbind result_mbind bind].
  intros H. injection H as <- <- <-.
  apply of_type_ok in D, C. destruct D as [_ ->]. destruct C as [_ ->].
  rewrite (py_len_iter _ _ _ L I).
  split; [apply debit_is_not_credit|].
  destruct (List.filter (has_type "debit") items) as [|t ts]; cbn [length].
  - split; reflexivity.
  - split; [discriminate|].
    destruct (category_totals (t :: ts) []); cbn [mbind result_mbind bind]; discriminate.
Qed.

Lemma same_key_refl (c : pyval) : hashable c = true -> same_key c c = true.
Proof.
  unfold same_key. destruct c as [|b|z|x|s|l|d]; cbn; try discriminate; intros _.
  - reflexivity.
  - rewrite Z.eqb_refl. reflexivity.
  - rewrite Z.eqb_refl. reflexivity.
  - destruct x as [s|s| |s m e]; try reflexivity.
    + destruct s; reflexivity.
    + unfold feq, SFeqb, SFcompare. rewrite Z.compare_refl.
      change (Pcompare m m Eq) with (Pos.compare m m). rewrite Pos.compare_refl.
      destruct s; reflexivity.
  - rewrite str_eqb_refl. reflexivity.
Qed.

Lemma same_key_text (a b : pyval) :
  is_text a = true -> is_text b = true -> (same_key a b = true <-> a = b).
Proof.
  destruct a, b; try discriminate. intros _ _. unfold same_key. cbn.
  destruct (str_eqb s s0) eqn:E.
  - apply str_eqb_eq in E. subst. split; reflexivity.
  - split; [discriminate|]. intros H. injection H as ->.
    rewrite str_eqb_refl in E. discriminate.
Qed.

Lemma add_to_category_unfold (k : pyval) (total : float)
    (rest : list (pyval * float)) (c : pyval) (a : float) :
  add_to_category ((k, total) :: rest) c a
  = if same_key k c then (k, fadd total a) :: rest
    else (k, total) :: add_to_category rest c a.
Proof.
  cbn [add_to_category]. unfold same_key.
  destruct (key_eq k c) as [[|]|]; reflexivity.
Qed.

Lemma forallb_add (P : pyval -> bool) (data : list (pyval * float))
    (c : pyval) (a : float) :
  forallb (fun kv => P (fst kv)) data = true -> P c = true ->
  forallb (fun kv => P (fst kv)) (add_to_category data c a) = true.
Proof.
  intros H Hc. induction data as [|[k t] data IH].
  - cbn. rewrite Hc. reflexivity.
  - rewrite add_to_category_unfold. cbn [forallb fst] in H.
    apply andb_true_iff in H. destruct H as [Hk Hr].
    destruct (same_key k c); cbn [forallb fst]; rewrite Hk; cbn [andb];
      [exact Hr | exact (IH Hr)].
Qed.

Lemma distinct_add (data : list (pyval * float)) (c : pyval) (a : float) :
  distinct_keys data = true -> distinct_keys (add_to_category data c a) = true.
Proof.
  induction data as [|[k t] data IH]; [reflexivity|].
  rewrite add_to_category_unfold. cbn [distinct_keys]. intros H.
  apply andb_true_iff in H. destruct H as [Hk Hr].
  destruct (same_key k c) eqn:E; cbn [distinct_keys].
  - rewrite Hk, Hr. reflexivity.
  - rewrite (IH Hr), andb_true_r.
    apply (forallb_add (fun key => negb (same_key k key))); [exact Hk|].
    rewrite E. reflexivity.
Qed.

Lemma covered_add_same (data : list (pyval * float)) (c : pyval) (a : float) :
  hashable c = true ->
  existsb (fun row => same_key (fst row) c) (add_to_category data c a) = true.
Proof.
  intros Hc. induction data as [|[k t] data IH].
  - cbn. rewrite (same_key_refl c Hc). reflexivity.
  - rewrite add_to_category_unfold.
    destruct (same_key k c) eqn:E; cbn [existsb fst]; rewrite E; [reflexivity|].
    exact IH.
Qed.

Lemma covered_add_other (data : list (pyval * float)) (c c' : pyval) (a : float) :
  existsb (fun row => same_key (fst row) c') data = true ->
  existsb (fun row => same_key (fst row) c') (add_to_category data c a) = true.
Proof.
  induction data as [|[k t] data IH]; [discriminate|].
  rewrite add_to_category_unfold. cbn [existsb fst]. intros H.
  destruct (same_key k c); cbn [existsb fst]; [exact H|].
  destruct (same_key k c'); [reflexivity|]. exact (IH H).
Qed.

Lemma length_add (data : list (pyval * float)) (c : pyval) (a : float) :
  (length data <= length (add_to_category data c a) <= S (length data))%nat
  /\ add_to_category data c a <> [].
Proof.
  induction data as [|[k t] data IH]; [split; [cbn; lia | discriminate]|].
  rewrite add_to_category_unfold.
  destruct (same_key k c); cbn [length]; split; try discriminate; lia.
Qed.

Lemma py_sum_snoc (l : list float) (a : float) :
  py_sum (l ++ [a]) = fadd (py_sum l) a.
Proof. unfold py_sum. rewrite fold_left_app. reflexivity. Qed.

Lemma amounts_under_snoc (k c : pyval) (a : float) (processed : list (pyval * float)) :
  amounts_under k (processed ++ [(c, a)])
  = amounts_under k processed ++ (if same_key k c then [a] else []).
Proof.
  unfold amounts_under. rewrite List.filter_app, List.map_app. cbn [List.filter fst].
  destruct (same_key k c); reflexivity.
Qed.

Lemma add_totals (processed : list (pyval * float)) (c : pyval) (a : float)
    (data : list (pyval * float)) :
  is_text c = true ->
  distinct_keys data = true ->
  Forall (fun row => is_text (fst row) = true
                     /\ snd row = py_sum (amounts_under (fst row) processed)) data ->
  (existsb (fun row => same_key (fst row) c) data = false ->
   amounts_under c processed = []) ->
  Forall (fun row => is_text (fst row) = true
                     /\ snd row = py_sum (amounts_under (fst row) (processed ++ [(c, a)])))
         (add_to_category data c a).
Proof.
  intros Hc. induction data as [|[k t] data IH]; intros Hd Hall Hnew.
  - constructor; [|constructor]. cbn [fst snd]. split; [exact Hc|].
    rewrite amounts_under_snoc, (Hnew eq_refl), (same_key_refl c).
    + reflexivity.
    + destruct c; try discriminate. reflexivity.
  - rewrite add_to_category_unfold.
    cbn [distinct_keys] in Hd. apply andb_true_iff in Hd. destruct Hd as [Hk Hd].
    inversion Hall as [|? ? [Tk Sk] Hrest]; subst. cbn [fst snd] in Tk, Sk.
    destruct (same_key k c) eqn:E.
    + apply (same_key_text k c Tk Hc) in E. subst c.
      constructor.
      * cbn [fst snd]. split; [exact Tk|].
        rewrite amounts_under_snoc, (same_key_refl k), py_sum_snoc, <- Sk.
        -- reflexivity.
        -- destruct k; try discriminate. reflexivity.
      * clear IH Hnew Hall. induction Hrest as [|[k' t'] rest [Tk' Sk'] _ IH'];
          constructor.
        -- cbn [fst snd] in *. split; [exact Tk'|].
           cbn [forallb fst] in Hk. apply andb_true_iff in Hk. destruct Hk as [Hkk' _].
           rewrite amounts_under_snoc.
           assert (N : same_key k' k = false).
           { destruct (same_key k' k) eqn:X; [|reflexivity].
             apply (same_key_text k' k Tk' Tk) in X. subst k'.
             rewrite (same_key_refl k) in Hkk'; [discriminate|].
             destruct k; try discriminate. reflexivity. }
           rewrite N, app_nil_r. exact Sk'.
        -- apply IH'.
           ++ cbn [forallb] in Hk. apply andb_true_iff in Hk. destruct Hk as [_ Hk].
              exact Hk.
           ++ cbn [distinct_keys] in Hd.
              apply andb_true_iff in Hd. destruct Hd as [_ Hd]. exact Hd.
    + constructor.
      * cbn [fst snd]. split; [exact Tk|].
        rewrite amounts_under_snoc, E, app_nil_r. exact Sk.
      * apply IH; [exact Hd | exact Hrest |].
        intros X. apply Hnew. cbn [existsb fst]. rewrite E, X. reflexivity.
Qed.

Lemma has_type_dict (want : string) (t : pyval) :
  has_type want t = true -> is_dict t = true.
Proof. destruct t; try discriminate. reflexivity. Qed.

Lemma category_totals_spec (txns : list pyval) (data out : list (pyval * float)) :
  forallb is_dict txns = true ->
  category_totals txns data = Ok out ->
  out = fold_left (fun acc r => add_to_category acc (fst r) (snd r))
                  (List.map debit_row txns) data
  /\ Forall (fun r => hashable (fst r) = true) (List.map debit_row txns).
Proof.
  revert data. induction txns as [|t txns IH]; intros data;
    cbn [forallb category_totals List.map fold_left].
  - intros _ H. injection H as <-. split; [reflexivity | constructor].
  - intros H. apply andb_true_iff in H. destruct H as [Ht Hr].
    destruct t as [| | | | | |d]; try discriminate.
    cbn [py_get mbind result_mbind bind debit_row fst snd].
    destruct (hashable (dict_get d (py "category") (PStr (py "Other")))) eqn:Hh;
      [|discriminate].
    intros H. destruct (IH _ Hr H) as [-> F].
    split; [reflexivity|]. constructor; [exact Hh | exact F].
Qed.

Lemma filter_none {A} (f : A -> bool) (l : list A) :
  Forall (fun x => f x = false) l -> List.filter f l = [].
Proof.
  induction 1 as [|x l Hx _ IH]; cbn [List.filter]; [reflexivity|].
  rewrite Hx. exact IH.
Qed.

Lemma grouping (rows : list (pyval * float)) :
  forall (processed data : list (pyval * float)),
  Forall (fun r => hashable (fst r) = true) rows ->
  distinct_keys data = true ->
  Forall (fun r => existsb (fun row => same_key (fst row) (fst r)) data = true)
         processed ->
  let out := fold_left (fun acc r => add_to_category acc (fst r) (snd r)) rows data in
  distinct_keys out = true
  /\ Forall (fun r => existsb (fun row => same_key (fst row) (fst r)) out = true)
            (processed ++ rows)
  /\ (length data <= length out <= length data + length rows)%nat
  /\ (rows <> [] -> out <> []).
Proof.
  induction rows as [|[c a] rows IH]; intros processed data Hh Hd Hc;
    cbn [fold_left fst snd].
  - rewrite app_nil_r. repeat split; try assumption; try lia. intros X. contradiction.
  - inversion Hh as [|? ? Hc1 Hh']; subst. cbn [fst] in Hc1.
    destruct (length_add data c a) as [L N].
    assert (Hc' : Forall (fun r => existsb (fun row => same_key (fst row) (fst r))
                                     (add_to_category data c a) = true)
                         (processed ++ [(c, a)])).
    { apply Forall_app. split.
      - eapply List.Forall_impl; [|exact Hc]. intros r Hr. cbn beta in Hr |- *.
        apply covered_add_other. exact Hr.
      - constructor; [|constructor]. cbn [fst]. apply covered_add_same. exact Hc1. }
    destruct (IH (processed ++ [(c, a)]) (add_to_category data c a) Hh'
                (distinct_add data c a Hd) Hc') as (D & C & L' & _).
    cbv zeta. rewrite <- app_assoc in C. cbn [app] in C.
    split; [exact D|]. split; [exact C|]. cbn [length]. split; [lia|].
    intros _ E. rewrite E in L'. cbn [length] in L'.
    destruct (add_to_category data c a); [contradiction | cbn [length] in L'; lia].
Qed.

Lemma grouping_totals (rows : list (pyval * float)) :
  forall (processed data : list (pyval * float)),
  Forall (fun r => is_text (fst r) = true) rows ->
  Forall (fun r => is_text (fst r) = true) processed ->
  distinct_keys data = true ->
  Forall (fun r => existsb (fun row => same_key (fst row) (fst r)) data = true)
         processed ->
  Forall (fun row => is_text (fst row) = true
                     /\ snd row = py_sum (amounts_under (fst row) processed)) data ->
  Forall (fun row => is_text (fst row) = true
                     /\ snd row = py_sum (amounts_under (fst row) (processed ++ rows)))
         (fold_left (fun acc r => add_to_category acc (fst r) (snd r)) rows data).
Proof.
  induction rows as [|[c a] rows IH]; intros processed data Ht Hp Hd Hc Hs;
    cbn [fold_left fst snd].
  - rewrite app_nil_r. exact Hs.
  - inversion Ht as [|? ? Tc Ht']; subst. cbn [fst] in Tc.
    assert (Hh : hashable c = true) by (destruct c; try discriminate; reflexivity).
    replace (processed ++ (c, a) :: rows) with ((processed ++ [(c, a)]) ++ rows)
      by (rewrite <- app_assoc; reflexivity).
    apply IH.
    + exact Ht'.
    + apply Forall_app. split; [exact Hp|]. constructor; [exact Tc | constructor].
    + apply distinct_add. exact Hd.
    + apply Forall_app. split.
      * eapply List.Forall_impl; [|exact Hc]. intros r Hr. cbn beta in Hr |- *.
        apply covered_add_other. exact Hr.
      * constructor; [|constructor]. cbn [fst]. apply covered_add_same. exact Hh.
    + apply (add_totals processed c a data Tc Hd Hs).
      intros X. unfold amounts_under. rewrite filter_none; [reflexivity|].
      clear IH Ht Ht' Hs. induction Hc as [|r processed Hr Hc IH']; constructor.
      * inversion Hp as [|? ? Tr Hp']; subst.
        destruct (same_key c (fst r)) eqn:Y; [|reflexivity].
        apply (same_key_text c (fst r) Tc Tr) in Y. rewrite <- Y in Hr.
        rewrite Hr in X. discriminate.
      * apply IH'. inversion Hp; assumption.
Qed.

(** X16. Lines 203-220. When a card has a category chart, its entries are
    the debits of the card grouped by category: there is at least one
    entry, no two entries share a key, every debit's category is the
    key of an entry, and there are no more entries than debits. Where
    the categories are strings, the amount of an entry is the sum,
    from 0 and in the order of the transactions, of the parsed amounts
    of the debits of that category. *)
Theorem category_chart_groups_debits
    (stmt : pydict) (entries : list (pyval * float)) :
  create_individual_category_chart stmt = Ok (Some entries) ->
  let debits :=
    List.map debit_row (List.filter (has_type "debit") (listed_transactions stmt)) in
  entries <> []
  /\ distinct_keys entries = true
  /\ (length entries <= length debits)%nat
  /\ Forall (fun r => existsb (fun e => same_key (fst e) (fst r)) entries = true) debits
  /\ (Forall (fun r => is_text (fst r) = true) debits ->
      Forall (fun e => snd e = py_sum (amounts_under (fst e) debits)) entries).
Proof.
  unfold create_individual_category_chart, listed_transactions.
  destruct (py_iter _) as [items|] eqn:I; cbn [mbind result_mbind bind]; [|discriminate].
  destruct (of_type "debit" items) as [ds|] eqn:D; cbn [mbind result_mbind bind];
    [|discriminate].
  apply of_type_ok in D. destruct D as [Ty ->].
  destruct (List.filter (has_type "debit") items) as [|t ts] eqn:F; [discriminate|].
  destruct (category_totals (t :: ts) []) as [out|] eqn:C;
    cbn [mbind result_mbind bind]; [|discriminate].
  intros H. injection H as <-.
  assert (L : dict_get stmt (py "transactions") (PList []) = PList items).
  { destruct (dict_get stmt (py "transactions") (PList [])) as [| | | |s|l|d];
      cbn [py_iter] in I; try discriminate; injection I as <-.
    - destruct s; [discriminate|]. cbn in Ty. discriminate.
    - reflexivity.
    - destruct d; [discriminate|]. cbn in Ty. discriminate. }
  rewrite L, F. cbv zeta.
  assert (Dd : forallb is_dict (t :: ts) = true).
  { rewrite <- F. apply forallb_forall. intros x Hx.
    apply List.filter_In in Hx. destruct Hx as [_ Hx].
    exact (has_type_dict _ _ Hx). }
  destruct (category_totals_spec _ _ _ Dd C) as [-> Hh].
  destruct (grouping _ [] [] Hh eq_refl (List.Forall_nil _)) as (G1 & G2 & G3 & G4).
  cbv zeta in G1, G2, G3, G4. cbn [app length] in G2, G3.
  split; [apply G4; discriminate|].
  split; [exact G1|]. split; [lia|]. split; [exact G2|].
  intros Tx.
  pose proof (grouping_totals _ [] [] Tx (List.Forall_nil _) eq_refl
                (List.Forall_nil _) (List.Forall_nil _)) as T.
  cbn [app] in T. eapply List.Forall_impl; [|exact T].
  intros e [_ He]. exact He.
Qed.

(** ** The rows of the transactions export *)

Lemma dict_at_ref (h : store) (v : value) (d : list (pystr * value)) :
  dict_at h v = Some d -> exists l, v = VRef l /\ h !! l = Some (ODict d).
Proof.
  destruct v; try discriminate. cbn [dict_at].
  destruct (h !! l) as [[d'|]|] eqn:E; try discriminate.
  intros H. injection H as <-. exists l. split; [reflexivity | exact E].
Qed.

Lemma list_at_ref (h : store) (v : value) (items : list value) :
  list_at h v = Some items -> exists l, v = VRef l /\ h !! l = Some (OList items).
Proof.
  destruct v; try discriminate. cbn [list_at].
  destruct (h !! l) as [[|items']|] eqn:E; try discriminate.
  intros H. injection H as <-. exists l. split; [reflexivity | exact E].
Qed.

Lemma items_get_present (d : list (pystr * value)) (key : pystr) (a b : value) :
  items_has d key = true -> items_get d key a = items_get d key b.
Proof.
  unfold items_has.
  induction d as [|[k v] d IH]; cbn [existsb items_get fst]; [discriminate|].
  destruct (str_eqb k key); [reflexivity | exact IH].
Qed.

Lemma items_get_absent (d : list (pystr * value)) (key : pystr) (a : value) :
  items_has d key = false -> items_get d key a = a.
Proof.
  unfold items_has.
  induction d as [|[k v] d IH]; cbn [existsb items_get fst]; [reflexivity|].
  destruct (str_eqb k key); [discriminate | exact IH].
Qed.

Lemma vstr_scalar (v : value) (t : pyval) (h : store) :
  scalar v = Some t -> vstr v h = (Ok (py_str t), h).
Proof.
  destruct v; try discriminate; intros H; injection H as <-; reflexivity.
Qed.

Lemma new_dicts_app (h h' : store) (r1 r2 : list value)
    (d1 d2 : list (list (pystr * value))) :
  new_dicts h h' r1 d1 -> new_dicts h h' r2 d2 -> new_dicts h h' (r1 ++ r2) (d1 ++ d2).
Proof. unfold new_dicts. intros H1 H2. apply Forall2_app; assumption. Qed.

Lemma kept_none (rows : loc) (h h1 : store) :
  kept_but rows h h1 -> h1 !! rows <> None ->
  forall l, h1 !! l = None -> h !! l = None.
Proof.
  intros K R l N. destruct (h !! l) as [o|] eqn:E; [|reflexivity].
  destruct (decide (l = rows)) as [->|Hne]; [contradiction|].
  rewrite (K _ _ E Hne) in N. discriminate.
Qed.

(** Rows made between [h1] and [h2] are rows made between [h] and
    [h'], when [h1] has the objects of [h] and [h'] the dicts of
    [h2]. *)
Lemma new_dicts_widen (h h1 h2 h' : store)
    (refs : list value) (dicts : list (list (pystr * value))) :
  (forall l, h1 !! l = None -> h !! l = None) ->
  (forall l d, h2 !! l = Some (ODict d) -> h' !! l = Some (ODict d)) ->
  new_dicts h1 h2 refs dicts -> new_dicts h h' refs dicts.
Proof.
  intros W1 W2 N. unfold new_dicts in *. eapply Forall2_impl; [exact N|].
  intros r d (l & -> & Nl & Sl). exists l. split; [reflexivity|].
  split; [apply W1; exact Nl | apply W2; exact Sl].
Qed.

Lemma export_inner (h0 : store) (rows : loc) (card : pystr) (txns : list value) :
  forall (dicts : list (list (pystr * value))) (h : store) (refs : list value),
  h0 ⊆ h -> h0 !! rows = None -> h !! rows = Some (OList refs) ->
  all_some (List.map (dict_at h0) txns) = Some dicts ->
  exists h' new,
    for_each txns (fun txn =>
      txn_copy <~ vcopy txn;
      _ <~ vsetitem txn_copy "card" (VStr card);
      vappend rows txn_copy) h = (Ok tt, h')
    /\ h0 ⊆ h' /\ kept_but rows h h'
    /\ h' !! rows = Some (OList (refs ++ new))
    /\ new_dicts h h' new
         (List.map (fun d => items_set d (py "card") (VStr card)) dicts).
Proof.
  induction txns as [|txn txns IH]; intros dicts h refs Sub R0 R A.
  - cbn in A. injection A as <-. exists h, []. cbn [for_each ret List.map].
    rewrite app_nil_r. repeat split; try assumption.
    + intros l o Hl _. exact Hl.
    + constructor.
  - cbn [List.map all_some] in A.
    destruct (dict_at h0 txn) as [d|] eqn:D; [|discriminate].
    destruct (all_some (List.map (dict_at h0) txns)) as [ds|] eqn:A'; [|discriminate].
    cbn in A. injection A as <-.
    apply dict_at_ref in D. destruct D as (l & -> & L0).
    pose proof (lookup_weaken _ _ _ _ L0 Sub) as L.
    destruct (fresh_outside h0 h Sub) as [F0 F].
    set (l' := fresh (dom h)) in *.
    assert (Nr : l' <> rows) by (intros ->; rewrite R in F; discriminate).
    set (h3 := <[rows := OList (refs ++ [VRef l'])]>
                 (<[l' := ODict (items_set d (py "card") (VStr card))]>
                    (<[l' := ODict d]> h))).
    assert (Step : (txn_copy <~ vcopy (VRef l);
                    _ <~ vsetitem txn_copy "card" (VStr card);
                    vappend rows txn_copy) h = (Ok tt, h3)).
    { unfold cbind, vcopy. rewrite L. unfold alloc. fold l'. cbn beta iota zeta.
      unfold vsetitem. rewrite lookup_insert_eq.
      unfold vappend. rewrite lookup_insert_ne by exact Nr.
      rewrite lookup_insert_ne by exact Nr. rewrite R. reflexivity. }
    assert (Sub3 : h0 ⊆ h3).
    { unfold h3. apply insert_subseteq_r; [exact R0|].
      apply insert_subseteq_r; [exact F0|].
      apply insert_subseteq_r; [exact F0 | exact Sub]. }
    assert (R3 : h3 !! rows = Some (OList (refs ++ [VRef l']))).
    { unfold h3. apply lookup_insert_eq. }
    assert (K3 : kept_but rows h h3).
    { intros x o Hx Hne. unfold h3. rewrite lookup_insert_ne by (intros E; congruence).
      assert (x <> l') by (intros ->; rewrite F in Hx; discriminate).
      rewrite !lookup_insert_ne by (intros E; congruence). exact Hx. }
    assert (L3 : h3 !! l' = Some (ODict (items_set d (py "card") (VStr card)))).
    { unfold h3. rewrite lookup_insert_ne by (intros E; congruence).
      apply lookup_insert_eq. }
    destruct (IH ds h3 (refs ++ [VRef l']) Sub3 R0 R3 eq_refl)
      as (h' & new & Run & Sub' & K' & R' & N').
    exists h', (VRef l' :: new).
    split; [|split; [|split; [|split]]].
    + cbn [for_each]. unfold cbind at 1. rewrite Step. exact Run.
    + exact Sub'.
    + intros x o Hx Hne. apply K'; [|exact Hne]. apply K3; assumption.
    + rewrite R', <- app_assoc. reflexivity.
    + cbn [List.map]. constructor.
      * exists l'. split; [reflexivity|]. split; [exact F|].
        apply K'; [exact L3 | exact Nr].
      * apply (new_dicts_widen h h3 h' h'); [| intros x dx Hx; exact Hx | exact N'].
        apply (kept_none rows); [exact K3|]. rewrite R3. discriminate.
Qed.

Lemma cbind_ok {A B} (c : comp A) (k : A -> comp B) (h h' : store) (a : A) :
  c h = (Ok a, h') -> cbind c k h = k a h'.
Proof. intros E. unfold cbind. rewrite E. reflexivity. Qed.

Lemma export_outer (h0 : store) (rows : loc) (stmts : list value) :
  forall (srcs : list (pystr * list (list (pystr * value)))) (h : store)
         (refs : list value),
  h0 ⊆ h -> h0 !! rows = None -> h !! rows = Some (OList refs) ->
  all_some (List.map (export_source h0) stmts) = Some srcs ->
  exists h' new,
    for_each stmts (fun stmt =>
      issuer <~ vget stmt "issuer" (VStr (py "Unknown"));
      issuer_text <~ vstr issuer;
      last4 <~ vget stmt "card_last_4" (VStr (py "****"));
      last4_text <~ vstr last4;
      let card_id := issuer_text ++ py " *" ++ last4_text in
      empty <~ alloc (OList []);
      txns <~ vget stmt "transactions" (VRef empty);
      txn_list <~ viter txns;
      for_each txn_list (fun txn =>
        txn_copy <~ vcopy txn;
        _ <~ vsetitem txn_copy "card" (VStr card_id);
        vappend rows txn_copy)) h = (Ok tt, h')
    /\ h0 ⊆ h' /\ kept_but rows h h'
    /\ h' !! rows = Some (OList (refs ++ new))
    /\ new_dicts h h' new
         (concat (List.map (fun src =>
            List.map (fun d => items_set d (py "card") (VStr (fst src))) (snd src))
            srcs)).
Proof.
  induction stmts as [|stmt stmts IH]; intros srcs h refs Sub R0 R A.
  - cbn in A. injection A as <-. exists h, []. cbn [for_each ret List.map concat].
    rewrite app_nil_r. repeat split; try assumption.
    + intros l o Hl _. exact Hl.
    + constructor.
  - cbn [List.map all_some] in A.
    destruct (export_source h0 stmt) as [[card dicts]|] eqn:E; [|discriminate].
    destruct (all_some (List.map (export_source h0) stmts)) as [rest|] eqn:A';
      [|discriminate].
    cbn in A. injection A as <-.
    unfold export_source in E.
    destruct (dict_at h0 stmt) as [sd|] eqn:D; cbn [mbind option_bind] in E;
      [|discriminate].
    destruct (scalar (items_get sd (py "issuer") (VStr (py "Unknown")))) as [ti|] eqn:Si;
      cbn [mbind option_bind] in E; [|discriminate].
    destruct (scalar (items_get sd (py "card_last_4") (VStr (py "****")))) as [tl|] eqn:Sl;
      cbn [mbind option_bind] in E; [|discriminate].
    destruct (if items_has sd (py "transactions")
              then list_at h0 (items_get sd (py "transactions") VNone)
              else Some []) as [txns|] eqn:T; cbn [mbind option_bind] in E;
      [|discriminate].
    destruct (all_some (List.map (dict_at h0) txns)) as [ds|] eqn:Ad;
      cbn [mbind option_bind] in E; [|discriminate].
    injection E as <- <-.
    apply dict_at_ref in D. destruct D as (s & -> & L0).
    pose proof (lookup_weaken _ _ _ _ L0 Sub) as Ls.
    destruct (fresh_outside h0 h Sub) as [F0 F].
    set (e := fresh (dom h)) in *.
    set (h1 := <[e := OList []]> h).
    assert (Ne : e <> rows) by (intros X; rewrite X, R in F; discriminate).
    assert (Sub1 : h0 ⊆ h1) by (apply insert_subseteq_r; assumption).
    assert (Sub01 : h ⊆ h1) by (apply insert_subseteq; exact F).
    assert (R1 : h1 !! rows = Some (OList refs)).
    { unfold h1. rewrite lookup_insert_ne by exact Ne. exact R. }
    assert (Ls1 : h1 !! s = Some (ODict sd)) by exact (lookup_weaken _ _ _ _ Ls Sub01).
    assert (Tx : exists v, vget (VRef s) "transactions" (VRef e) h1 = (Ok v, h1)
                           /\ viter v h1 = (Ok txns, h1)).
    { unfold vget. rewrite Ls1.
      destruct (items_has sd (py "transactions")) eqn:Hs.
      - apply list_at_ref in T. destruct T as (t & Et & Lt).
        exists (VRef t). split.
        + rewrite (items_get_present _ _ (VRef e) VNone Hs), Et. reflexivity.
        + unfold viter.
          rewrite (lookup_weaken _ _ _ _ Lt Sub1). reflexivity.
      - injection T as <-. exists (VRef e). split.
        + rewrite (items_get_absent _ _ _ Hs). reflexivity.
        + unfold viter, h1. rewrite lookup_insert_eq. reflexivity. }
    destruct Tx as (v & Tg & Ti).
    destruct (export_inner h0 rows (py_str ti ++ py " *" ++ py_str tl) txns ds h1 refs
                Sub1 R0 R1 Ad) as (h2 & new1 & Run & Sub2 & K2 & R2 & N2).
    destruct (IH rest h2 (refs ++ new1) Sub2 R0 R2 eq_refl)
      as (h' & new2 & Run' & Sub' & K' & R' & N').
    assert (K1 : kept_but rows h h2).
    { intros x o Hx Hne. apply K2; [|exact Hne].
      exact (lookup_weaken _ _ _ _ Hx Sub01). }
    exists h', (new1 ++ new2).
    split; [|split; [|split; [|split]]].
    + cbn [for_each].
      erewrite cbind_ok; [exact Run'|].
      erewrite cbind_ok by (unfold vget; rewrite Ls; reflexivity). cbn beta.
      erewrite cbind_ok by (apply vstr_scalar; exact Si). cbn beta.
      erewrite cbind_ok by (unfold vget; rewrite Ls; reflexivity). cbn beta.
      erewrite cbind_ok by (apply vstr_scalar; exact Sl). cbn beta zeta.
      erewrite cbind_ok by (unfold alloc; fold e; fold h1; reflexivity). cbn beta.
      erewrite cbind_ok by exact Tg. cbn beta.
      erewrite cbind_ok by exact Ti. cbn beta.
      exact Run.
    + exact Sub'.
    + intros x o Hx Hne. apply K'; [|exact Hne]. apply K1; assumption.
    + rewrite R', <- app_assoc. reflexivity.
    + cbn [List.map concat fst snd]. apply new_dicts_app.
      * apply (new_dicts_widen h h1 h2 h'); [| | exact N2].
        -- intros x Nx. destruct (h !! x) eqn:Hx; [|reflexivity].
           rewrite (lookup_weaken _ _ _ _ Hx Sub01) in Nx. discriminate.
        -- intros x dx Hx. apply K'; [exact Hx|].
           intros ->. rewrite R2 in Hx. discriminate.
      * apply (new_dicts_widen h h2 h' h'); [| intros x dx Hx; exact Hx | exact N'].
        apply (kept_none rows); [exact K1|]. rewrite R2. discriminate.
Qed.

(** X17. Lines 486-493. On a batch of statements of the expected form - each
    a dict whose issuer and last four digits are not containers and
    whose transactions, when present, are a list of dicts - the export
    loop ends without exception, and its rows are, card after card and
    in the order of the transactions, new dicts that hold the entries
    of the transaction with ['card'] set to the label of its card (a
    ['card'] entry of the transaction itself is overwritten). *)
Theorem export_rows_are_tagged_copies
    (batch : loc) (stmts : list value) (h : store)
    (srcs : list (pystr * list (list (pystr * value)))) :
  h !! batch = Some (OList stmts) ->
  all_some (List.map (export_source h) stmts) = Some srcs ->
  exists (rows : loc) (refs : list value) (h' : store),
    export_transactions (VRef batch) h = (Ok (VRef rows), h')
    /\ h !! rows = None
    /\ h' !! rows = Some (OList refs)
    /\ new_dicts h h' refs
         (concat (List.map (fun src =>
            List.map (fun d => items_set d (py "card") (VStr (fst src))) (snd src))
            srcs)).
Proof.
  intros B A.
  destruct (fresh_outside h h (reflexivity h)) as [F _].
  set (rows := fresh (dom h)) in *.
  set (h1 := <[rows := OList []]> h).
  assert (Sub1 : h ⊆ h1) by (apply insert_subseteq; exact F).
  assert (R1 : h1 !! rows = Some (OList [])) by apply lookup_insert_eq.
  destruct (export_outer h rows stmts srcs h1 [] Sub1 F R1 A)
    as (h' & new & Run & Sub' & K' & R' & N').
  exists rows, new, h'.
  split; [|split; [exact F|split; [exact R'|]]].
  - unfold export_transactions.
    erewrite cbind_ok by (unfold alloc; fold rows; fold h1; reflexivity). cbn beta.
    erewrite cbind_ok
      by (unfold viter; rewrite (lookup_weaken _ _ _ _ B Sub1); reflexivity).
    cbn beta.
    erewrite cbind_ok by exact Run. reflexivity.
  - apply (new_dicts_widen h h1 h' h'); [| intros x dx Hx; exact Hx | exact N'].
    intros x Nx. destruct (h !! x) eqn:Hx; [|reflexivity].
    rewrite (lookup_weaken _ _ _ _ Hx Sub1) in Nx. discriminate.
Qed.

End Script.

(** ** The theorems on sample inputs *)

Import Sample.

(** The scenario of the specification: three documents, the oracle
    fails on the second. The first and the third record are in the
    result, the second is reported by name. *)
Example batch_of_three :
  process_files repr_plain lower_ascii (second_fails (pyq "{'issuer': 'HDFC'}"))
    3 0 [pdf "a.pdf"; pdf "b.pdf"; pdf "c.pdf"] [] []
  = ([PDict [(py "issuer", PStr (py "HDFC")); (py "filename", PStr (py "a.pdf"))];
      PDict [(py "issuer", PStr (py "HDFC")); (py "filename", PStr (py "c.pdf"))]],
     [py "❌ Error processing b.pdf: 503 The model is overloaded"]).
Proof. vm_compute. reflexivity. Qed.


(** C4 fails on the code: the response [{}] parses, has none of the
    fields of the StatementRecord shape, and is returned as a record. *)
Lemma shape_is_not_validated :
  oracle_call lower_ascii (answers (py "{}")) (pdf "a.pdf") 1 = Ok (py "{}")
  /\ json_loads (strip_fences (py "{}")) = Ok (PDict [])
  /\ statement_shape (PDict []) = false
  /\ extract_data_from_file lower_ascii (answers (py "{}")) (pdf "a.pdf") 1 1
     = (PDict [(py "filename", PStr (py "a.pdf"))], PNone).
Proof. vm_compute. repeat split; reflexivity. Qed.

Lemma parsed_object_is_returned_unchecked_witness :
  oracle_call lower_ascii (answers (py "[1, 2]")) (pdf "a.pdf") 1 = Ok (py "[1, 2]")
  /\ json_loads (strip_fences (py "[1, 2]")) = Ok (PList [PInt 1; PInt 2])
  /\ exists m,
       extract_data_from_file lower_ascii (answers (py "[1, 2]")) (pdf "a.pdf") 1 1
       = (PNone, PStr (py "Error processing " ++ py "a.pdf" ++ py ": " ++ m)).
Proof.
  split; [reflexivity|]. split; [vm_compute; reflexivity|].
  apply (parsed_object_is_returned_unchecked lower_ascii (answers (py "[1, 2]"))
           (pdf "a.pdf") 1 1 (py "[1, 2]") (PList [PInt 1; PInt 2]));
    [reflexivity | vm_compute; reflexivity | reflexivity].
Defined.

(** C5 fails on the code: with no file uploaded the count, 0, differs
    from the recorded count, 1, and the batch of the earlier run stays. *)
Lemma empty_upload_keeps_batch :
  let st := {| all_statements := [PDict [(py "issuer", PStr (py "HDFC"))]];
               processing_complete := true;
               last_upload_count := 1 |} in
  length (@nil UploadedFile) <> last_upload_count st
  /\ all_statements
       (fst (handle_uploads repr_plain lower_ascii (answers (py "{}")) [] st))
     = [PDict [(py "issuer", PStr (py "HDFC"))]].
Proof. cbv zeta. split; [discriminate | reflexivity]. Qed.

Lemma count_change_resets_batch_witness :
  let st := {| all_statements := [PDict [(py "issuer", PStr (py "HDFC"))]];
               processing_complete := true;
               last_upload_count := 1 |} in
  [pdf "a.pdf"; pdf "b.pdf"] <> []
  /\ length [pdf "a.pdf"; pdf "b.pdf"] <> last_upload_count st
  /\ handle_uploads repr_plain lower_ascii (answers (py "{}")) [pdf "a.pdf"; pdf "b.pdf"] st
     = ({| all_statements :=
             batch_records lower_ascii (answers (py "{}")) 0 [pdf "a.pdf"; pdf "b.pdf"];
           processing_complete := true;
           last_upload_count := 2 |},
        batch_errors lower_ascii (answers (py "{}")) 0 [pdf "a.pdf"; pdf "b.pdf"]).
Proof.
  cbv zeta. split; [discriminate|]. split; [cbn; lia|].
  apply (count_change_resets_batch repr_plain lower_ascii (answers (py "{}"))
           [pdf "a.pdf"; pdf "b.pdf"]); [discriminate | cbn; lia].
Defined.

(** C8 fails on the code: a debit whose amount text is [-500] enters
    the category totals with the negative amount -500.0. *)
Lemma debit_amount_can_be_negative :
  create_aggregate_category_chart repr_plain lower_ascii
    [[(py "transactions",
       PList [PDict [(py "amount", PStr (py "-500"));
                     (py "type", PStr (py "Debit"));
                     (py "category", PStr (py "Shopping"))]])]]
  = Ok (Some [(PStr (py "Shopping"), lit "-500.0")])
  /\ flt (lit "-500.0") fzero = true
  /\ parse_amount repr_plain (PStr (py "-500")) = lit "-500.0".
Proof. vm_compute. repeat split; reflexivity. Qed.

Lemma amount_sign_comes_from_text_witness :
  existsb (char_eqb (ch "-")) (py_str repr_plain (PStr (py "₹1,200.50"))) = false
  /\ flt (parse_amount repr_plain (PStr (py "₹1,200.50"))) fzero = false.
Proof.
  split; [reflexivity|].
  apply (proj2 (amount_sign_comes_from_text repr_plain (PStr (py "₹1,200.50")))).
  reflexivity.
Defined.

(** C6 fails on the code: 0.00001 parses to the float that [str] writes
    as [1e-05]; cleaning that text leaves [1-05], which is no number,
    and the second pass gives 0.0. Likewise 10^16 is written [1e+16]
    and comes back as 116.0. *)
Lemma parse_amount_is_not_idempotent :
  py_str repr_plain (PFloat (parse_amount repr_plain (PStr (py "0.00001")))) = py "1e-05"
  /\ parse_amount repr_plain
       (PStr (py_str repr_plain (PFloat (parse_amount repr_plain (PStr (py "0.00001"))))))
     = fzero
  /\ feq (parse_amount repr_plain
            (PStr (py_str repr_plain (PFloat (parse_amount repr_plain (PStr (py "0.00001")))))))
         (parse_amount repr_plain (PStr (py "0.00001")))
     = false
  /\ py_str repr_plain (PFloat (parse_amount repr_plain (PStr (py "10000000000000000"))))
     = py "1e+16"
  /\ parse_amount repr_plain
       (PStr (py_str repr_plain
                (PFloat (parse_amount repr_plain (PStr (py "10000000000000000"))))))
     = lit "116.0".
Proof. vm_compute. repeat split; reflexivity. Qed.

Lemma parse_amount_idempotent_on_positional_witness :
  positional (parse_amount repr_plain (PStr (py "₹12,345.67"))) = true
  /\ parse_amount repr_plain
       (PStr (py_str repr_plain (PFloat (parse_amount repr_plain (PStr (py "₹12,345.67"))))))
     = parse_amount repr_plain (PStr (py "₹12,345.67")).
Proof.
  split; [vm_compute; reflexivity|].
  apply (parse_amount_idempotent_on_positional repr_plain (PStr (py "₹12,345.67"))).
  vm_compute. reflexivity.
Defined.

(** The utilization entries on sample records. *)
Example utilization_samples :
  comparison_utilization repr_plain
    [(py "total_amount_due", PStr (py "₹25,000.00"));
     (py "credit_limit", PStr (py "₹1,00,000"))]
  = Ok (py "25.0%")
  /\ comparison_utilization repr_plain [(py "total_amount_due", PStr (py "₹25,000.00"))]
     = Ok (py "N/A")
  /\ credit_utilization_metric repr_plain
       [(py "total_amount_due", PStr (py "100")); (py "credit_limit", PStr (py "-300"))]
     = Ok (py "N/A")
  /\ credit_utilization_metric repr_plain
       [(py "total_amount_due", PStr (py "100")); (py "credit_limit", PInt 300)]
     = Ok (py "33.3%").
Proof. vm_compute. repeat split; reflexivity. Qed.

(** The result page on a batch laid out in an empty store: the batch
    reads as before, and the row of the transactions CSV is the
    transaction with the 'card' entry added. *)
Example export_adds_card_to_a_copy :
  match store_tree one_card ∅ with
  | (Ok batch, h) =>
    match display_results repr_plain lower_ascii batch h with
    | (Ok p, h') =>
      reify 10 h' batch = Some one_card
      /\ reify 10 h' (all_transactions p)
         = Some (PList [PDict [(py "amount", PStr (py "₹500"));
                               (py "type", PStr (py "Debit"));
                               (py "card", PStr (py "HDFC *1234"))]])
    | _ => False
    end
  | _ => False
  end.
Proof. vm_compute. split; reflexivity. Qed.

(** ** The further theorems on sample inputs *)

Lemma record_is_object_with_filename_witness :
  oracle_call lower_ascii (answers (pyq "{'issuer': 'HDFC', 'filename': 'x'}"))
    (pdf "a.pdf") 1
  = Ok (pyq "{'issuer': 'HDFC', 'filename': 'x'}")
  /\ json_loads (strip_fences (pyq "{'issuer': 'HDFC', 'filename': 'x'}"))
     = Ok (PDict [(py "issuer", PStr (py "HDFC")); (py "filename", PStr (py "x"))])
  /\ exists r : pydict,
       extract_data_from_file lower_ascii
         (answers (pyq "{'issuer': 'HDFC', 'filename': 'x'}")) (pdf "a.pdf") 1 1
       = (PDict r, PNone)
       /\ dict_get r (py "filename") PNone = PStr (py "a.pdf")
       /\ (forall key default, key <> py "filename" ->
             dict_has r key
             = dict_has [(py "issuer", PStr (py "HDFC")); (py "filename", PStr (py "x"))] key
             /\ dict_get r key default
                = dict_get [(py "issuer", PStr (py "HDFC")); (py "filename", PStr (py "x"))]
                    key default)
       /\ length r = 2%nat.
Proof.
  split; [reflexivity|]. split; [vm_compute; reflexivity|].
  apply (record_is_object_with_filename lower_ascii
           (answers (pyq "{'issuer': 'HDFC', 'filename': 'x'}")) (pdf "a.pdf") 1 1
           (pyq "{'issuer': 'HDFC', 'filename': 'x'}")
           [(py "issuer", PStr (py "HDFC")); (py "filename", PStr (py "x"))]);
    [reflexivity | vm_compute; reflexivity].
Defined.

Lemma blank_response_is_json_error_witness :
  Forall (fun c => isspace c = true) [10%N]
  /\ extract_data_from_file lower_ascii
       (answers ([10%N] ++ fence ++ py "json" ++ [10%N] ++ fence ++ [10%N]))
       (pdf "scan.png") 1 1
     = (PNone,
        PStr (py "JSON parsing error in " ++ py "scan.png"
                ++ py ": Expecting value: line 1 column 1 (char 0)")).
Proof.
  assert (B : Forall (fun c => isspace c = true) [10%N]).
  { constructor; [reflexivity | constructor]. }
  split; [exact B|].
  apply (blank_response_is_json_error lower_ascii
           (answers ([10%N] ++ fence ++ py "json" ++ [10%N] ++ fence ++ [10%N]))
           (pdf "scan.png") 1 1 [10%N] [10%N] [10%N] true true B B B).
  reflexivity.
Defined.

Lemma same_size_batch_is_not_reprocessed_witness :
  [pdf "a.pdf"; pdf "b.pdf"] <> []
  /\ length [pdf "c.pdf"; pdf "d.pdf"] = length [pdf "a.pdf"; pdf "b.pdf"]
  /\ handle_uploads repr_plain lower_ascii (answers (py "{}")) [pdf "c.pdf"; pdf "d.pdf"]
       (fst (handle_uploads repr_plain lower_ascii (answers (py "{}"))
               [pdf "a.pdf"; pdf "b.pdf"] initial_state))
     = (fst (handle_uploads repr_plain lower_ascii (answers (py "{}"))
               [pdf "a.pdf"; pdf "b.pdf"] initial_state), []).
Proof.
  split; [discriminate|]. split; [reflexivity|].
  apply (same_size_batch_is_not_reprocessed repr_plain lower_ascii (answers (py "{}"))
           [pdf "a.pdf"; pdf "b.pdf"] [pdf "c.pdf"; pdf "d.pdf"] initial_state);
    [discriminate | reflexivity].
Defined.

Lemma batch_holds_records_witness :
  Forall is_record (all_statements initial_state)
  /\ Forall is_record
       (all_statements
          (fst (handle_uploads repr_plain lower_ascii
                  (second_fails (pyq "{'issuer': 'HDFC'}"))
                  [pdf "a.pdf"; pdf "b.pdf"; pdf "c.pdf"] initial_state))).
Proof.
  split; [constructor|].
  apply (batch_holds_records repr_plain lower_ascii
           (second_fails (pyq "{'issuer': 'HDFC'}"))
           [pdf "a.pdf"; pdf "b.pdf"; pdf "c.pdf"] initial_state).
  constructor.
Defined.

Lemma upload_handling_keeps_state_consistent_witness :
  consistent initial_state
  /\ consistent
       (fst (handle_uploads repr_plain lower_ascii
               (second_fails (pyq "{'issuer': 'HDFC'}"))
               [pdf "a.pdf"; pdf "b.pdf"; pdf "c.pdf"] initial_state)).
Proof.
  assert (C : consistent initial_state).
  { split; [reflexivity | cbn; lia]. }
  split; [exact C|].
  apply (upload_handling_keeps_state_consistent repr_plain lower_ascii
           (second_fails (pyq "{'issuer': 'HDFC'}"))
           [pdf "a.pdf"; pdf "b.pdf"; pdf "c.pdf"] initial_state C).
Defined.

Lemma nonzero_amount_has_number_shape_witness :
  is_zero (parse_amount repr_plain (PStr (py "₹12,345.67"))) = false
  /\ exists (neg point : bool) (ip fp : pystr),
       List.map ascii_digit
         (List.filter amount_char (py_str repr_plain (PStr (py "₹12,345.67"))))
       = (if neg then [ch "-"] else []) ++ ip ++ (if point then [ch "."] else []) ++ fp
       /\ Forall (fun c => isdigit c = true) ip
       /\ Forall (fun c => isdigit c = true) fp
       /\ ip ++ fp <> [].
Proof.
  split; [vm_compute; reflexivity|].
  apply (nonzero_amount_has_number_shape repr_plain (PStr (py "₹12,345.67"))).
  vm_compute. reflexivity.
Defined.

Lemma parse_amount_exact_on_integers_witness :
  0 < Z.abs (-12345) < 2 ^ 53
  /\ exists (m : positive) (e : Z),
       parse_amount repr_plain (PInt (-12345)) = S754_finite (-12345 <? 0) m e
       /\ e <= 0 /\ Zpos m = Z.abs (-12345) * 2 ^ (- e).
Proof.
  split; [cbn; lia|].
  apply (parse_amount_exact_on_integers repr_plain (-12345)). cbn. lia.
Defined.


Lemma untyped_transaction_stops_the_charts_witness :
  In card_with_bad_transaction [card_with_debits; card_with_bad_transaction]
  /\ forallb typed_transaction (listed_transactions card_with_bad_transaction) = false
  /\ (exists e, create_aggregate_category_chart repr_plain lower_ascii
                  [card_with_debits; card_with_bad_transaction] = Raise e)
  /\ (exists e, create_individual_category_chart repr_plain lower_ascii
                  card_with_bad_transaction = Raise e)
  /\ (exists e, transaction_summary lower_ascii card_with_bad_transaction = Raise e).
Proof.
  assert (I : In card_with_bad_transaction [card_with_debits; card_with_bad_transaction]).
  { right. left. reflexivity. }
  split; [exact I|]. split; [reflexivity|].
  apply (untyped_transaction_stops_the_charts repr_plain lower_ascii
           [card_with_debits; card_with_bad_transaction] card_with_bad_transaction I).
  reflexivity.
Defined.

Lemma summary_counts_are_bounded_witness :
  transaction_summary lower_ascii card_with_debits = Ok (4, 3, 1)%nat
  /\ (3 + 1 <= 4)%nat.
Proof.
  assert (S : transaction_summary lower_ascii card_with_debits = Ok (4, 3, 1)%nat).
  { vm_compute. reflexivity. }
  split; [exact S|].
  apply (proj1 (summary_counts_are_bounded repr_plain lower_ascii card_with_debits
                  4 3 1 S)).
Defined.

Lemma category_chart_groups_debits_witness :
  create_individual_category_chart repr_plain lower_ascii card_with_debits
  = Ok (Some [(PStr (py "Food"), lit "1700.5"); (PStr (py "Other"), lit "50")])
  /\ distinct_keys [(PStr (py "Food"), lit "1700.5"); (PStr (py "Other"), lit "50")] = true
  /\ Forall (fun e =>
       snd e = py_sum (amounts_under (fst e)
                 (List.map (debit_row repr_plain)
                    (List.filter (has_type lower_ascii "debit")
                       (listed_transactions card_with_debits)))))
       [(PStr (py "Food"), lit "1700.5"); (PStr (py "Other"), lit "50")].
Proof.
  assert (C : create_individual_category_chart repr_plain lower_ascii card_with_debits
              = Ok (Some [(PStr (py "Food"), lit "1700.5"); (PStr (py "Other"), lit "50")])).
  { vm_compute. reflexivity. }
  split; [exact C|].
  destruct (category_chart_groups_debits repr_plain lower_ascii card_with_debits _ C)
    as (_ & D & _ & _ & T).
  split; [exact D|]. apply T.
  repeat constructor.
Defined.


(** The export on the sample batch laid out in an empty store: the one
    row is a new dict with the entries of the transaction and the card
    label. *)
Lemma export_rows_are_tagged_copies_witness :
  let h := snd (store_tree one_card ∅) in
  let txn := [(py "amount", VStr (py "₹500")); (py "type", VStr (py "Debit"))] in
  h !! 4%positive = Some (OList [VRef 3%positive])
  /\ all_some (List.map (export_source repr_plain h) [VRef 3%positive])
     = Some [(py "HDFC *1234", [txn])]
  /\ exists (rows : loc) (refs : list value) (h' : gmap loc object),
       export_transactions repr_plain (VRef 4%positive) h = (Ok (VRef rows), h')
       /\ h !! rows = None
       /\ h' !! rows = Some (OList refs)
       /\ new_dicts h h' refs [items_set txn (py "card") (VStr (py "HDFC *1234"))].
Proof.
  cbv zeta.
  split; [vm_compute; reflexivity|]. split; [vm_compute; reflexivity|].
  apply (export_rows_are_tagged_copies repr_plain 4%positive [VRef 3%positive]
           (snd (store_tree one_card ∅))
           [(py "HDFC *1234",
             [[(py "amount", VStr (py "₹500")); (py "type", VStr (py "Debit"))]])]);
    vm_compute; reflexivity.
Defined.
